(** * Egypt voter API: the record-retrieval pipeline

    A shallow embedding of [src/selenium_scraper.py] (the retry-governed
    scraper) and [src/api.py] (the service boundary), with the properties
    the specification states about them.

    Conventions.
    - A Python [str] is a list of Unicode code points ([Z]); literals of the
      source in Arabic script are given by their code points, with the
      source line they come from.
    - A Python [dict] is a [gmap]: the field names of a result dict are
      [string] keys, the client addresses of the rate-limit store are
      Python strings.
    - Code that can raise returns a [Py.result]; effects on the browser, on
      the clock and on the logger are collected in a trace of events.
    - The browser is outside the repository: it is a stub that says, for
      every attempt, what each driver call does. *)

From Stdlib Require Import ZArith List String Ascii Lia Bool DecimalString Sorted.
From stdpp Require Import base gmap strings list.
Import ListNotations.
Local Open Scope Z_scope.

(** ** The Python runtime the two files rely on *)

Module Py.

Abbreviation str := (list Z).

(** An ASCII literal of the source. *)
Definition lit (s : string) : str :=
  map (fun a => Z.of_N (N_of_ascii a)) (list_ascii_of_string s).

Definition in_ranges (tbl : list (Z * Z)) (c : Z) : bool :=
  existsb (fun r => (fst r <=? c) && (c <=? snd r)) tbl.

(** The code points for which [str.isspace] holds (Unicode 14, the
    tables of CPython 3.11); [str.strip] and the [\s] of [re] use them. *)
Definition whitespace_ranges : list (Z * Z) :=
  [(9, 13); (28, 32); (133, 133); (160, 160); (5760, 5760); (8192, 8202);
   (8232, 8233); (8239, 8239); (8287, 8287); (12288, 12288)].

(** The decimal digits of every script (category Nd): [str.isdecimal]
    and the [\d] of [re]. *)
Definition decimal_ranges : list (Z * Z) :=
  [(48, 57); (1632, 1641); (1776, 1785); (1984, 1993); (2406, 2415); (2534, 2543);
   (2662, 2671); (2790, 2799); (2918, 2927); (3046, 3055); (3174, 3183); (3302, 3311);
   (3430, 3439); (3558, 3567); (3664, 3673); (3792, 3801); (3872, 3881); (4160, 4169);
   (4240, 4249); (6112, 6121); (6160, 6169); (6470, 6479); (6608, 6617); (6784, 6793);
   (6800, 6809); (6992, 7001); (7088, 7097); (7232, 7241); (7248, 7257); (42528, 42537);
   (43216, 43225); (43264, 43273); (43472, 43481); (43504, 43513); (43600, 43609); (44016, 44025);
   (65296, 65305); (66720, 66729); (68912, 68921); (69734, 69743); (69872, 69881); (69942, 69951);
   (70096, 70105); (70384, 70393); (70736, 70745); (70864, 70873); (71248, 71257); (71360, 71369);
   (71472, 71481); (71904, 71913); (72016, 72025); (72784, 72793); (73040, 73049); (73120, 73129);
   (92768, 92777); (92864, 92873); (93008, 93017); (120782, 120831); (123200, 123209); (123632, 123641);
   (125264, 125273); (130032, 130041)].

(** Digits that are not decimal (superscripts, circled digits, ...):
    [str.isdigit] accepts them as well. *)
Definition other_digit_ranges : list (Z * Z) :=
  [(178, 179); (185, 185); (4969, 4977); (6618, 6618); (8304, 8304); (8308, 8313);
   (8320, 8329); (9312, 9320); (9332, 9340); (9352, 9360); (9450, 9450); (9461, 9469);
   (9471, 9471); (10102, 10110); (10112, 10120); (10122, 10130); (68160, 68163); (69216, 69224);
   (69714, 69722); (127232, 127242)].

Definition isspace_char : Z -> bool := in_ranges whitespace_ranges.
Definition isdecimal_char : Z -> bool := in_ranges decimal_ranges.
Definition isdigit_char (c : Z) : bool :=
  isdecimal_char c || in_ranges other_digit_ranges c.
Definition is_ascii_digit (c : Z) : bool := (48 <=? c) && (c <=? 57).

(** [s.isdigit()]: every character is a digit and there is at least one. *)
Definition isdigit (s : str) : bool :=
  match s with
  | [] => false
  | _ => forallb isdigit_char s
  end.

Fixpoint lstrip (s : str) : str :=
  match s with
  | c :: s' => if isspace_char c then lstrip s' else s
  | [] => []
  end.
Definition rstrip (s : str) : str := rev (lstrip (rev s)).
(** [s.strip()] *)
Definition strip (s : str) : str := rstrip (lstrip s).

Fixpoint startswith (s p : str) : bool :=
  match p, s with
  | [], _ => true
  | a :: p', b :: s' => (a =? b) && startswith s' p'
  | _ :: _, [] => false
  end.

(** [needle in hay] *)
Fixpoint contains (needle hay : str) : bool :=
  startswith hay needle ||
  match hay with
  | [] => false
  | _ :: hay' => contains needle hay'
  end.

(** [hay.split(sep, 1)]: [None] stands for the one-element list (no
    occurrence of [sep]), [Some (before, after)] for the two parts around
    the first occurrence. [sep] is not empty at any call of the source. *)
Fixpoint split1 (sep hay : str) : option (str * str) :=
  if startswith hay sep then Some ([], skipn (length sep) hay)
  else match hay with
       | [] => None
       | c :: hay' =>
           match split1 sep hay' with
           | Some (before, after) => Some (c :: before, after)
           | None => None
           end
       end.

(** [s.split('\n')[0]] *)
Fixpoint first_line (s : str) : str :=
  match s with
  | [] => []
  | c :: s' => if c =? 10 then [] else c :: first_line s'
  end.

(** [s.replace(old, new)] for a needle [old] of one code point. *)
Definition replace1 (old : Z) (new : str) (s : str) : str :=
  flat_map (fun c => if c =? old then new else [c]) s.

(** [s.replace(old, new)] for a needle that is not empty: the text is
    read from the left, and the characters of a replaced occurrence are
    not read again. [skip] is the number of characters still to pass
    over. *)
Fixpoint replace_from (old new : str) (skip : nat) (s : str) : str :=
  match s with
  | [] => []
  | c :: s' =>
      match skip with
      | S skip' => replace_from old new skip' s'
      | O =>
          if startswith s old
          then new ++ replace_from old new (length old - 1) s'
          else c :: replace_from old new 0 s'
      end
  end.

Definition replace (old new s : str) : str := replace_from old new 0 s.

(** [s.endswith(suffix)] *)
Definition endswith (s suffix : str) : bool :=
  startswith (rev s) (rev suffix).

(** [s.lower()] on the code points below 128. The scraper lowers only
    messages it has built itself, which are ASCII; the other code points
    are left as they are. *)
Definition lower (s : str) : str :=
  map (fun c => if (65 <=? c) && (c <=? 90) then c + 32 else c) s.

(** [str(n)] for an [int]. *)
Definition str_of_int (n : Z) : str := lit (NilZero.string_of_int (Z.to_int n)).

Definition eqb (a b : str) : bool := bool_decide (a = b).

(** Exceptions: the class, as the handlers of the source tell them
    apart, and [str(e)]. *)
Inductive exn_class :=
| ValueError | TypeError | TimeoutError | ConnectionError
| TimeoutException | OtherException.

Record exn := Exn { exn_kind : exn_class; exn_str : str }.

Inductive result (A : Type) :=
| Ok (a : A)
| Raise (e : exn).
Arguments Ok {A} a.
Arguments Raise {A} e.

(** *** The fragment of [re] the scraper uses

    Its patterns are a label followed by greedy repetitions of character
    classes and one group: [LABEL\s*[:\s]+\s*([^\n]+)] and the like. The
    matcher backtracks as [re] does: a repetition first takes as many
    characters as it can and gives them back one by one while the rest of
    the pattern fails. *)
Module Re.

Inductive item :=
| Chr (c : Z)                (* one literal character *)
| Many (cls : Z -> bool)     (* [cls*] *)
| Many1 (cls : Z -> bool)    (* [cls+] *)
| Open                       (* ( *)
| Close.                     (* ) *)

Definition whitespace : Z -> bool := isspace_char.                (* \s *)
Definition colon_or_space (c : Z) : bool := (c =? 58) || isspace_char c.  (* [:\s] *)
Definition not_newline (c : Z) : bool := negb (c =? 10).          (* [^\n] *)
Definition digit : Z -> bool := isdecimal_char.                  (* \d *)

Definition literal (s : str) : list item := map Chr s.

Fixpoint many {A} (cls : Z -> bool) (k : str -> option A) (s : str) : option A :=
  match s with
  | c :: s' =>
      if cls c then
        match many cls k s' with
        | Some r => Some r
        | None => k s
        end
      else k s
  | [] => k []
  end.

(** [run p opened group s]: match [p] at the head of [s]; [opened] is
    the text that was left when the group opened and [group] the text
    of the group once it has closed. The result is the group. *)
Fixpoint run (p : list item) (opened group s : str) : option str :=
  match p with
  | [] => Some group
  | Chr c :: p' =>
      match s with
      | c' :: s' => if c' =? c then run p' opened group s' else None
      | [] => None
      end
  | Many cls :: p' => many cls (run p' opened group) s
  | Many1 cls :: p' =>
      match s with
      | c :: s' => if cls c then many cls (run p' opened group) s' else None
      | [] => None
      end
  | Open :: p' => run p' s group s
  | Close :: p' => run p' opened (firstn (length opened - length s) opened) s
  end.

(** [re.search(p, s)], then [.group(1)]: the leftmost start wins. *)
Fixpoint search (p : list item) (s : str) : option str :=
  match run p [] [] s with
  | Some g => Some g
  | None =>
      match s with
      | [] => None
      | _ :: s' => search p s'
      end
  end.

End Re.

(** *** Calling a function

    A signature lists the parameters after [self], each with or without
    a default; a call has some positional arguments and some keyword
    arguments. [check_call] is the binding of arguments to parameters,
    in the order CPython reports its errors: unknown or repeated
    keywords, too many positional arguments, parameters left without a
    value. *)
Record signature := Signature {
  qualname : string;
  params : list (string * bool)     (* name, has a default *)
}.

Record call := Call {
  positional : nat;
  keywords : list string
}.

Definition type_error (msg : str) : exn := Exn TypeError msg.

Fixpoint index_of (name : string) (names : list string) : option nat :=
  match names with
  | [] => None
  | n :: names' =>
      if String.eqb n name then Some O
      else option_map S (index_of name names')
  end.

Fixpoint check_keywords (sig : signature) (npos : nat)
    (seen kws : list string) : result unit :=
  match kws with
  | [] => Ok tt
  | kw :: kws' =>
      match index_of kw (map fst (params sig)) with
      | None =>
          Raise (type_error
            (lit (qualname sig) ++ lit "() got an unexpected keyword argument '"
               ++ lit kw ++ lit "'"))
      | Some i =>
          if (i <? npos)%nat || existsb (String.eqb kw) seen then
            Raise (type_error
              (lit (qualname sig) ++ lit "() got multiple values for argument '"
                 ++ lit kw ++ lit "'"))
          else check_keywords sig npos (kw :: seen) kws'
      end
  end.

Definition missing (sig : signature) (c : call) : list string :=
  map fst
    (List.filter
       (fun p => negb (snd p) && negb (existsb (String.eqb (fst p)) (keywords c)))
       (skipn (positional c) (params sig))).

Definition quoted (name : string) : str := lit "'" ++ lit name ++ lit "'".

(** ['a'], ['a' and 'b'], ['a', 'b', and 'c']. *)
Fixpoint enumerate (names : list string) : str :=
  match names with
  | [] => []
  | [a] => quoted a
  | [a; b] => quoted a ++ lit ", and " ++ quoted b
  | a :: names' => quoted a ++ lit ", " ++ enumerate names'
  end.

Definition name_list (names : list string) : str :=
  match names with
  | [a; b] => quoted a ++ lit " and " ++ quoted b
  | _ => enumerate names
  end.

Definition plural (n : nat) : str :=
  match n with
  | 1%nat => []
  | _ => lit "s"
  end.

(** The counts of the message include [self]. *)
Definition too_many (sig : signature) (c : call) : exn :=
  let total := S (length (params sig)) in
  let required := S (length (List.filter (fun p => negb (snd p)) (params sig))) in
  type_error
    (lit (qualname sig) ++ lit "() takes "
       ++ (if (required =? total)%nat then str_of_int (Z.of_nat total)
           else lit "from " ++ str_of_int (Z.of_nat required) ++ lit " to "
                  ++ str_of_int (Z.of_nat total))
       ++ lit " positional argument"
       ++ (if (required =? total)%nat then plural total else lit "s")
       ++ lit " but " ++ str_of_int (Z.of_nat (S (positional c)))
       ++ lit " were given").

Definition check_call (sig : signature) (c : call) : result unit :=
  match check_keywords sig (positional c) [] (keywords c) with
  | Raise e => Raise e
  | Ok _ =>
      if (length (params sig) <? positional c)%nat then Raise (too_many sig c)
      else
        match missing sig c with
        | [] => Ok tt
        | names =>
            Raise (type_error
              (lit (qualname sig) ++ lit "() missing "
                 ++ str_of_int (Z.of_nat (length names))
                 ++ lit " required positional argument" ++ plural (length names)
                 ++ lit ": " ++ name_list names))
        end
  end.

End Py.

Declare Scope pystr_scope.
Delimit Scope pystr_scope with py.
Notation "'s{' x '}'" := (Py.lit x%string)
  (at level 0, x at level 0, format "s{ x }") : pystr_scope.
Local Open Scope pystr_scope.

(** ** [src/selenium_scraper.py] *)

Module Scraper.

(** *** Literals of the source in Arabic script *)

(** Lines 314 and 320: the page says the person is under 18. *)
Definition UNDERAGE_MESSAGE : Py.str :=
  [1593; 1601; 1608; 1575; 44; 32; 1594; 1610; 1585; 32; 1605; 1587; 1605;
   1608; 1581; 32; 1604; 1573; 1602; 1604; 32; 1605; 1606; 32; 49; 56; 32;
   1587; 1606; 1577; 32; 1576; 1575; 1604; 1573; 1606; 1578; 1582; 1575;
   1576].

(** Lines 324 and 330: the identifier is not in the voter database. *)
Definition NOT_REGISTERED_MESSAGE : Py.str :=
  [1575; 1604; 1585; 1602; 1605; 32; 1575; 1604; 1602; 1608; 1605; 1610;
   32; 1594; 1610; 1585; 32; 1605; 1583; 1585; 1580; 32; 1576; 1602; 1575;
   1593; 1583; 1577; 32; 1576; 1610; 1575; 1606; 1575; 1578; 32; 1575;
   1604; 1606; 1575; 1582; 1576; 1610; 1606].

(** The labels of the five fields (lines 355, 370, 383, 399, 451). *)
Definition LABEL_CENTER : Py.str :=
  [1605; 1585; 1603; 1586; 1603; 32; 1575; 1604; 1573; 1606; 1578; 1582;
   1575; 1576; 1610].
Definition LABEL_DISTRICT : Py.str := [1602; 1587; 1605].
Definition LABEL_ADDRESS : Py.str := [1575; 1604; 1593; 1606; 1608; 1575; 1606].
Definition LABEL_SUBCOMMITTEE : Py.str :=
  [1585; 1602; 1605; 32; 1575; 1604; 1604; 1580; 1606; 1577; 32; 1575;
   1604; 1601; 1585; 1593; 1610; 1577].
Definition LABEL_LIST_NUMBER : Py.str :=
  [1585; 1602; 1605; 1603; 32; 1601; 1610; 32; 1575; 1604; 1603; 1588;
   1608; 1601; 32; 1575; 1604; 1575; 1606; 1578; 1582; 1575; 1576; 1610;
   1577].

(** *** [convert_arabic_numerals] (lines 549-558) *)

(** The dict of lines 551-554, in insertion order: the Arabic-Indic
    digits U+0660..U+0669 and their ASCII digit. *)
Definition arabic_to_english : list (Z * Z) :=
  [(1632, 48); (1633, 49); (1634, 50); (1635, 51); (1636, 52);
   (1637, 53); (1638, 54); (1639, 55); (1640, 56); (1641, 57)].

Definition convert_arabic_numerals (text : Py.str) : Py.str :=
  fold_left
    (fun result '(arabic, english) => Py.replace1 arabic [english] result)
    arabic_to_english text.

(** *** The result page, as the driver shows it *)

(** The XPath queries of [extract_result_data], by the line they are on. *)
Inductive xpath :=
| XCenter                 (* 355: text() contains the center label *)
| XDistrict               (* 370: text() contains the district label and ':' *)
| XAddress                (* 383 *)
| XSubcommitteeText       (* 399 *)
| XSubcommitteeAny        (* 400 *)
| XSubcommitteeNode       (* 401 *)
| XListNumberText         (* 451 *)
| XListNumberAny          (* 452 *)
| XListNumberNode.        (* 453 *)

(** An element found by a query: the text of its parent
    ([elem.find_element(By.XPATH, "./..").text]) and its own text; [None]
    when the driver raises. *)
Record element := Element {
  parent_text : option Py.str;
  own_text : option Py.str
}.

(** [body_text] is [find_element(By.TAG_NAME, "body").text] and
    [find_element] the answer to each query; [None] when the driver
    raises. *)
Record page := Page {
  body_text : option Py.str;
  find_element : xpath -> option element
}.

(** A result dict of the scraper; an absent key is [None]. The values of
    the inner dict ['data'] are all strings. *)
Record result := Result {
  success : bool;
  data : option (gmap string Py.str);
  error : option Py.str;
  national_id : option Py.str;
  retries_exhausted : option bool
}.

Definition failure (msg : Py.str) : result :=
  {| success := false; data := None; error := Some msg;
     national_id := None; retries_exhausted := None |}.

Definition found (d : gmap string Py.str) : result :=
  {| success := true; data := Some d; error := None;
     national_id := None; retries_exhausted := None |}.

(** *** Field extraction (lines 336-498) *)

Definition group_to_end_of_line : list Py.Re.item :=
  [Py.Re.Open; Py.Re.Many1 Py.Re.not_newline; Py.Re.Close].

(** [LABEL[:\s]+([^\n]+)] (lines 364 and 377) *)
Definition label_pattern (label : Py.str) : list Py.Re.item :=
  Py.Re.literal label ++ [Py.Re.Many1 Py.Re.colon_or_space] ++ group_to_end_of_line.

(** [LABEL\s*[:\s]+([^\n]+)] (lines 387 and 391) *)
Definition address_pattern : list Py.Re.item :=
  Py.Re.literal LABEL_ADDRESS
    ++ [Py.Re.Many Py.Re.whitespace; Py.Re.Many1 Py.Re.colon_or_space]
    ++ group_to_end_of_line.

(** [LABEL\s*[:\s]+\s*([^\n]+)] (lines 415, 429, 467, 481) *)
Definition number_pattern (label : Py.str) : list Py.Re.item :=
  Py.Re.literal label
    ++ [Py.Re.Many Py.Re.whitespace; Py.Re.Many1 Py.Re.colon_or_space;
        Py.Re.Many Py.Re.whitespace]
    ++ group_to_end_of_line.

(** [\d+], read through [.group()]: the whole match. *)
Definition digits_pattern : list Py.Re.item :=
  [Py.Re.Open; Py.Re.Many1 Py.Re.digit; Py.Re.Close].

(** [match.group(1).strip()] of a search, when it matches. *)
Definition search_stripped (p : list Py.Re.item) (text : Py.str) : option Py.str :=
  option_map Py.strip (Py.Re.search p text).

(** The text of the parent of the first element that answers [q]. *)
Definition parent_text_of (pg : page) (q : xpath) : option Py.str :=
  match find_element pg q with
  | Some elem => parent_text elem
  | None => None
  end.

(** Lines 354-366. When the element and its parent are found, the value
    is what follows the first ':' of the parent's text, up to the end of
    its line; without a ':' the field stays empty. The search in the full
    text is the handler of the [try]. *)
Definition extract_electoral_center (pg : page) (full_text : Py.str) : Py.str :=
  match parent_text_of pg XCenter with
  | Some parent =>
      match Py.split1 [58] parent with
      | Some (_, rest) => Py.strip (Py.first_line (Py.strip rest))
      | None => []
      end
  | None => default [] (search_stripped (label_pattern LABEL_CENTER) full_text)
  end.

(** Lines 369-379. *)
Definition extract_district (pg : page) (full_text : Py.str) : Py.str :=
  match parent_text_of pg XDistrict with
  | Some parent =>
      match Py.split1 (LABEL_DISTRICT ++ [58]) parent with
      | Some (_, rest) => Py.strip (Py.first_line (Py.strip rest))
      | None => []
      end
  | None => default [] (search_stripped (label_pattern LABEL_DISTRICT) full_text)
  end.

(** Lines 382-393. *)
Definition extract_address (pg : page) (full_text : Py.str) : Py.str :=
  match parent_text_of pg XAddress with
  | Some parent =>
      if Py.contains LABEL_ADDRESS parent
      then default [] (search_stripped address_pattern parent)
      else []
  | None => default [] (search_stripped address_pattern full_text)
  end.

(** Lines 415-421: the number after the label, in ASCII digits where the
    page had Arabic-Indic ones. *)
Definition number_after (label text : Py.str) : option Py.str :=
  match search_stripped (number_pattern label) text with
  | Some num_str => Py.Re.search digits_pattern (convert_arabic_numerals num_str)
  | None => None
  end.

(** The loop over the three queries (lines 404-425): the first element
    whose text yields a number ends it. *)
Fixpoint first_number (pg : page) (label : Py.str) (patterns : list xpath)
    : option Py.str :=
  match patterns with
  | [] => None
  | q :: patterns' =>
      match find_element pg q with
      | Some elem =>
          match (match parent_text elem with
                 | Some t => Some t
                 | None => own_text elem
                 end) with
          | Some text =>
              match number_after label text with
              | Some num => Some num
              | None => first_number pg label patterns'
              end
          | None => first_number pg label patterns'
          end
      | None => first_number pg label patterns'
      end
  end.

(** Lines 396-445 and 448-497. *)
Definition extract_number (pg : page) (label : Py.str) (patterns : list xpath)
    (full_text : Py.str) : Py.str :=
  match first_number pg label patterns with
  | Some num => num
  | None => default [] (number_after label full_text)
  end.

(** The dict [data] of a registration page. Every driver call of lines
    349-498 has a handler of its own, and the handlers only search the
    text, so the handlers of lines 499-533 and 542-547 are never
    entered. *)
Definition extract_fields (pg : page) (full_text : Py.str) : gmap string Py.str :=
  let data : gmap string Py.str :=
    <["electoral_list_number" := []]> (<["subcommittee_number" := []]>
    (<["address" := []]> (<["district" := []]> (<["electoral_center" := []]>
    {[ "status"%string := s{"success"} ]})))) in
  let data := <["electoral_center" := extract_electoral_center pg full_text]> data in
  let data := <["district" := extract_district pg full_text]> data in
  let data := <["address" := extract_address pg full_text]> data in
  let data := <["subcommittee_number" :=
                  extract_number pg LABEL_SUBCOMMITTEE
                    [XSubcommitteeText; XSubcommitteeAny; XSubcommitteeNode]
                    full_text]> data in
  <["electoral_list_number" :=
      extract_number pg LABEL_LIST_NUMBER
        [XListNumberText; XListNumberAny; XListNumberNode] full_text]> data.

(** *** [extract_result_data] (lines 287-547) *)

Definition terminal (status : string) (message : Py.str) : gmap string Py.str :=
  <["error_message" := message]> {[ "status"%string := Py.lit status ]}.

Definition extract_result_data (pg : page) : result :=
  match body_text pg with
  | None => failure s{"Failed to read page content"}
  | Some page_text =>
      if Py.eqb page_text [] || (length (Py.strip page_text) <? 10)%nat then
        failure s{"Page content is empty or incomplete"}
      else if Py.contains UNDERAGE_MESSAGE page_text then
        found (terminal "underage" UNDERAGE_MESSAGE)
      else if Py.contains NOT_REGISTERED_MESSAGE page_text then
        found (terminal "not_registered" NOT_REGISTERED_MESSAGE)
      else found (extract_fields pg page_text)
  end.

(** *** The browser stub

    What the driver does in one attempt. A step is a [wait.until] for an
    element followed by the calls on it. [switch_to.default_content()]
    has no outcome here: the source makes the call inside
    [try: ... except: pass] (lines 197-200, 212-215, 226-229, 245-248 and
    269-272), so whether the driver obeys changes neither what the attempt
    does next nor what the lookup returns. *)
Inductive step :=
| Done                      (* the element is there and the calls succeed *)
| TimedOut                  (* [TimeoutException] *)
| Fails (msg : Py.str).     (* another exception, [str(e) = msg] *)

Record attempt_stub := AttemptStub {
  navigate : option Py.str;   (* [driver.get]: [Some msg] when it raises *)
  frame : step;               (* lines 191-192 *)
  input : step;               (* lines 205-207 *)
  submit : step;              (* lines 220-221 *)
  result_page : page          (* the page after the submission *)
}.

(** The scraper object: the two settings of [__init__] and the driver,
    which answers by attempt (counted from 0, as [range] does). *)
Record scraper := FreeElectionsScraper {
  max_retries : Z;
  retry_delay : Z;
  driver : nat -> attempt_stub
}.

(** *** Effects *)

Inductive event :=
| LogRetry (attempt total delay : Z)   (* line 173 *)
| Sleep (seconds : Z)                  (* [time.sleep] *)
| LogQuery (attempt total : Z)         (* line 176 *)
| Get                                  (* [driver.get(INQUIRY_URL)] *)
| EnterFrame                           (* lines 191-192 *)
| FillInput (national_id : Py.str)     (* lines 205-207 *)
| ClickSubmit                          (* lines 220-221 *)
| AwaitResult                          (* line 237, its outcome is ignored *)
| ReadResult                           (* line 242 *)
| DefaultContent.      (* the call of [switch_to.default_content()] *)

(** How a block of an attempt ends before the end of the body. *)
Inductive exit :=
| Returns (r : result)          (* [return] *)
| Continues (msg : Py.str)      (* [last_error = msg; continue] *)
| Raises (msg : Py.str).        (* an exception for the handler of line 266 *)

(** The body of an attempt: a trace, and either an early exit or a value. *)
Definition block (A : Type) : Type := list event * (exit + A).

Definition ret {A} (a : A) : block A := ([], inr a).
Definition emit (e : event) : block unit := ([e], inr tt).
Definition leave {A} (x : exit) : block A := ([], inl x).
Definition bind {A B} (m : block A) (k : A -> block B) : block B :=
  match m with
  | (tr, inl x) => (tr, inl x)
  | (tr, inr a) => let '(tr', r) := k a in (tr ++ tr', r)
  end.

Declare Scope block_scope.
Notation "m ;; k" := (bind m (fun _ => k))
  (at level 100, k at level 200, right associativity) : block_scope.
Local Open Scope block_scope.

(** The largest and the smallest whole number of seconds whose count of
    nanoseconds fits the 64 signed bits of [time.sleep]: [2 ^ 63]
    nanoseconds are 9223372036.85 seconds. *)
Definition SLEEP_MAX : Z := 9223372036.
Definition SLEEP_MIN : Z := -9223372036.

(** The longest wait that passes whatever the monotonic clock reads below
    [2 ^ 62] nanoseconds: [2 ^ 62] nanoseconds are 4611686018.42 seconds. *)
Definition SLEEP_SAFE : Z := 4611686018.

Arguments SLEEP_MAX /.
Arguments SLEEP_MIN /.
Arguments SLEEP_SAFE /.

(** [time.sleep] for a whole number of seconds (CPython 3.11 on Linux).
    The length is first turned into a signed 64-bit count of nanoseconds:
    below [SLEEP_MIN] or above [SLEEP_MAX] seconds that is an
    [OverflowError].
    A negative length is then a [ValueError]. The call then waits until
    the reading of the monotonic clock plus the length, and fails with an
    [OSError] when that deadline does not fit the 64 bits. The clock is
    not part of the model: it is taken to read less than [2 ^ 62]
    nanoseconds (146 years since the start of the machine), so a length
    of at most [SLEEP_SAFE] passes. A longer one, up to [SLEEP_MAX],
    passes or fails by the reading of the clock; the model gives it the
    [OSError], and no property below rests on that choice: those that
    need a wait to pass keep to lengths of at most [SLEEP_SAFE], and the
    others hold of a trace whether the wait passes or raises. *)
Definition sleep (seconds : Z) : block unit :=
  if (seconds <? SLEEP_MIN) || (SLEEP_MAX <? seconds) then
    leave (Raises s{"timestamp too large to convert to C _PyTime_t"})
  else if seconds <? 0 then
    leave (Raises s{"sleep length must be non-negative"})
  else if SLEEP_SAFE <? seconds then
    leave (Raises s{"[Errno 22] Invalid argument"})
  else emit (Sleep seconds).

(** A guarded step (lines 190-201, 204-216, 219-230): a timeout is
    recorded under [msg] after the return to the top-level document; any
    other exception goes to the handler of the attempt. *)
Definition guarded (e : event) (s : step) (msg : Py.str) : block unit :=
  emit e ;;
  match s with
  | Done => ret tt
  | TimedOut => emit DefaultContent ;; leave (Continues msg)
  | Fails m => leave (Raises m)
  end.

(** Lines 250-264: what an attempt does with the dict it has read. *)
Definition after_extraction (result_data : result) : block unit :=
  if success result_data then leave (Returns result_data)
  else
    let error := default [] (error result_data) in
    if Py.contains s{"parse"} (Py.lower error)
       || Py.contains s{"extract"} (Py.lower error)
    then leave (Continues error)
    else leave (Returns result_data).

(** Lines 170-174: the wait before a retry. *)
Definition backoff (self : scraper) (attempt : nat) : block unit :=
  let a := Z.of_nat attempt in
  if 0 <? a then
    let delay := retry_delay self * 2 ^ (a - 1) in
    emit (LogRetry (a + 1) (max_retries self) delay) ;; sleep delay
  else ret tt.

(** Lines 178-264: navigate, enter the frame, fill the form, submit, read. *)
Definition interaction (self : scraper) (national_id : Py.str) (attempt : nat)
    : block unit :=
  let stub := driver self attempt in
  emit Get ;;
  match navigate stub with
  | Some e => leave (Continues (s{"Navigation error: "} ++ e))
  | None =>
      sleep 2 ;;
      guarded EnterFrame (frame stub)
        s{"Could not find iframe - page structure may have changed"} ;;
      guarded (FillInput national_id) (input stub)
        s{"Could not find national ID input field"} ;;
      guarded ClickSubmit (submit stub) s{"Could not find submit button"} ;;
      sleep 3 ;;
      emit AwaitResult ;;
      emit ReadResult ;;
      emit DefaultContent ;;
      after_extraction (extract_result_data (result_page stub))
  end.

(** Lines 170-264, the [try] of one attempt. *)
Definition attempt_try (self : scraper) (national_id : Py.str) (attempt : nat)
    : block unit :=
  backoff self attempt ;;
  emit (LogQuery (Z.of_nat attempt + 1) (max_retries self)) ;;
  interaction self national_id attempt.

(** How an attempt leaves the loop body. *)
Inductive ending :=
| Return (r : result)
| Continue (last_error : Py.str)
| Break (last_error : Py.str).

(** One iteration of the loop (lines 169-276): the [try] and the handler
    of line 266, which records [str(e)], returns to the top-level
    document and breaks on the last attempt. *)
Definition attempt_body (self : scraper) (national_id : Py.str) (attempt : nat)
    : list event * ending :=
  match attempt_try self national_id attempt with
  | (tr, inl (Returns r)) => (tr, Return r)
  | (tr, inl (Continues msg)) => (tr, Continue msg)
  | (tr, inl (Raises msg)) =>
      (tr ++ [DefaultContent],
       if Z.of_nat attempt =? max_retries self - 1 then Break msg else Continue msg)
  | (tr, inr _) => (tr, Continue [])   (* not reached: the body always exits *)
  end.

(** Lines 278-285; [str(None)] is ['None']. *)
Definition exhausted (self : scraper) (national_id_ : Py.str)
    (last_error : option Py.str) : result :=
  {| success := false;
     data := None;
     error := Some (s{"Failed after "} ++ Py.str_of_int (max_retries self)
                      ++ s{" attempts. Last error: "}
                      ++ default s{"None"} last_error);
     national_id := Some national_id_;
     retries_exhausted := Some true |}.

(** The loop over the attempts still to make. *)
Fixpoint attempts (self : scraper) (national_id : Py.str) (todo : list nat)
    (last_error : option Py.str) : list event * result :=
  match todo with
  | [] => ([], exhausted self national_id last_error)
  | attempt :: todo' =>
      match attempt_body self national_id attempt with
      | (tr, Return r) => (tr, r)
      | (tr, Continue msg) =>
          let '(tr', r) := attempts self national_id todo' (Some msg) in
          (tr ++ tr', r)
      | (tr, Break msg) => (tr, exhausted self national_id (Some msg))
      end
  end.

(** [scrape_electoral_data] (lines 156-285): the effects and the dict. *)
Definition scrape_electoral_data (self : scraper) (national_id : Py.str)
    : list event * result :=
  attempts self national_id (seq 0 (Z.to_nat (max_retries self))) None.

(** The signatures of the two entry points (lines 47 and 156). *)
Definition init_signature : Py.signature :=
  Py.Signature "FreeElectionsScraper.__init__"
    [("headless", true); ("max_retries", true); ("retry_delay", true)]%string.

Definition scrape_signature : Py.signature :=
  Py.Signature "FreeElectionsScraper.scrape_electoral_data"
    [("national_id", false)]%string.

(** [FreeElectionsScraper(...)] (lines 47-59): the call is bound to the
    signature, then [setup_driver(headless)] starts the browser, which can
    fail; [chrome] is the outcome of that start. *)
Definition new (c : Py.call) (headless : bool) (max_retries_ retry_delay_ : Z)
    (chrome : bool -> Py.result (nat -> attempt_stub)) : Py.result scraper :=
  match Py.check_call init_signature c with
  | Py.Raise e => Py.Raise e
  | Py.Ok _ =>
      match chrome headless with
      | Py.Raise e => Py.Raise e
      | Py.Ok d => Py.Ok (FreeElectionsScraper max_retries_ retry_delay_ d)
      end
  end.

End Scraper.

(** ** [src/selenium_scraper.py]: the batch, [convert_csv_to_excel] and
    [process_excel_file] (lines 567-572 and 595-751) *)

Module Batch.

(** Lines 32-38. *)
Definition ALLOWED_DISTRICTS : list Py.str :=
  [ [1602; 1587; 1605; 32; 1575; 1604; 1588; 1585; 1602];
    [1602; 1587; 1605; 32; 1575; 1604; 1593; 1585; 1576];
    [1602; 1587; 1605; 32; 1575; 1604; 1590; 1608; 1575; 1581; 1609];
    [1602; 1587; 1605; 32; 1571; 1608; 1604; 32; 1576; 1608; 1585; 1601;
     1572; 1575; 1583];
    [1602; 1587; 1605; 32; 1579; 1575; 1606; 32; 1576; 1608; 1585; 1601;
     1572; 1575; 1583] ].

(** The values of the status column (lines 698, 704 and 726). *)
Definition STATUS_UNDERAGE : Py.str :=
  [1604; 1610; 1587; 32; 1604; 1607; 32; 1581; 1602; 32; 1575; 1604; 1575;
   1606; 1578; 1582; 1575; 1576; 32; 45; 32; 1578; 1581; 1578; 32; 1575;
   1604; 1587; 1606].
Definition STATUS_NOT_REGISTERED : Py.str :=
  [1604; 1610; 1587; 32; 1604; 1607; 32; 1581; 1602; 32; 1575; 1604; 1575;
   1606; 1578; 1582; 1575; 1576].
Definition STATUS_ELIGIBLE : Py.str :=
  [1604; 1607; 32; 1581; 1602; 32; 1575; 1604; 1575; 1606; 1578; 1582; 1575;
   1576].

(** The keys of [output_columns] (lines 631-638). *)
Inductive column :=
| Center | District | Address | Subcommittee | ListNumber | Status.

(** What the loop does to the outside. *)
Inductive effect :=
| Scrape (row_idx : Z) (national_id : Py.str)    (* line 688 *)
| WriteCell (row_idx : Z) (col : column) (value : Py.str)
| Pause                                          (* [time.sleep(1)], line 740 *)
| CloseBrowser                                          (* line 744 *)
| SaveWorkbook.                                          (* line 751 *)

Record counters := Counters {
  processed : Z;
  skipped : Z;
  errors : Z
}.

Definition count_processed (c : counters) : counters :=
  Counters (processed c + 1) (skipped c) (errors c).
Definition count_skipped (c : counters) : counters :=
  Counters (processed c) (skipped c + 1) (errors c).
Definition count_error (c : counters) : counters :=
  Counters (processed c) (skipped c) (errors c + 1).

(** The scraper of line 658, with the settings [__init__] gives it; the
    browser answers by row and by attempt. *)
Definition scraper_of (browser : Z -> nat -> Scraper.attempt_stub) (row_idx : Z)
    : Scraper.scraper :=
  Scraper.FreeElectionsScraper 3 2 (browser row_idx).

(** Lines 675-740, one row. [cell] is the identifier cell of the row:
    [None] for an empty cell, [Some] of [str(value)] otherwise. A
    successful dict without ['data'] is a [KeyError]. *)
Definition process_row (browser : Z -> nat -> Scraper.attempt_stub)
    (row_idx : Z) (cell : option Py.str) (c : counters)
    : list effect * Py.result counters :=
  match cell with
  | None => ([], Py.Ok (count_skipped c))
  | Some text =>
      if Py.eqb (Py.strip text) [] then ([], Py.Ok (count_skipped c))
      else
        let national_id := Py.strip text in
        let result :=
          snd (Scraper.scrape_electoral_data (scraper_of browser row_idx)
                 national_id) in
        if Scraper.success result then
          match Scraper.data result with
          | None =>
              ([Scrape row_idx national_id],
               Py.Raise (Py.Exn Py.OtherException s{"'data'"}))
          | Some data =>
              let status := default s{"success"} (data !! "status"%string) in
              if Py.eqb status s{"underage"} then
                ([Scrape row_idx national_id;
                  WriteCell row_idx Status STATUS_UNDERAGE; Pause],
                 Py.Ok (count_processed c))
              else if Py.eqb status s{"not_registered"} then
                ([Scrape row_idx national_id;
                  WriteCell row_idx Status STATUS_NOT_REGISTERED; Pause],
                 Py.Ok (count_processed c))
              else if Py.eqb status s{"success"} then
                let district := default [] (data !! "district"%string) in
                if existsb (Py.eqb district) ALLOWED_DISTRICTS then
                  ([Scrape row_idx national_id;
                    WriteCell row_idx Center
                      (default [] (data !! "electoral_center"%string));
                    WriteCell row_idx District
                      (default [] (data !! "district"%string));
                    WriteCell row_idx Address (default [] (data !! "address"%string));
                    WriteCell row_idx Subcommittee
                      (default [] (data !! "subcommittee_number"%string));
                    WriteCell row_idx ListNumber
                      (default [] (data !! "electoral_list_number"%string));
                    WriteCell row_idx Status STATUS_ELIGIBLE; Pause],
                   Py.Ok (count_processed c))
                else ([Scrape row_idx national_id; Pause], Py.Ok (count_skipped c))
              else ([Scrape row_idx national_id; Pause], Py.Ok (count_error c))
          end
        else ([Scrape row_idx national_id; Pause], Py.Ok (count_error c))
  end.

(** Lines 667-671; [max_rows] is [None] or an [int]. *)
Definition end_row (max_rows : option Z) (total_rows : Z) : Z :=
  match max_rows with
  | Some m => if m =? 0 then total_rows + 1 else Z.min (2 + m) (total_rows + 1)
  | None => total_rows + 1
  end.

(** The loop of line 674 over the cells of the rows it visits. *)
Fixpoint rows (browser : Z -> nat -> Scraper.attempt_stub) (row_idx : Z)
    (cells : list (option Py.str)) (c : counters)
    : list effect * Py.result counters :=
  match cells with
  | [] => ([], Py.Ok c)
  | cell :: cells' =>
      match process_row browser row_idx cell c with
      | (tr, Py.Raise e) => (tr, Py.Raise e)
      | (tr, Py.Ok c') =>
          let '(tr', r) := rows browser (row_idx + 1) cells' c' in
          (tr ++ tr', r)
      end
  end.

(** The rows of [process_excel_file], lines 661-751. [ids] are the
    identifier cells of the rows from 2 to [ws.max_row]. The browser is
    closed and the workbook saved in the [finally]. *)
Definition process_rows (browser : Z -> nat -> Scraper.attempt_stub)
    (max_rows : option Z) (ids : list (option Py.str))
    : list effect * Py.result counters :=
  let total_rows := 1 + Z.of_nat (length ids) in
  let visited := firstn (Z.to_nat (end_row max_rows total_rows - 2)) ids in
  let '(tr, r) := rows browser 2 visited (Counters 0 0 0) in
  (tr ++ [CloseBrowser; SaveWorkbook], r).

(** *** File names (lines 571-572 and 606-610) *)

(** Line 606. The test reads the last four characters of the lowered
    name, and no character outside ASCII lowers to one of [.csv], so the
    lowering of the ASCII letters decides it. *)
Definition is_csv (input_file : Py.str) : bool :=
  Py.endswith (Py.lower input_file) s{".csv"}.

(** Lines 571-572: the name of the Excel file [convert_csv_to_excel]
    writes. *)
Definition excel_name (csv_file : Py.str) (excel_file : option Py.str) : Py.str :=
  match excel_file with
  | None => Py.replace s{".csv"} s{".xlsx"} csv_file
  | Some name => name
  end.

(** Lines 606-610: the name [process_excel_file] goes on with, which is
    the name it asks the conversion to write when it takes the input for
    a CSV file. The conversion itself (pandas) is not modelled, nor
    whether it succeeds. *)
Definition loaded_file (input_file : Py.str) : Py.str :=
  if is_csv input_file then excel_name input_file None else input_file.

(** *** The header row (lines 617-656) *)

(** Line 621. *)
Definition ID_HEADER : Py.str :=
  [1575; 1604; 1585; 1602; 1605; 32; 1575; 1604; 1602; 1608; 1605; 1610].

(** The keys of [output_columns] (lines 632-637). *)
Definition column_name (col : column) : Py.str :=
  match col with
  | Center =>
      [1575; 1604; 1605; 1585; 1603; 1586; 32; 1575; 1604; 1575; 1606; 1578;
       1582; 1575; 1576; 1610]
  | District => [1575; 1604; 1583; 1575; 1574; 1585; 1577]
  | Address => [1575; 1604; 1593; 1606; 1608; 1575; 1606]
  | Subcommittee =>
      [1585; 1602; 1605; 32; 1575; 1604; 1604; 1580; 1606; 1577; 32; 1575;
       1604; 1601; 1585; 1593; 1610; 1577]
  | ListNumber =>
      [1585; 1602; 1605; 1603; 32; 1601; 1610; 32; 1575; 1604; 1603; 1588;
       1608; 1601; 32; 1575; 1604; 1575; 1606; 1578; 1582; 1575; 1576; 1610;
       1577]
  | Status => [1575; 1604; 1581; 1575; 1604; 1577]
  end.

(** The keys in the order of the dict. *)
Definition output_columns : list column :=
  [Center; District; Address; Subcommittee;
   ListNumber; Status].

(** The header row: the cells of row 1 in the columns from 1 to
    [ws.max_column]; [None] for an empty cell, [Some] of [str(value)]
    otherwise. *)
Definition header_row : Type := list (option Py.str).

(** Lines 619-623 and 643-649: the first column, from [col_idx] on, whose
    cell holds [name]. A cell whose value is false has a text without the
    name. *)
Fixpoint find_header (name : Py.str) (col_idx : nat) (header : header_row)
    : option nat :=
  match header with
  | [] => None
  | cell :: header' =>
      match cell with
      | Some text =>
          if negb (Py.eqb text []) && Py.contains name text then Some col_idx
          else find_header name (S col_idx) header'
      | None => find_header name (S col_idx) header'
      end
  end.

(** Lines 641-656: each output column is found in the header or added
    after the last column, which makes it the last column. *)
Fixpoint find_or_create (names : list column) (header : header_row)
    : list (column * nat) * header_row :=
  match names with
  | [] => ([], header)
  | col :: names' =>
      match find_header (column_name col) 1 header with
      | Some col_idx =>
          let '(columns, header') := find_or_create names' header in
          ((col, col_idx) :: columns, header')
      | None =>
          let new_col := S (length header) in
          let '(columns, header') :=
            find_or_create names' (header ++ [Some (column_name col)]) in
          ((col, new_col) :: columns, header')
      end
  end.

End Batch.

(** ** [src/api.py] *)

Module Api.

(** Lines 30-36. *)
Definition ALLOWED_DISTRICTS : list Py.str :=
  [ [1602; 1587; 1605; 32; 1575; 1604; 1588; 1585; 1602];
    [1602; 1587; 1605; 32; 1575; 1604; 1593; 1585; 1576];
    [1602; 1587; 1605; 32; 1575; 1604; 1590; 1608; 1575; 1581; 1609];
    [1602; 1587; 1605; 32; 1571; 1608; 1604; 32; 1576; 1608; 1585; 1601;
     1572; 1575; 1583];
    [1602; 1587; 1605; 32; 1579; 1575; 1606; 32; 1576; 1608; 1585; 1601;
     1572; 1575; 1583] ].

(** Line 483: the voter is registered outside the target area. *)
Definition OUT_OF_DISTRICT_MESSAGE : Py.str :=
  [1575; 1604; 1606; 1575; 1582; 1576; 32; 1605; 1587; 1580; 1604; 32;
   1601; 1610; 32; 1583; 1575; 1574; 1585; 1577; 32; 1582; 1575; 1585;
   1580; 32; 1575; 1604; 1606; 1591; 1575; 1602; 32; 1575; 1604; 1605;
   1587; 1578; 1607; 1583; 1601].

(** *** Rate limiting (lines 39-63 and 111-131) *)

Definition RATE_LIMIT_REQUESTS : Z := 1000.
Definition RATE_LIMIT_WINDOW : Z := 60.

(** [check_rate_limit]. The store is the [defaultdict(list)] of line 63:
    a client that is not in it has the empty list. [current_time] is the
    reading of [time.time()], taken as an exact number of seconds. *)
Definition check_rate_limit (rate_limit_store : gmap (list Z) (list Z))
    (client_ip : Py.str) (current_time : Z) : gmap (list Z) (list Z) * bool :=
  let window_start := current_time - RATE_LIMIT_WINDOW in
  let kept :=
    filter (fun timestamp => timestamp > window_start)
      (default [] (rate_limit_store !! client_ip)) in
  if Z.of_nat (length kept) <? RATE_LIMIT_REQUESTS then
    (<[client_ip := kept ++ [current_time]]> rate_limit_store, true)
  else (<[client_ip := kept]> rate_limit_store, false).

(** What a handler sends back. *)
#[warnings="-register-all"]
Inductive json :=
| JBool (b : bool)
| JInt (n : Z)
| JStr (s : Py.str)
| JObj (fields : list (string * json)).

Inductive reply :=
| JSONResponse (status_code : Z) (content : json)
| HTTPException (status_code : Z) (detail : Py.str).

(** The value of a key of a JSON object. *)
Definition field (key : string) (j : json) : option json :=
  match j with
  | JObj fields =>
      option_map snd (List.find (fun kv => String.eqb (fst kv) key) fields)
  | _ => None
  end.

(** The part of a request the middleware reads. *)
Record request := Request {
  x_forwarded_for : option Py.str;   (* the header, when present *)
  client_host : Py.str               (* [request.client.host] *)
}.

(** Lines 116-118. *)
Definition client_identity (req : request) : Py.str :=
  let client_ip := default (client_host req) (x_forwarded_for req) in
  if negb (Py.eqb client_ip []) && Py.contains [44] client_ip then
    match Py.split1 [44] client_ip with
    | Some (first, _) => Py.strip first
    | None => Py.strip client_ip
    end
  else client_ip.

Definition rate_limited : reply :=
  JSONResponse 429
    (JObj [("success", JBool false);
           ("error", JStr (s{"Rate limit exceeded. Maximum "}
                             ++ Py.str_of_int RATE_LIMIT_REQUESTS
                             ++ s{" requests per "}
                             ++ Py.str_of_int RATE_LIMIT_WINDOW
                             ++ s{" seconds allowed."}));
           ("retry_after", JInt RATE_LIMIT_WINDOW)]%string).

(** [rate_limiting_middleware]: [call_next] is the rest of the
    application. *)
Definition rate_limiting_middleware (rate_limit_store : gmap (list Z) (list Z))
    (current_time : Z) (req : request) (call_next : request -> reply)
    : gmap (list Z) (list Z) * reply :=
  let '(store, allowed) :=
    check_rate_limit rate_limit_store (client_identity req) current_time in
  if negb allowed then (store, rate_limited) else (store, call_next req).

(** A series of requests, each with the reading of the clock at its
    arrival, through the middleware. *)
Fixpoint serve (rate_limit_store : gmap (list Z) (list Z))
    (call_next : request -> reply) (arrivals : list (Z * request))
    : gmap (list Z) (list Z) * list reply :=
  match arrivals with
  | [] => (rate_limit_store, [])
  | (now, req) :: arrivals' =>
      let '(store, r) := rate_limiting_middleware rate_limit_store now req call_next in
      let '(store', rs) := serve store call_next arrivals' in
      (store', r :: rs)
  end.

(** *** Validation *)

(** [NationalIDRequest.validate_national_id] (lines 208-223). *)
Definition validate_national_id (v : Py.str) : Py.result Py.str :=
  let v := Py.strip v in
  if negb (length v =? 14)%nat then
    Py.Raise (Py.Exn Py.ValueError
      (s{"National ID must be exactly 14 digits, got "}
         ++ Py.str_of_int (Z.of_nat (length v)) ++ s{" characters"}))
  else if negb (Py.isdigit v) then
    Py.Raise (Py.Exn Py.ValueError s{"National ID must contain only digits (0-9)"})
  else Py.Ok v.

(** *** Start-up (lines 70-89) *)

(** The global [scraper] after the start-up part of [lifespan]: the
    constructor is called with four keyword arguments, and any exception
    leaves [None]. [chrome] is what starting the browser gives. *)
Definition lifespan (chrome : bool -> Py.result (nat -> Scraper.attempt_stub))
    : option Scraper.scraper :=
  match Scraper.new
          (Py.Call 0 ["headless"; "max_retries"; "retry_delay"; "session_timeout"]%string)
          true 3 2 chrome with
  | Py.Ok s => Some s
  | Py.Raise _ => None
  end.

(** *** The response models (lines 227-369), as [model_dump(exclude_none=True)]
    gives them *)

Definition ErrorResponse (national_id error : Py.str)
    (retries_exhausted : option bool) : json :=
  JObj ([("success", JBool false); ("national_id", JStr national_id);
         ("error", JStr error)]%string
        ++ match retries_exhausted with
           | Some b => [("retries_exhausted"%string, JBool b)]
           | None => []
           end).

Definition SuccessResponse (national_id : Py.str)
    (electoral_center district address subcommittee_number electoral_list_number : Py.str)
    : json :=
  JObj [("success", JBool true); ("national_id", JStr national_id);
        ("status", JStr s{"registered"});
        ("data", JObj [("electoral_center", JStr electoral_center);
                       ("district", JStr district);
                       ("address", JStr address);
                       ("subcommittee_number", JStr subcommittee_number);
                       ("electoral_list_number", JStr electoral_list_number)])]%string.

Definition OutOfDistrictResponse (national_id : Py.str)
    (message district electoral_center address : Py.str) : json :=
  JObj [("success", JBool true); ("national_id", JStr national_id);
        ("status", JStr s{"out_of_district"});
        ("data", JObj [("message", JStr message);
                       ("reason", JStr s{"out_of_district"});
                       ("district", JStr district);
                       ("electoral_center", JStr electoral_center);
                       ("address", JStr address)])]%string.

(** [UnderageResponse] and [NotRegisteredResponse]. *)
Definition TerminalResponse (national_id : Py.str) (status : string)
    (message : Py.str) : json :=
  JObj [("success", JBool true); ("national_id", JStr national_id);
        ("status", JStr (Py.lit status));
        ("data", JObj [("message", JStr message);
                       ("reason", JStr (Py.lit status))])]%string.

(** *** [lookup_national_id] (lines 418-638) *)

(** [data.get(key, '')] *)
Definition get (data : gmap string Py.str) (key : string) : Py.str :=
  default [] (data !! key).

(** Lines 472-513: a registration page. *)
Definition registered (national_id : Py.str) (data : gmap string Py.str) : reply :=
  let district := get data "district" in
  if negb (Py.eqb district [])
     && negb (existsb (Py.eqb district) ALLOWED_DISTRICTS)
  then
    JSONResponse 200
      (OutOfDistrictResponse national_id OUT_OF_DISTRICT_MESSAGE district
         (get data "electoral_center") (get data "address"))
  else
    JSONResponse 200
      (SuccessResponse national_id (get data "electoral_center") district
         (get data "address") (get data "subcommittee_number")
         (get data "electoral_list_number")).

(** The handlers of lines 581-638, by the class of the exception. *)
Definition on_exception (national_id : Py.str) (e : Py.exn) : reply :=
  match Py.exn_kind e with
  | Py.ValueError => HTTPException 400 (Py.exn_str e)
  | Py.TimeoutError =>
      JSONResponse 200
        (ErrorResponse national_id
           s{"Request timeout. The website took too long to respond."} (Some true))
  | Py.ConnectionError =>
      JSONResponse 200
        (ErrorResponse national_id
           s{"Network connection error. Please check your internet connection and try again."}
           (Some true))
  | _ =>
      JSONResponse 200
        (ErrorResponse national_id
           (s{"Unexpected server error: "} ++ Py.exn_str e) None)
  end.

(** Lines 467-579: the answer for the dict the scraper has returned. A
    successful dict without ['data'] is a [KeyError] for the handlers. *)
Definition respond (national_id : Py.str) (result : Scraper.result) : reply :=
  if Scraper.success result then
    match Scraper.data result with
    | None => on_exception national_id (Py.Exn Py.OtherException s{"'data'"})
    | Some data =>
        let data_status := default s{"unknown"} (data !! "status"%string) in
        if Py.eqb data_status s{"success"} then registered national_id data
        else if Py.eqb data_status s{"underage"} then
          JSONResponse 200
            (TerminalResponse national_id "underage"
               (default Scraper.UNDERAGE_MESSAGE (data !! "error_message"%string)))
        else if Py.eqb data_status s{"not_registered"} then
          JSONResponse 200
            (TerminalResponse national_id "not_registered"
               (default Scraper.NOT_REGISTERED_MESSAGE (data !! "error_message"%string)))
        else
          JSONResponse 200
            (ErrorResponse national_id (s{"Unknown status: "} ++ data_status) None)
    end
  else
    let error_message := default s{"Unknown error occurred"} (Scraper.error result) in
    let retries_exhausted := default false (Scraper.retries_exhausted result) in
    JSONResponse 200
      (ErrorResponse national_id error_message
         (if retries_exhausted then Some true else None)).

(** [lookup_national_id], for the value of the global [scraper]. The
    call of line 452 passes the identifier by position and [timeout] by
    keyword; it is bound to the signature of the method before the method
    runs. The result is what the browser saw and the reply. *)
Definition lookup_national_id (scraper : option Scraper.scraper)
    (national_id : Py.str) : list Scraper.event * reply :=
  match scraper with
  | None =>
      ([], HTTPException 503
             s{"Scraper service is not available. Please try again later."})
  | Some self =>
      match Py.check_call Scraper.scrape_signature
              (Py.Call 1 ["timeout"%string]) with
      | Py.Raise e => ([], on_exception national_id e)
      | Py.Ok _ =>
          let '(tr, result) := Scraper.scrape_electoral_data self national_id in
          (tr, respond national_id result)
      end
  end.

(** [http_exception_handler] (lines 187-196). *)
Definition http_exception_handler (r : reply) : reply :=
  match r with
  | HTTPException status_code detail =>
      JSONResponse status_code
        (JObj [("success", JBool false); ("error", JStr detail)]%string)
  | _ => r
  end.

(** [lookup_national_id_get] (lines 641-665): the same validation, then
    the same lookup. The request model wraps the [ValueError] of the
    validator in its own error, whose text [report] stands for. *)
Definition lookup_national_id_get (report : Py.exn -> Py.str)
    (scraper : option Scraper.scraper) (national_id : Py.str)
    : list Scraper.event * reply :=
  match validate_national_id national_id with
  | Py.Raise e => ([], HTTPException 400 (report e))
  | Py.Ok v => lookup_national_id scraper v
  end.

End Api.

(** ** [src/api.py]: the handler of validation errors (lines 145-184) *)

Module Handlers.

(** An element of ['loc']: a name or an index. *)
Inductive loc_item :=
| Name (s : Py.str)
| Index (i : Z).

(** An item of [exc.errors()]; [input] is [error.get('input')]. *)
Record validation_error := ValidationError {
  loc : list loc_item;
  msg : Py.str;
  input : option Api.json
}.

(** The two bodies the handler sends, both with the status code 400. *)
Inductive content :=
| FirstError (error : Py.str) (field : loc_item) (input : option Api.json)
| Details (details : list (loc_item * Py.str)).

Definition VALUE_ERROR : Py.str := s{"Value error, "}.

(** [e['loc'][-1] if e['loc'] else 'unknown'] *)
Definition field_of (e : validation_error) : loc_item :=
  default (Name s{"unknown"}) (last (loc e)).

Definition validation_exception_handler (errors : list validation_error)
    : Z * content :=
  match errors with
  | error :: _ =>
      let msg := msg error in
      let msg :=
        if Py.startswith msg VALUE_ERROR then Py.replace VALUE_ERROR [] msg
        else msg in
      (400, FirstError msg (field_of error) (input error))
  | [] =>
      (400, Details (map (fun e => (field_of e, Py.replace VALUE_ERROR [] (msg e)))
                       errors))
  end.

End Handlers.

(** ** [src/api.py]: the [except] clauses of the lookup (lines 581-638) *)

Module Clauses.

(** The clauses, in the order of the source. *)
Inductive clause :=
| ExceptValueError            (* line 581 *)
| ExceptTimeoutError          (* line 588 *)
| ExceptConnectionError       (* line 601 *)
| ExceptTimeoutErrorAgain     (* line 614 *)
| ExceptException.            (* line 627 *)

Definition clauses : list clause :=
  [ExceptValueError; ExceptTimeoutError; ExceptConnectionError;
   ExceptTimeoutErrorAgain; ExceptException].

(** [isinstance(e, cls)] for the class of the clause. *)
Definition catches (cl : clause) (k : Py.exn_class) : bool :=
  match cl, k with
  | ExceptValueError, Py.ValueError => true
  | ExceptTimeoutError, Py.TimeoutError => true
  | ExceptConnectionError, Py.ConnectionError => true
  | ExceptTimeoutErrorAgain, Py.TimeoutError => true
  | ExceptException, _ => true
  | _, _ => false
  end.

(** The body of each clause. *)
Definition body (cl : clause) (national_id : Py.str) (e : Py.exn) : Api.reply :=
  match cl with
  | ExceptValueError => Api.HTTPException 400 (Py.exn_str e)
  | ExceptTimeoutError =>
      Api.JSONResponse 200
        (Api.ErrorResponse national_id
           s{"Request timeout. The website took too long to respond."} (Some true))
  | ExceptConnectionError =>
      Api.JSONResponse 200
        (Api.ErrorResponse national_id
           s{"Network connection error. Please check your internet connection and try again."}
           (Some true))
  | ExceptTimeoutErrorAgain =>
      Api.JSONResponse 200
        (Api.ErrorResponse national_id
           s{"Request timed out. The service took too long to respond. Please try again."}
           (Some true))
  | ExceptException =>
      Api.JSONResponse 200
        (Api.ErrorResponse national_id
           (s{"Unexpected server error: "} ++ Py.exn_str e) None)
  end.

(** The first clause that catches the exception handles it. *)
Fixpoint handle (cls : list clause) (e : Py.exn) : option clause :=
  match cls with
  | [] => None
  | cl :: cls' => if catches cl (Py.exn_kind e) then Some cl else handle cls' e
  end.

End Clauses.

(** ** Notions the statements use *)

(** *** Strings *)

(** [p] occurs in [s]. *)
Definition infix (p s : Py.str) : Prop := exists a b, s = a ++ p ++ b.

(** What the specification says of one character: the glyph of digit
    [d] becomes the ASCII digit [d], anything else is kept. *)
Definition is_arabic_digit (c : Z) : bool := (1632 <=? c) && (c <=? 1641).
Definition normalize_char (c : Z) : Z :=
  if is_arabic_digit c then c - 1632 + 48 else c.

(** The identifier of the examples of [api.py]. *)
Definition sample_id : Py.str := s{"29710260300314"}.

(** The same identifier written with the Arabic-Indic digits
    U+0660..U+0669. *)
Definition arabic_indic_id : Py.str :=
  [1634; 1641; 1639; 1633; 1632; 1634; 1638; 1632; 1635; 1632; 1632; 1635;
   1633; 1636].

(** *** Pages *)

(** The failure of line 308. *)
Definition EMPTY_PAGE : Scraper.result :=
  Scraper.failure s{"Page content is empty or incomplete"}.

(** A page that shows one word between blank lines: ten characters,
    seven without the whitespace at both ends. *)
Definition loading_text : Py.str := [10; 10] ++ s{"Loading"} ++ [10].

(** A page without text. *)
Definition blank_page : Scraper.page := Scraper.Page (Some []) (fun _ => None).

(** A result page whose body the driver cannot read. *)
Definition unreadable_page : Scraper.page := Scraper.Page None (fun _ => None).

(** A result page with the five fields, the numbers in Arabic-Indic
    digits and the district [district]; no query of the structural
    strategy finds an element. *)
Definition page_of_district (district : Py.str) : Scraper.page :=
  Scraper.Page
    (Some (Scraper.LABEL_CENTER ++ s{": School 7"} ++ [10]
           ++ Scraper.LABEL_DISTRICT ++ s{": "} ++ district ++ [10]
           ++ Scraper.LABEL_ADDRESS ++ s{": 123 Main"} ++ [10]
           ++ Scraper.LABEL_SUBCOMMITTEE ++ s{": "} ++ [1634; 1632] ++ [10]
           ++ Scraper.LABEL_LIST_NUMBER ++ s{": "} ++ [1639; 1640; 1640; 1633]))
    (fun _ => None).

(** The first district of [ALLOWED_DISTRICTS], and the district of the
    examples of [api.py], which is not in the list. *)
Definition inside_district : Py.str :=
  [1602; 1587; 1605; 32; 1575; 1604; 1588; 1585; 1602].

Definition sample_page : Scraper.page := page_of_district inside_district.

(** *** Stubs of the browser *)

(** Every step succeeds and the result page is [pg]. *)
Definition smooth (pg : Scraper.page) : Scraper.attempt_stub :=
  Scraper.AttemptStub None Scraper.Done Scraper.Done Scraper.Done pg.

(** The form frame does not show up. *)
Definition no_frame : Scraper.attempt_stub :=
  Scraper.AttemptStub None Scraper.TimedOut Scraper.Done Scraper.Done blank_page.

(** The frame shows up at the third attempt only, and then [pg]. *)
Definition third_time (pg : Scraper.page) (attempt : nat) : Scraper.attempt_stub :=
  match attempt with
  | 0%nat | 1%nat => no_frame
  | _ => smooth pg
  end.

Definition frameless_scraper : Scraper.scraper :=
  Scraper.FreeElectionsScraper 3 2 (fun _ => no_frame).
Definition flaky_scraper : Scraper.scraper :=
  Scraper.FreeElectionsScraper 3 2 (third_time sample_page).
Definition unreadable_scraper : Scraper.scraper :=
  Scraper.FreeElectionsScraper 3 2 (third_time unreadable_page).

(** Two attempts and a base delay that no wait can take, over a browser
    without the frame. *)
Definition impatient_scraper : Scraper.scraper :=
  Scraper.FreeElectionsScraper 2 (10 ^ 10) (fun _ => no_frame).

(** *** Traces *)

Definition is_log_query (e : Scraper.event) : bool :=
  match e with
  | Scraper.LogQuery _ _ => true
  | _ => false
  end.

(** The message an attempt records when it does not end the call. *)
Definition recorded (e : Scraper.ending) : option Py.str :=
  match e with
  | Scraper.Return _ => None
  | Scraper.Continue msg => Some msg
  | Scraper.Break msg => Some msg
  end.

(** The effects of an attempt that runs to the reading of the page. *)
Definition full_attempt (national_id : Py.str) : list Scraper.event :=
  [Scraper.Get; Scraper.Sleep 2; Scraper.EnterFrame; Scraper.FillInput national_id;
   Scraper.ClickSubmit; Scraper.Sleep 3; Scraper.AwaitResult; Scraper.ReadResult;
   Scraper.DefaultContent].

(** The effects of an attempt that does not find the frame. *)
Definition frame_attempt : list Scraper.event :=
  [Scraper.Get; Scraper.Sleep 2; Scraper.EnterFrame; Scraper.DefaultContent].

(** What lines 170-174 leave in the trace before attempt [attempt]
    (counted from 0) when the wait passes. *)
Definition backoff_events (self : Scraper.scraper) (attempt : nat)
    : list Scraper.event :=
  match attempt with
  | O => []
  | S _ =>
      let delay := Scraper.retry_delay self * 2 ^ (Z.of_nat attempt - 1) in
      [Scraper.LogRetry (Z.of_nat attempt + 1) (Scraper.max_retries self) delay;
       Scraper.Sleep delay]
  end.

(** A trace opens attempt [attempt] only right after the wait that the
    attempt is due: where it has the line of the log for an attempt, that
    attempt is [attempt], and the events before the line are the wait. *)
Definition paced (self : Scraper.scraper) (attempt : nat)
    (tr : list Scraper.event) : Prop :=
  forall i n t,
    tr !! i = Some (Scraper.LogQuery n t) ->
    n = Z.of_nat attempt + 1 /\ t = Scraper.max_retries self
    /\ i = length (backoff_events self attempt)
    /\ forall m e, backoff_events self attempt !! m = Some e -> tr !! m = Some e.

(** *** The access gate *)

(** The timestamps a client has in the store. *)
Definition stored (store : gmap (list Z) (list Z)) (client_ip : Py.str) : list Z :=
  default [] (store !! client_ip).

(** [t] lies in the window of length [RATE_LIMIT_WINDOW] that opens
    after [start]. *)
Definition in_window (start t : Z) : Prop :=
  start < t <= start + Api.RATE_LIMIT_WINDOW.

(** A client, and 1001 of its requests inside one minute: request [i]
    arrives at second [1 + i mod 60]. *)
Definition sample_client : Api.request :=
  Api.Request None s{"203.0.113.7"}.

Definition burst : list (Z * Api.request) :=
  map (fun i => (1 + Z.of_nat i mod 60, sample_client)) (seq 0 1001).

(** A store that remembers a request of that client from long before. *)
Definition old_store : gmap (list Z) (list Z) :=
  {[ s{"203.0.113.7"} := [-100] ]}.

(** The rest of the application, for the examples. *)
Definition passed (req : Api.request) : Api.reply :=
  Api.JSONResponse 200 (Api.JObj []).

(** *** Start-up *)

(** The keyword arguments of the constructor call of lines 77-82. *)
Definition startup_call : Py.call :=
  Py.Call 0 ["headless"; "max_retries"; "retry_delay"; "session_timeout"]%string.

(** *** The access gate, over time *)

(** The times at which a client is admitted, when it asks at the given
    readings of the clock. *)
Fixpoint admitted (store : gmap (list Z) (list Z)) (client_ip : Py.str)
    (times : list Z) : list Z :=
  match times with
  | [] => []
  | now :: times' =>
      let '(store', allowed) := Api.check_rate_limit store client_ip now in
      (if allowed then [now] else []) ++ admitted store' client_ip times'
  end.

(** [in_window], as a test. *)
Definition in_windowb (start t : Z) : bool :=
  (start <? t) && (t <=? start + Api.RATE_LIMIT_WINDOW).

(** The request comes from [client_ip]. *)
Definition from (client_ip : Py.str) (a : Z * Api.request) : bool :=
  Py.eqb (Api.client_identity (snd a)) client_ip.

(** *** The attempts of a lookup *)

(** The browser goes through every step of the attempt. *)
Definition completes (stub : Scraper.attempt_stub) : bool :=
  match Scraper.navigate stub, Scraper.frame stub, Scraper.input stub,
        Scraper.submit stub with
  | None, Scraper.Done, Scraper.Done, Scraper.Done => true
  | _, _, _, _ => false
  end.

(** What a step that does not succeed leaves as the last error. *)
Definition step_message (s : Scraper.step) (timeout : Py.str) : option Py.str :=
  match s with
  | Scraper.Done => None
  | Scraper.TimedOut => Some timeout
  | Scraper.Fails msg => Some msg
  end.

(** The last error of an attempt that does not complete: the message of
    its first step that fails. *)
Definition failure_message (stub : Scraper.attempt_stub) : Py.str :=
  match Scraper.navigate stub with
  | Some e => s{"Navigation error: "} ++ e
  | None =>
      match step_message (Scraper.frame stub)
              s{"Could not find iframe - page structure may have changed"} with
      | Some msg => msg
      | None =>
          match step_message (Scraper.input stub)
                  s{"Could not find national ID input field"} with
          | Some msg => msg
          | None =>
              default [] (step_message (Scraper.submit stub)
                            s{"Could not find submit button"})
          end
      end
  end.

(** The document the switches of a trace ask the driver for, from
    [inside] (the form frame) or the top-level document: [None] when the
    trace loads the page or looks for the frame after asking for the
    frame, or touches the form after asking for the top-level document.
    It follows the calls, not the driver: the source ignores what
    [switch_to.default_content()] raises, so the driver is where the calls
    ask only if it obeys them. *)
Fixpoint frame_state (inside : bool) (tr : list Scraper.event) : option bool :=
  match tr with
  | [] => Some inside
  | e :: tr' =>
      match e with
      | Scraper.Get => if inside then None else frame_state false tr'
      | Scraper.EnterFrame => if inside then None else frame_state true tr'
      | Scraper.FillInput _ | Scraper.ClickSubmit | Scraper.AwaitResult
      | Scraper.ReadResult => if inside then frame_state true tr' else None
      | Scraper.DefaultContent => frame_state false tr'
      | Scraper.LogRetry _ _ _ | Scraper.Sleep _ | Scraper.LogQuery _ _ =>
          frame_state inside tr'
      end
  end.

(** The number of times a trace loads the inquiry page. *)
Fixpoint page_loads (tr : list Scraper.event) : nat :=
  match tr with
  | [] => 0
  | Scraper.Get :: tr' => S (page_loads tr')
  | _ :: tr' => page_loads tr'
  end.

(** The seconds a trace spends in [time.sleep]. *)
Fixpoint slept (tr : list Scraper.event) : Z :=
  match tr with
  | [] => 0
  | Scraper.Sleep seconds :: tr' => seconds + slept tr'
  | _ :: tr' => slept tr'
  end.

(** The waits before attempts [0] to [m - 1], added up. *)
Definition total_backoff (self : Scraper.scraper) (m : nat) : Z :=
  match m with
  | O => 0
  | S m' => Scraper.retry_delay self * (2 ^ Z.of_nat m' - 1)
  end.

(** *** Result pages *)

(** A repetition of [cls] cannot go on into [rest]. *)
Definition stops (cls : Z -> bool) (rest : Py.str) : bool :=
  match rest with
  | [] => true
  | c :: _ => negb (cls c)
  end.

(** The text shows [value] for [label]: after the first occurrence of the
    label come colons or whitespace, then the value, which goes to the end
    of its line. *)
Definition shows (text label value : Py.str) : Prop :=
  exists pre sep post,
    Py.split1 label text = Some (pre, sep ++ value ++ post)
    /\ sep <> [] /\ forallb Py.Re.colon_or_space sep = true
    /\ value <> [] /\ forallb Py.Re.not_newline value = true
    /\ stops Py.Re.colon_or_space value = true
    /\ stops Py.Re.not_newline post = true.

(** A number as the page writes it: ASCII or Arabic-Indic digits. *)
Definition written_number (value : Py.str) : bool :=
  forallb (fun c => Py.is_ascii_digit c || is_arabic_digit c) value.

(** A value on one line, without whitespace around it. *)
Definition trimmed_line (v : Py.str) : Prop :=
  forallb Py.Re.not_newline v = true /\ Py.strip v = v.

(** Decimal digits, none of them an Arabic-Indic glyph. *)
Definition converted_digits (v : Py.str) : bool :=
  forallb (fun c => Py.isdecimal_char c && negb (is_arabic_digit c)) v.

(** No item of the pattern opens or closes a group. *)
Definition groupless (p : list Py.Re.item) : bool :=
  forallb (fun it => match it with
                     | Py.Re.Open | Py.Re.Close => false
                     | _ => true
                     end) p.

(** The text the number loop reads from an element (lines 408-412): the
    text of the parent, or the element's own when the parent cannot be
    read. *)
Definition element_text (elem : Scraper.element) : option Py.str :=
  match Scraper.parent_text elem with
  | Some t => Some t
  | None => Scraper.own_text elem
  end.

(** *** Replies *)

(** What lines 467-579 make of a dict: a reply with the status code 200
    whose body mirrors the dict and never reports an unknown status. *)
Definition answered (national_id : Py.str) (r : Scraper.result) : Prop :=
  exists content,
    Api.respond national_id r = Api.JSONResponse 200 content
    /\ Api.field "success" content = Some (Api.JBool (Scraper.success r))
    /\ Api.field "national_id" content = Some (Api.JStr national_id)
    /\ Api.field "retries_exhausted" content
         = option_map Api.JBool (Scraper.retries_exhausted r)
    /\ (if Scraper.success r then
          exists status,
            Api.field "status" content = Some (Api.JStr status)
            /\ In status [s{"registered"}; s{"out_of_district"}; s{"underage"};
                          s{"not_registered"}]
        else
          exists message,
            Scraper.error r = Some message
            /\ Api.field "error" content = Some (Api.JStr message)).

(** *** The batch *)

(** The number of rows a run visits. *)
Definition rows_visited (max_rows : option Z) (n : nat) : nat :=
  match max_rows with
  | Some m => if m =? 0 then n else Nat.min (Z.to_nat m) n
  | None => n
  end.

(** A cell that holds an identifier. *)
Definition holds_id (cell : option Py.str) : bool :=
  match cell with
  | Some text => negb (Py.eqb (Py.strip text) [])
  | None => false
  end.

(** The lookup a row asks for: none for a cell without an identifier. *)
Definition lookup_of (row_idx : Z) (cell : option Py.str) : list Batch.effect :=
  match cell with
  | Some text =>
      if Py.eqb (Py.strip text) [] then []
      else [Batch.Scrape row_idx (Py.strip text)]
  | None => []
  end.

(** The lookups of the rows from [row_idx] on, in their order. *)
Fixpoint lookups (row_idx : Z) (cells : list (option Py.str)) : list Batch.effect :=
  match cells with
  | [] => []
  | cell :: cells' => lookup_of row_idx cell ++ lookups (row_idx + 1) cells'
  end.

Definition is_scrape (e : Batch.effect) : bool :=
  match e with Batch.Scrape _ _ => true | _ => false end.
Definition is_pause (e : Batch.effect) : bool :=
  match e with Batch.Pause => true | _ => false end.
Definition is_status (e : Batch.effect) : bool :=
  match e with Batch.WriteCell _ Batch.Status _ => true | _ => false end.

(** No cell of the header holds the name of an output column. *)
Definition fresh_header (header : Batch.header_row) : Prop :=
  forall col, Batch.find_header (Batch.column_name col) 1 header = None.

(** The rows the counters have counted. *)
Definition total (c : Batch.counters) : Z :=
  Batch.processed c + Batch.skipped c + Batch.errors c.

(** * Properties *)

(** ** The runtime model on concrete inputs

    Each line is what CPython 3.11 answers on the same input. *)

Example strip_both_ends : Py.strip s{"  29710260300314 "} = s{"29710260300314"}.
Proof. reflexivity. Qed.

Example strip_no_break_space : Py.strip [160; 55; 8195] = [55].
Proof. reflexivity. Qed.

Example isdigit_ascii : Py.isdigit s{"29710260300314"} = true.
Proof. reflexivity. Qed.

Example isdigit_superscript : Py.isdigit [178] = true.
Proof. reflexivity. Qed.

Example isdigit_letter : Py.isdigit s{"2971026030031a"} = false.
Proof. reflexivity. Qed.

Example isdigit_empty : Py.isdigit [] = false.
Proof. reflexivity. Qed.

Example split1_colon : Py.split1 [58] s{"a: b: c"} = Some (s{"a"}, s{" b: c"}).
Proof. reflexivity. Qed.

(** [re.search(r'ab[:\s]+([^\n]+)', 'ab: \n').group(1)] is [' ']: the
    repetition gives the space back to the group. *)
Example search_backtracks :
  Py.Re.search
    (Py.Re.literal s{"ab"} ++ [Py.Re.Many1 Py.Re.colon_or_space; Py.Re.Open;
                               Py.Re.Many1 Py.Re.not_newline; Py.Re.Close])
    (s{"ab: "} ++ [10]) = Some s{" "}.
Proof. reflexivity. Qed.

Example search_no_value :
  Py.Re.search
    (Py.Re.literal s{"ab"} ++ [Py.Re.Many1 Py.Re.colon_or_space; Py.Re.Open;
                               Py.Re.Many1 Py.Re.not_newline; Py.Re.Close])
    (s{"ab"} ++ [10; 10]) = None.
Proof. reflexivity. Qed.

Example address_of_page :
  Scraper.extract_address sample_page (default [] (Scraper.body_text sample_page))
    = s{"123 Main"}.
Proof. vm_compute. reflexivity. Qed.

Example numbers_of_page :
  Scraper.extract_fields sample_page (default [] (Scraper.body_text sample_page))
    !! "subcommittee_number"%string = Some s{"20"}
  /\ Scraper.extract_fields sample_page (default [] (Scraper.body_text sample_page))
    !! "electoral_list_number"%string = Some s{"7881"}.
Proof. split; vm_compute; reflexivity. Qed.

Example call_with_position_only :
  Py.check_call Scraper.scrape_signature (Py.Call 1 []) = Py.Ok tt.
Proof. reflexivity. Qed.

Example call_without_argument :
  Py.check_call Scraper.scrape_signature (Py.Call 0 []) =
    Py.Raise (Py.type_error
      s{"FreeElectionsScraper.scrape_electoral_data() missing 1 required positional argument: 'national_id'"}).
Proof. reflexivity. Qed.

Example constructor_with_its_keywords :
  Py.check_call Scraper.init_signature
    (Py.Call 0 ["headless"; "max_retries"; "retry_delay"]%string) = Py.Ok tt.
Proof. reflexivity. Qed.

Example constructor_with_too_many :
  Py.check_call Scraper.init_signature (Py.Call 4 []) =
    Py.Raise (Py.type_error
      s{"FreeElectionsScraper.__init__() takes from 1 to 4 positional arguments but 5 were given"}).
Proof. reflexivity. Qed.

(** ** The numeral normalizer *)

Section NumeralNormalizer.

Lemma replace1_single old new s :
  Py.replace1 old [new] s = map (fun c => if c =? old then new else c) s.
Proof.
  unfold Py.replace1. induction s as [|c s IH]; simpl; [reflexivity|].
  rewrite IH. destruct (c =? old); reflexivity.
Qed.

Lemma fold_replace1_map (tbl : list (Z * Z)) : forall s,
  fold_left (fun r '(a, e) => Py.replace1 a [e] r) tbl s =
  map (fun c => fold_left (fun c '(a, e) => if c =? a then e else c) tbl c) s.
Proof.
  induction tbl as [|[a e] tbl IH]; intros s; simpl.
  - symmetry. apply map_id.
  - rewrite IH, replace1_single, map_map. reflexivity.
Qed.

Lemma table_normalize_char c :
  fold_left (fun c '(a, e) => if c =? a then e else c)
    Scraper.arabic_to_english c = normalize_char c.
Proof.
  unfold normalize_char, is_arabic_digit, Scraper.arabic_to_english.
  destruct (Z.leb_spec 1632 c) as [Hlo|Hlo]; simpl.
  - destruct (Z.leb_spec c 1641) as [Hhi|Hhi].
    + assert (Hc : c = 1632 \/ c = 1633 \/ c = 1634 \/ c = 1635 \/ c = 1636
                \/ c = 1637 \/ c = 1638 \/ c = 1639 \/ c = 1640 \/ c = 1641) by lia.
      repeat (destruct Hc as [->|Hc]; [reflexivity|]). subst c. reflexivity.
    + repeat (match goal with
              | |- context [?x =? ?y] =>
                  destruct (Z.eqb_spec x y); [lia|]
              end). reflexivity.
  - repeat (match goal with
            | |- context [?x =? ?y] =>
                destruct (Z.eqb_spec x y); [lia|]
            end). reflexivity.
Qed.

Lemma lookup_map {A B} (f : A -> B) (l : list A) (i : nat) :
  map f l !! i = f <$> (l !! i).
Proof.
  revert i. induction l as [|a l IH]; intros [|i]; simpl; auto.
Qed.

Lemma convert_is_map text :
  Scraper.convert_arabic_numerals text = map normalize_char text.
Proof.
  unfold Scraper.convert_arabic_numerals.
  rewrite fold_replace1_map. apply map_ext. intros c. apply table_normalize_char.
Qed.

Lemma normalize_char_not_glyph c : is_arabic_digit (normalize_char c) = false.
Proof.
  unfold normalize_char. destruct (is_arabic_digit c) eqn:E; [|exact E].
  unfold is_arabic_digit in *. lia.
Qed.

Lemma normalize_char_fixed c : is_arabic_digit c = false -> normalize_char c = c.
Proof. unfold normalize_char. intros ->. reflexivity. Qed.

End NumeralNormalizer.

(** C10. [convert_arabic_numerals] is a total function that replaces
    every Arabic-Indic digit glyph, one for one, by its ASCII digit and
    keeps every other character: the result is the input mapped through
    [normalize_char], it has the length of the input, an input without
    glyphs is returned as it is, no glyph is left, and a second
    application changes nothing. *)
Theorem convert_arabic_numerals_spec (text : Py.str) :
  Scraper.convert_arabic_numerals text = map normalize_char text
  /\ length (Scraper.convert_arabic_numerals text) = length text
  /\ (forall i d, (0 <= d <= 9) ->
        text !! i = Some (1632 + d) ->
        Scraper.convert_arabic_numerals text !! i = Some (48 + d))
  /\ (forall i c, is_arabic_digit c = false ->
        text !! i = Some c ->
        Scraper.convert_arabic_numerals text !! i = Some c)
  /\ (forallb (fun c => negb (is_arabic_digit c)) text = true ->
        Scraper.convert_arabic_numerals text = text)
  /\ forallb (fun c => negb (is_arabic_digit c))
       (Scraper.convert_arabic_numerals text) = true
  /\ Scraper.convert_arabic_numerals (Scraper.convert_arabic_numerals text)
     = Scraper.convert_arabic_numerals text.
Proof.
  rewrite !convert_is_map. repeat split.
  - apply length_map.
  - intros i d Hd Hi. rewrite lookup_map, Hi. simpl. f_equal.
    unfold normalize_char, is_arabic_digit.
    replace ((1632 <=? 1632 + d) && (1632 + d <=? 1641)) with true by lia. lia.
  - intros i c Hc Hi. rewrite lookup_map, Hi. simpl. f_equal. apply normalize_char_fixed, Hc.
  - intros H. rewrite <- (map_id text) at 2. apply map_ext_in. intros c Hin.
    apply normalize_char_fixed. rewrite forallb_forall in H.
    specialize (H c Hin). destruct (is_arabic_digit c); [discriminate|reflexivity].
  - rewrite forallb_forall. intros c Hin. apply in_map_iff in Hin as [c0 [<- _]].
    rewrite normalize_char_not_glyph. reflexivity.
  - rewrite map_map. apply map_ext. intros c.
    apply normalize_char_fixed, normalize_char_not_glyph.
Qed.

Lemma convert_arabic_numerals_spec_witness :
  Scraper.convert_arabic_numerals s{"No. 7881"} = s{"No. 7881"}
  /\ Scraper.convert_arabic_numerals [1639; 1640; 1640; 1633] = s{"7881"}.
Proof.
  split.
  - destruct (convert_arabic_numerals_spec s{"No. 7881"})
      as (_ & _ & _ & _ & Hascii & _).
    apply Hascii. reflexivity.
  - rewrite (proj1 (convert_arabic_numerals_spec [1639; 1640; 1640; 1633])).
    reflexivity.
Defined.


(** ** Strings *)

Section Strings.


Lemma startswith_app s p : Py.startswith s p = true -> exists b, s = p ++ b.
Proof.
  revert s. induction p as [|a p IH]; intros s H.
  - exists s. reflexivity.
  - destruct s as [|c s]; simpl in H; [discriminate|].
    apply andb_true_iff in H as [Hac Hp]. apply Z.eqb_eq in Hac. subst c.
    destruct (IH _ Hp) as [b ->]. exists b. reflexivity.
Qed.

Lemma contains_infix p s : Py.contains p s = true -> infix p s.
Proof.
  induction s as [|c s IH]; cbn [Py.contains]; intros H.
  - rewrite orb_false_r in H. apply startswith_app in H as [b Hb].
    exists [], b. exact Hb.
  - apply orb_true_iff in H as [H|H].
    + apply startswith_app in H as [b Hb]. exists [], b. exact Hb.
    + destruct (IH H) as (a & b & ->). exists (c :: a), b. reflexivity.
Qed.

Lemma infix_length p s : infix p s -> (length p <= length s)%nat.
Proof. intros (a & b & ->). rewrite !length_app. lia. Qed.

Lemma infix_rev p s : infix p s -> infix (rev p) (rev s).
Proof.
  intros (a & b & ->). exists (rev b), (rev a).
  rewrite !rev_app_distr, <- app_assoc. reflexivity.
Qed.

(** Stripping the left end keeps an occurrence of a text that does not
    begin with whitespace. *)
Lemma lstrip_infix c p s :
  Py.isspace_char c = false -> infix (c :: p) s -> infix (c :: p) (Py.lstrip s).
Proof.
  intros Hc (a & b & ->). induction a as [|x a IH]; simpl.
  - rewrite Hc. exists [], b. reflexivity.
  - destruct (Py.isspace_char x); [exact IH|].
    exists (x :: a), b. reflexivity.
Qed.

Lemma strip_infix p s first last_ :
  hd_error p = Some first -> hd_error (rev p) = Some last_ ->
  Py.isspace_char first = false -> Py.isspace_char last_ = false ->
  infix p s -> infix p (Py.strip s).
Proof.
  intros Hf Hl Hsf Hsl H. unfold Py.strip, Py.rstrip.
  destruct p as [|c p]; [discriminate|]. injection Hf as ->.
  apply (lstrip_infix _ _ _ Hsf) in H. apply infix_rev in H.
  destruct (rev (first :: p)) as [|c' p'] eqn:E; [discriminate|].
  injection Hl as ->. apply (lstrip_infix _ _ _ Hsl) in H.
  apply infix_rev in H. rewrite <- E, rev_involutive in H. exact H.
Qed.

Lemma lstrip_length s : (length (Py.lstrip s) <= length s)%nat.
Proof.
  induction s as [|c s IH]; simpl; [lia|].
  destruct (Py.isspace_char c); simpl; lia.
Qed.

Lemma strip_length s : (length (Py.strip s) <= length s)%nat.
Proof.
  unfold Py.strip, Py.rstrip. rewrite length_rev.
  etransitivity; [apply lstrip_length|]. rewrite length_rev. apply lstrip_length.
Qed.

Lemma eqb_nil s : Py.eqb s [] = true -> s = [].
Proof. unfold Py.eqb. intros H. apply bool_decide_eq_true in H. exact H. Qed.

Lemma eqb_eq a b : Py.eqb a b = true <-> a = b.
Proof. unfold Py.eqb. apply bool_decide_eq_true. Qed.

Lemma ascii_digit_isdigit c : Py.is_ascii_digit c = true -> Py.isdigit_char c = true.
Proof.
  unfold Py.is_ascii_digit, Py.isdigit_char, Py.isdecimal_char, Py.in_ranges.
  intros H. cbn [existsb Py.decimal_ranges fst snd]. rewrite H. reflexivity.
Qed.

End Strings.

(** ** Identifier validation *)

Section Validation.

Lemma validate_rejects_length v :
  length (Py.strip v) <> 14%nat ->
  Api.validate_national_id v =
  Py.Raise (Py.Exn Py.ValueError
    (s{"National ID must be exactly 14 digits, got "}
       ++ Py.str_of_int (Z.of_nat (length (Py.strip v))) ++ s{" characters"})).
Proof.
  intros H. unfold Api.validate_national_id.
  apply Nat.eqb_neq in H. cbv zeta. rewrite H. reflexivity.
Qed.

Lemma validate_rejects_non_digit v :
  length (Py.strip v) = 14%nat -> Py.isdigit (Py.strip v) = false ->
  Api.validate_national_id v =
  Py.Raise (Py.Exn Py.ValueError s{"National ID must contain only digits (0-9)"}).
Proof.
  intros Hlen Hd. unfold Api.validate_national_id. cbv zeta.
  rewrite Hlen, Hd. reflexivity.
Qed.

Lemma validate_accepts_ascii_digits v :
  length (Py.strip v) = 14%nat ->
  forallb Py.is_ascii_digit (Py.strip v) = true ->
  Api.validate_national_id v = Py.Ok (Py.strip v).
Proof.
  intros Hlen Hd. unfold Api.validate_national_id. cbv zeta. rewrite Hlen.
  assert (Hdig : Py.isdigit (Py.strip v) = true).
  { unfold Py.isdigit. destruct (Py.strip v) as [|c s] eqn:E; [discriminate|].
    rewrite forallb_forall in *. intros x Hx.
    apply ascii_digit_isdigit, Hd, Hx. }
  rewrite Hdig. reflexivity.
Qed.


End Validation.

(** C4. Validation trims, rejects every length other than 14 with the
    observed length in the message, and accepts 14 ASCII digits unchanged;
    but it does not reject every 14-character input with a character that
    is not an ASCII digit: [str.isdigit] holds of the digits of every
    script, so the 14 Arabic-Indic digits of [arabic_indic_id], none of
    which is an ASCII digit, are accepted. *)
Theorem validate_national_id_accepts_arabic_indic_digits :
  length arabic_indic_id = 14%nat
  /\ Py.strip arabic_indic_id = arabic_indic_id
  /\ forallb (fun c => negb (Py.is_ascii_digit c)) arabic_indic_id = true
  /\ Api.validate_national_id arabic_indic_id = Py.Ok arabic_indic_id
  /\ (forall v, length (Py.strip v) <> 14%nat ->
        Api.validate_national_id v =
        Py.Raise (Py.Exn Py.ValueError
          (s{"National ID must be exactly 14 digits, got "}
             ++ Py.str_of_int (Z.of_nat (length (Py.strip v)))
             ++ s{" characters"})))
  /\ (forall v, length (Py.strip v) = 14%nat ->
        forallb Py.is_ascii_digit (Py.strip v) = true ->
        Api.validate_national_id v = Py.Ok (Py.strip v)).
Proof.
  split; [reflexivity|]. split; [reflexivity|]. split; [reflexivity|].
  split; [vm_compute; reflexivity|]. split.
  - apply validate_rejects_length.
  - apply validate_accepts_ascii_digits.
Qed.

(** ** The outcome classifier *)

Section Classifier.

Lemma underage_not_blank s :
  Py.contains Scraper.UNDERAGE_MESSAGE s = true ->
  (40 <= length (Py.strip s))%nat.
Proof.
  intros H. apply contains_infix in H.
  apply (strip_infix _ _ 1593 1576) in H; try reflexivity.
  apply infix_length in H. exact H.
Qed.

Lemma not_registered_not_blank s :
  Py.contains Scraper.NOT_REGISTERED_MESSAGE s = true ->
  (44 <= length (Py.strip s))%nat.
Proof.
  intros H. apply contains_infix in H.
  apply (strip_infix _ _ 1575 1606) in H; try reflexivity.
  apply infix_length in H. exact H.
Qed.

Lemma plausible_text text :
  (10 <= length (Py.strip text))%nat ->
  Py.eqb text [] || (length (Py.strip text) <? 10)%nat = false.
Proof.
  intros H. apply orb_false_iff. split.
  - destruct (Py.eqb text []) eqn:E; [|reflexivity].
    apply eqb_nil in E. subst text. simpl in H. lia.
  - apply Nat.ltb_ge. exact H.
Qed.


Lemma blank_text_is_empty_page text find :
  (length (Py.strip text) < 10)%nat ->
  Scraper.extract_result_data (Scraper.Page (Some text) find) = EMPTY_PAGE.
Proof.
  intros H. unfold Scraper.extract_result_data. cbn [Scraper.body_text].
  assert (E : (length (Py.strip text) <? 10)%nat = true) by (apply Nat.ltb_lt; exact H).
  rewrite E, orb_true_r. reflexivity.
Qed.

Lemma plausible_text_is_classified text find :
  (10 <= length (Py.strip text))%nat ->
  Scraper.extract_result_data (Scraper.Page (Some text) find) =
    if Py.contains Scraper.UNDERAGE_MESSAGE text then
      Scraper.found (Scraper.terminal "underage" Scraper.UNDERAGE_MESSAGE)
    else if Py.contains Scraper.NOT_REGISTERED_MESSAGE text then
      Scraper.found (Scraper.terminal "not_registered" Scraper.NOT_REGISTERED_MESSAGE)
    else Scraper.found (Scraper.extract_fields (Scraper.Page (Some text) find) text).
Proof.
  intros H. unfold Scraper.extract_result_data. cbn [Scraper.body_text].
  rewrite (plausible_text text H). reflexivity.
Qed.

End Classifier.

(** C5, as the specification states it, fails on a page text of ten
    characters of which seven are left without the whitespace at both
    ends: it has the length of the threshold and neither phrase, and the
    classifier answers with the empty-page failure, not with a
    registration. *)
Lemma classifier_raw_length_counterexample :
  let pg := Scraper.Page (Some loading_text) (fun _ => None) in
  (10 <= length loading_text)%nat
  /\ Py.contains Scraper.UNDERAGE_MESSAGE loading_text = false
  /\ Py.contains Scraper.NOT_REGISTERED_MESSAGE loading_text = false
  /\ Scraper.extract_result_data pg = EMPTY_PAGE
  /\ Scraper.success (Scraper.extract_result_data pg) = false
  /\ Scraper.extract_result_data pg
     <> Scraper.found (Scraper.extract_fields pg loading_text).
Proof.
  cbv zeta. split; [simpl; lia|]. split; [reflexivity|]. split; [reflexivity|].
  split; [reflexivity|]. split; [reflexivity|]. intros H. discriminate H.
Qed.

(** C5, amended: the threshold of 10 characters is on the text without
    its leading and trailing whitespace. For every page text: with the
    underage phrase the classifier returns Underage with that phrase,
    whatever else the page holds; with the not-registered phrase and
    without the underage phrase it returns NotRegistered; with neither
    phrase and a trimmed length of at least 10 it returns the record of
    the field extraction as a registration; with a trimmed length below
    10, and so for an empty text or one shorter than 10, it returns the
    empty-page failure. *)
Theorem extract_result_data_classifies
    (text : Py.str) (find : Scraper.xpath -> option Scraper.element) :
  let pg := Scraper.Page (Some text) find in
  (Py.contains Scraper.UNDERAGE_MESSAGE text = true ->
     Scraper.extract_result_data pg =
     Scraper.found (Scraper.terminal "underage" Scraper.UNDERAGE_MESSAGE))
  /\ (Py.contains Scraper.UNDERAGE_MESSAGE text = false ->
      Py.contains Scraper.NOT_REGISTERED_MESSAGE text = true ->
      Scraper.extract_result_data pg =
      Scraper.found (Scraper.terminal "not_registered" Scraper.NOT_REGISTERED_MESSAGE))
  /\ ((10 <= length (Py.strip text))%nat ->
      Py.contains Scraper.UNDERAGE_MESSAGE text = false ->
      Py.contains Scraper.NOT_REGISTERED_MESSAGE text = false ->
      Scraper.extract_result_data pg =
      Scraper.found (Scraper.extract_fields pg text))
  /\ ((length (Py.strip text) < 10)%nat ->
      Scraper.extract_result_data pg = EMPTY_PAGE)
  /\ ((length text < 10)%nat ->
      Scraper.extract_result_data pg = EMPTY_PAGE).
Proof.
  cbv zeta. repeat split.
  - intros Hu. pose proof (underage_not_blank _ Hu) as Hlen.
    rewrite plausible_text_is_classified by lia. rewrite Hu. reflexivity.
  - intros Hu Hn. pose proof (not_registered_not_blank _ Hn) as Hlen.
    rewrite plausible_text_is_classified by lia. rewrite Hu, Hn. reflexivity.
  - intros Hlen Hu Hn.
    rewrite plausible_text_is_classified by lia. rewrite Hu, Hn. reflexivity.
  - apply blank_text_is_empty_page.
  - intros Hlen. pose proof (strip_length text) as Hle.
    apply blank_text_is_empty_page. lia.
Qed.

Lemma extract_result_data_classifies_witness :
  Scraper.extract_result_data sample_page =
    Scraper.found
      (Scraper.extract_fields sample_page (default [] (Scraper.body_text sample_page)))
  /\ Scraper.extract_result_data
       (Scraper.Page (Some (s{"  "} ++ Scraper.UNDERAGE_MESSAGE ++ s{" x"})) (fun _ => None)) =
     Scraper.found (Scraper.terminal "underage" Scraper.UNDERAGE_MESSAGE)
  /\ Scraper.extract_result_data (Scraper.Page (Some s{"   abc    "}) (fun _ => None)) =
     EMPTY_PAGE.
Proof.
  split; [|split].
  - destruct (extract_result_data_classifies
                (default [] (Scraper.body_text sample_page)) (fun _ => None))
      as (_ & _ & Hregistered & _).
    apply Hregistered.
    + vm_compute. lia.
    + reflexivity.
    + reflexivity.
  - destruct (extract_result_data_classifies
                (s{"  "} ++ Scraper.UNDERAGE_MESSAGE ++ s{" x"}) (fun _ => None))
      as (Hunderage & _).
    apply Hunderage. reflexivity.
  - destruct (extract_result_data_classifies s{"   abc    "} (fun _ => None))
      as (_ & _ & _ & Hblank & _).
    apply Hblank. vm_compute. lia.
Defined.

(** ** The retry controller *)

Section RetryController.

Variable self : Scraper.scraper.
Variable national_id : Py.str.

Let N := Scraper.max_retries self.

Lemma after_extraction_trace r : fst (Scraper.after_extraction r) = [].
Proof.
  unfold Scraper.after_extraction.
  destruct (Scraper.success r); [reflexivity|].
  destruct (_ || _); reflexivity.
Qed.

Lemma after_extraction_leaves r :
  exists x, Scraper.after_extraction r = ([], inl x).
Proof.
  unfold Scraper.after_extraction.
  destruct (Scraper.success r); [eexists; reflexivity|].
  destruct (_ || _); eexists; reflexivity.
Qed.

(** The interaction always leaves the body, and logs no new attempt. *)
Lemma interaction_leaves attempt :
  exists tr x,
    Scraper.interaction self national_id attempt = (tr, inl x)
    /\ forallb (fun e => negb (is_log_query e)) tr = true.
Proof.
  unfold Scraper.interaction.
  destruct (after_extraction_leaves
              (Scraper.extract_result_data
                 (Scraper.result_page (Scraper.driver self attempt)))) as [x Hx].
  destruct (Scraper.navigate (Scraper.driver self attempt));
    [do 2 eexists; split; reflexivity|].
  destruct (Scraper.frame (Scraper.driver self attempt));
    [|do 2 eexists; split; reflexivity ..].
  destruct (Scraper.input (Scraper.driver self attempt));
    [|do 2 eexists; split; reflexivity ..].
  destruct (Scraper.submit (Scraper.driver self attempt));
    [|do 2 eexists; split; reflexivity ..].
  cbn. rewrite Hx. do 2 eexists; split; reflexivity.
Qed.

Lemma quiet_lookup (tr : list Scraper.event) i n total :
  forallb (fun e => negb (is_log_query e)) tr = true ->
  tr !! i = Some (Scraper.LogQuery n total) -> False.
Proof.
  intros Hq Hi. rewrite forallb_forall in Hq.
  assert (Hin : In (Scraper.LogQuery n total) tr).
  { apply list_elem_of_In. eapply list_elem_of_lookup_2. exact Hi. }
  specialize (Hq _ Hin). discriminate Hq.
Qed.

Lemma backoff_events_quiet attempt :
  forallb (fun e => negb (is_log_query e)) (backoff_events self attempt) = true.
Proof. destruct attempt; reflexivity. Qed.

(** A length from 0 to [SLEEP_SAFE] passes. *)
Lemma sleep_passes seconds :
  0 <= seconds <= Scraper.SLEEP_SAFE ->
  Scraper.sleep seconds = ([Scraper.Sleep seconds], inr tt).
Proof.
  intros H. unfold Scraper.sleep.
  assert (Hmax : Scraper.SLEEP_SAFE <= Scraper.SLEEP_MAX) by discriminate.
  assert (Hmin : Scraper.SLEEP_MIN <= 0) by discriminate.
  replace (seconds <? Scraper.SLEEP_MIN) with false by (symmetry; apply Z.ltb_ge; lia).
  replace (Scraper.SLEEP_MAX <? seconds) with false by (symmetry; apply Z.ltb_ge; lia).
  replace (seconds <? 0) with false by (symmetry; apply Z.ltb_ge; lia).
  replace (Scraper.SLEEP_SAFE <? seconds) with false by (symmetry; apply Z.ltb_ge; lia).
  reflexivity.
Qed.

(** Any other length raises. *)
Lemma sleep_cases seconds :
  Scraper.sleep seconds = ([Scraper.Sleep seconds], inr tt)
  \/ exists msg, Scraper.sleep seconds = ([], inl (Scraper.Raises msg)).
Proof.
  unfold Scraper.sleep.
  destruct ((seconds <? Scraper.SLEEP_MIN) || (Scraper.SLEEP_MAX <? seconds));
    [right; eexists; reflexivity|].
  destruct (seconds <? 0); [right; eexists; reflexivity|].
  destruct (Scraper.SLEEP_SAFE <? seconds); [right; eexists; reflexivity|].
  left. reflexivity.
Qed.

Lemma wait_nonneg attempt :
  0 <= Scraper.retry_delay self ->
  0 <= Scraper.retry_delay self * 2 ^ (Z.of_nat attempt - 1).
Proof.
  intros H. apply Z.mul_nonneg_nonneg; [exact H|]. apply Z.pow_nonneg. lia.
Qed.

(** The wait before the last attempt is the longest. *)
Lemma longest_wait attempt :
  0 <= Scraper.retry_delay self ->
  Z.of_nat attempt < N ->
  Scraper.retry_delay self * 2 ^ (Z.of_nat attempt - 1)
    <= Scraper.retry_delay self * 2 ^ (N - 2).
Proof.
  intros Hd Ha. apply Z.mul_le_mono_nonneg_l; [exact Hd|].
  destruct attempt as [|a].
  - change (Z.of_nat 0 - 1) with (-1). rewrite Z.pow_neg_r by lia.
    apply Z.pow_nonneg. lia.
  - apply Z.pow_le_mono_r; lia.
Qed.

(** With a wait from 0 to [SLEEP_SAFE] the wait passes. *)
Lemma backoff_runs attempt :
  0 <= Scraper.retry_delay self ->
  Scraper.retry_delay self * 2 ^ (Z.of_nat attempt - 1) <= Scraper.SLEEP_SAFE ->
  Scraper.backoff self attempt = (backoff_events self attempt, inr tt).
Proof.
  intros Hd Hs. unfold Scraper.backoff, backoff_events.
  destruct attempt as [|a]; [reflexivity|].
  assert (Hpos : (0 <? Z.of_nat (S a)) = true) by (apply Z.ltb_lt; lia).
  rewrite Hpos. cbv zeta.
  rewrite sleep_passes by (split; [apply wait_nonneg, Hd|exact Hs]). reflexivity.
Qed.

(** The wait passes, or it raises after its line of the log. *)
Lemma backoff_cases attempt :
  Scraper.backoff self attempt = (backoff_events self attempt, inr tt)
  \/ exists msg,
       Scraper.backoff self attempt =
         ([Scraper.LogRetry (Z.of_nat attempt + 1) N
             (Scraper.retry_delay self * 2 ^ (Z.of_nat attempt - 1))],
          inl (Scraper.Raises msg)).
Proof.
  unfold Scraper.backoff, backoff_events.
  destruct attempt as [|a]; [left; reflexivity|].
  assert (Hpos : (0 <? Z.of_nat (S a)) = true) by (apply Z.ltb_lt; lia).
  rewrite Hpos. cbv zeta.
  destruct (sleep_cases (Scraper.retry_delay self * 2 ^ (Z.of_nat (S a) - 1)))
    as [->|[msg ->]]; [left; reflexivity|right; exists msg; reflexivity].
Qed.

(** The trace of an attempt: the wait, the line of the log that opens
    the attempt, and effects that open no other attempt. *)
Lemma attempt_body_shape attempt :
  Scraper.backoff self attempt = (backoff_events self attempt, inr tt) ->
  exists rest e,
    Scraper.attempt_body self national_id attempt =
      (backoff_events self attempt
         ++ Scraper.LogQuery (Z.of_nat attempt + 1) N :: rest, e)
    /\ forallb (fun e => negb (is_log_query e)) rest = true.
Proof.
  intros Hb. unfold Scraper.attempt_body, Scraper.attempt_try.
  destruct (interaction_leaves attempt) as (tr & x & Hi & Hq).
  rewrite Hb, Hi. cbn [Scraper.bind Scraper.emit app].
  destruct x as [r|msg|msg].
  - exists tr. eexists. split; [reflexivity|exact Hq].
  - exists tr. eexists. split; [reflexivity|exact Hq].
  - exists (tr ++ [Scraper.DefaultContent]). eexists. split.
    + rewrite <- app_assoc. reflexivity.
    + rewrite forallb_app, Hq. reflexivity.
Qed.

Lemma shape_paced attempt (rest : list Scraper.event) :
  forallb (fun e => negb (is_log_query e)) rest = true ->
  paced self attempt
    (backoff_events self attempt
       ++ Scraper.LogQuery (Z.of_nat attempt + 1) N :: rest).
Proof.
  intros Hq i n t Hi. apply lookup_app_Some in Hi as [Hi|[Hle Hi]].
  - exfalso. eapply quiet_lookup; [apply backoff_events_quiet|exact Hi].
  - destruct (i - length (backoff_events self attempt))%nat as [|m] eqn:E.
    + injection Hi as <- <-. repeat split; [lia|].
      intros m e Hm. apply lookup_app_l_Some, Hm.
    + exfalso. eapply quiet_lookup; [exact Hq|exact Hi].
Qed.

(** A retry whose wait raises opens nothing. *)
Lemma failed_wait_opens_nothing attempt msg :
  Scraper.backoff self attempt =
    ([Scraper.LogRetry (Z.of_nat attempt + 1) N
        (Scraper.retry_delay self * 2 ^ (Z.of_nat attempt - 1))],
     inl (Scraper.Raises msg)) ->
  fst (Scraper.attempt_body self national_id attempt) =
    [Scraper.LogRetry (Z.of_nat attempt + 1) N
       (Scraper.retry_delay self * 2 ^ (Z.of_nat attempt - 1));
     Scraper.DefaultContent].
Proof.
  intros Hb. unfold Scraper.attempt_body, Scraper.attempt_try. rewrite Hb.
  reflexivity.
Qed.

Lemma attempt_body_paced attempt :
  paced self attempt (fst (Scraper.attempt_body self national_id attempt)).
Proof.
  destruct (backoff_cases attempt) as [Hb|[msg Hb]].
  - destruct (attempt_body_shape attempt Hb) as (rest & e & Hbody & Hq).
    rewrite Hbody. apply shape_paced, Hq.
  - rewrite (failed_wait_opens_nothing attempt msg Hb).
    intros [|[|i]] n t Hi; discriminate.
Qed.

(** Where the log opens an attempt, the wait of that attempt is what
    comes just before. *)
Lemma attempts_log_query k : forall s last_error i n total,
  fst (Scraper.attempts self national_id (seq s k) last_error) !! i
    = Some (Scraper.LogQuery n total) ->
  exists attempt j : nat,
    n = Z.of_nat attempt + 1 /\ total = N
    /\ (s <= attempt < s + k)%nat
    /\ (attempt = s -> j = 0%nat)
    /\ i = (j + length (backoff_events self attempt))%nat
    /\ forall m e, backoff_events self attempt !! m = Some e ->
         fst (Scraper.attempts self national_id (seq s k) last_error) !! (j + m)%nat
           = Some e.
Proof.
  induction k as [|k IH]; intros s last_error i n total Hi.
  - simpl in Hi. rewrite lookup_nil in Hi. discriminate.
  - cbn [seq Scraper.attempts] in *.
    pose proof (attempt_body_paced s) as Hp.
    destruct (Scraper.attempt_body self national_id s) as [tr e].
    cbn [fst] in Hp.
    assert (Here : forall tail : list Scraper.event,
              tr !! i = Some (Scraper.LogQuery n total) ->
              exists attempt j : nat,
                n = Z.of_nat attempt + 1 /\ total = N
                /\ (s <= attempt < s + S k)%nat
                /\ (attempt = s -> j = 0%nat)
                /\ i = (j + length (backoff_events self attempt))%nat
                /\ forall m e0, backoff_events self attempt !! m = Some e0 ->
                     (tr ++ tail) !! (j + m)%nat = Some e0).
    { intros tail H. destruct (Hp _ _ _ H) as (-> & -> & -> & Hpre).
      exists s, 0%nat. repeat split; try lia.
      intros m e0 Hm. apply lookup_app_l_Some, Hpre, Hm. }
    destruct e as [r|msg|msg].
    + destruct (Here [] Hi) as (a & j & H1 & H2 & H3 & H4 & H5 & H6).
      exists a, j. repeat split; try assumption; try lia.
      intros m e0 Hm. specialize (H6 m e0 Hm). rewrite app_nil_r in H6. exact H6.
    + destruct (Scraper.attempts self national_id (seq (S s) k) (Some msg))
        as [tr' r'] eqn:Hrest.
      cbn [fst] in *. apply lookup_app_Some in Hi as [Hi|[Hle Hi]].
      * destruct (Here tr' Hi) as (a & j & H1 & H2 & H3 & H4 & H5 & H6).
        exists a, j. repeat split; try assumption; lia.
      * destruct (IH (S s) (Some msg) (i - length tr)%nat n total)
          as (a & j & H1 & H2 & H3 & H4 & H5 & H6).
        { rewrite Hrest. exact Hi. }
        rewrite Hrest in H6. cbn [fst] in H6.
        exists a, (length tr + j)%nat. repeat split; try assumption; try lia.
        intros m e0 Hm. rewrite <- Nat.add_assoc. rewrite lookup_app_r by lia.
        replace (length tr + (j + m) - length tr)%nat with (j + m)%nat by lia.
        apply H6, Hm.
    + destruct (Here [] Hi) as (a & j & H1 & H2 & H3 & H4 & H5 & H6).
      exists a, j. repeat split; try assumption; try lia.
      intros m e0 Hm. specialize (H6 m e0 Hm). rewrite app_nil_r in H6. exact H6.
Qed.

Lemma break_is_last attempt msg :
  snd (Scraper.attempt_body self national_id attempt) = Scraper.Break msg ->
  Z.of_nat attempt = N - 1.
Proof.
  unfold Scraper.attempt_body.
  destruct (Scraper.attempt_try self national_id attempt) as [tr [[r|m|m]|u]];
    cbn [snd]; try discriminate.
  destruct (Z.eqb_spec (Z.of_nat attempt) (Scraper.max_retries self - 1)) as [E|E];
    [intros _; exact E|discriminate].
Qed.

(** When no attempt of the rest of the loop returns, the loop ends in
    the dict of lines 280-285 with the message of its last attempt. *)
Lemma attempts_exhausted k : forall s last_error,
  Z.of_nat (s + k) = N ->
  (forall attempt, (s <= attempt < s + k)%nat ->
     recorded (snd (Scraper.attempt_body self national_id attempt)) <> None) ->
  snd (Scraper.attempts self national_id (seq s k) last_error) =
  Scraper.exhausted self national_id
    (match k with
     | O => last_error
     | S k' => recorded (snd (Scraper.attempt_body self national_id (s + k')))
     end).
Proof.
  induction k as [|k IH]; intros s last_error HN Hall; [reflexivity|].
  cbn [seq Scraper.attempts].
  pose proof (Hall s ltac:(lia)) as Hs.
  pose proof (break_is_last s) as Hbreak.
  destruct (Scraper.attempt_body self national_id s) as [tr e] eqn:Hb.
  cbn [snd] in Hs, Hbreak. destruct e as [r|msg|msg].
  - exfalso. apply Hs. reflexivity.
  - specialize (IH (S s) (Some msg) ltac:(lia)).
    destruct (Scraper.attempts self national_id (seq (S s) k) (Some msg))
      as [tr' r'] eqn:Hrest.
    cbn [snd] in *. rewrite IH by (intros a Ha; apply Hall; lia).
    destruct k as [|k'].
    + rewrite Nat.add_0_r, Hb. reflexivity.
    + replace (S s + k')%nat with (s + S k')%nat by lia. reflexivity.
  - specialize (Hbreak msg eq_refl). assert (k = 0%nat) by lia. subst k.
    rewrite Nat.add_0_r, Hb. reflexivity.
Qed.

(** An attempt that does not find the frame records that and goes on. *)
Lemma frame_timeout_continues attempt :
  0 <= Scraper.retry_delay self ->
  Scraper.retry_delay self * 2 ^ (Z.of_nat attempt - 1) <= Scraper.SLEEP_SAFE ->
  Scraper.navigate (Scraper.driver self attempt) = None ->
  Scraper.frame (Scraper.driver self attempt) = Scraper.TimedOut ->
  Scraper.attempt_body self national_id attempt =
    (backoff_events self attempt
       ++ Scraper.LogQuery (Z.of_nat attempt + 1) N :: frame_attempt,
     Scraper.Continue s{"Could not find iframe - page structure may have changed"}).
Proof.
  intros Hd Hs Hnav Hframe. unfold Scraper.attempt_body, Scraper.attempt_try.
  pose proof (backoff_runs attempt Hd Hs) as Hb.
  rewrite Hb. unfold Scraper.interaction. rewrite Hnav, Hframe. reflexivity.
Qed.

(** An attempt whose steps all succeed ends as the dict it reads says. *)
Lemma smooth_attempt attempt pg :
  0 <= Scraper.retry_delay self ->
  Scraper.retry_delay self * 2 ^ (Z.of_nat attempt - 1) <= Scraper.SLEEP_SAFE ->
  Scraper.driver self attempt = smooth pg ->
  Scraper.attempt_try self national_id attempt =
    (backoff_events self attempt
       ++ Scraper.LogQuery (Z.of_nat attempt + 1) N :: full_attempt national_id,
     snd (Scraper.after_extraction (Scraper.extract_result_data pg))).
Proof.
  intros Hd Hs Hdrv. unfold Scraper.attempt_try.
  pose proof (backoff_runs attempt Hd Hs) as Hb.
  rewrite Hb. unfold Scraper.interaction. rewrite Hdrv.
  destruct (after_extraction_leaves (Scraper.extract_result_data pg)) as [x Hx].
  cbn. rewrite Hx. reflexivity.
Qed.

End RetryController.




(** C7, as the specification states it, fails when the last attempt
    ends in a failure that the controller does not retry: here the frame
    is missing at attempts 1 and 2 and the body of the page cannot be read
    at attempt 3. The three attempts are made, none has a terminal
    outcome, and the call returns the failure of the third as it is,
    without the retries-exhausted flag. *)
Lemma exhaustion_counterexample :
  let self := unreadable_scraper in
  let run := Scraper.scrape_electoral_data self sample_id in
  Scraper.max_retries self = 3
  /\ snd (Scraper.attempt_body self sample_id 0) =
       Scraper.Continue s{"Could not find iframe - page structure may have changed"}
  /\ snd (Scraper.attempt_body self sample_id 1) =
       Scraper.Continue s{"Could not find iframe - page structure may have changed"}
  /\ snd (Scraper.attempt_body self sample_id 2) =
       Scraper.Return (Scraper.failure s{"Failed to read page content"})
  /\ fst run !! 14%nat = Some (Scraper.LogQuery 3 3)
  /\ snd run = Scraper.failure s{"Failed to read page content"}
  /\ Scraper.success (snd run) = false
  /\ Scraper.retries_exhausted (snd run) = None.
Proof.
  cbv zeta. repeat split; vm_compute; reflexivity.
Qed.

(** C7, amended. The waits pass: the delay is not negative and the
    longest wait, the one before the last attempt, is of at most
    [SLEEP_SAFE] seconds. When every one of the [max_retries] attempts
    ends by recording a failure and moving on (none of them ends the
    call), the call returns a failure dict whose [retries_exhausted] is
    true and whose message ends with the message the last attempt
    recorded. In particular, when the frame is found at no attempt, that
    message is the one of the frame step. *)
Theorem retries_exhausted_reports_last_error
    (self : Scraper.scraper) (national_id : Py.str) :
  0 < Scraper.max_retries self ->
  0 <= Scraper.retry_delay self ->
  Scraper.retry_delay self * 2 ^ (Scraper.max_retries self - 2)
    <= Scraper.SLEEP_SAFE ->
  (forall attempt, Z.of_nat attempt < Scraper.max_retries self ->
     recorded (snd (Scraper.attempt_body self national_id attempt)) <> None) ->
  let r := snd (Scraper.scrape_electoral_data self national_id) in
  (exists msg,
     recorded (snd (Scraper.attempt_body self national_id
                      (Z.to_nat (Scraper.max_retries self - 1)))) = Some msg
     /\ Scraper.error r =
          Some (s{"Failed after "} ++ Py.str_of_int (Scraper.max_retries self)
                  ++ s{" attempts. Last error: "} ++ msg))
  /\ Scraper.success r = false
  /\ Scraper.retries_exhausted r = Some true
  /\ Scraper.data r = None
  /\ Scraper.national_id r = Some national_id
  /\ ((forall attempt,
         Scraper.navigate (Scraper.driver self attempt) = None
         /\ Scraper.frame (Scraper.driver self attempt) = Scraper.TimedOut) ->
      Scraper.error r =
        Some (s{"Failed after "} ++ Py.str_of_int (Scraper.max_retries self)
                ++ s{" attempts. Last error: "}
                ++ s{"Could not find iframe - page structure may have changed"})).
Proof.
  intros HN Hd Hs Hall. cbv zeta. unfold Scraper.scrape_electoral_data.
  destruct (Z.to_nat (Scraper.max_retries self)) as [|k] eqn:Ek; [lia|].
  rewrite (attempts_exhausted self national_id (S k) 0 None) by
    (try (intros a Ha; apply Hall); lia).
  replace (Z.to_nat (Scraper.max_retries self - 1)) with (0 + k)%nat by lia.
  cbn [Scraper.exhausted Scraper.error Scraper.success Scraper.retries_exhausted
       Scraper.data Scraper.national_id].
  split; [|repeat split].
  - destruct (recorded (snd (Scraper.attempt_body self national_id (0 + k))))
      as [msg|] eqn:Hm.
    + exists msg. split; reflexivity.
    + exfalso. apply (Hall (0 + k)%nat); [lia|exact Hm].
  - intros Hframe. destruct (Hframe (0 + k)%nat) as [Hnav Hfr].
    assert (Hk : Scraper.retry_delay self * 2 ^ (Z.of_nat (0 + k) - 1)
                   <= Scraper.SLEEP_SAFE).
    { etransitivity; [apply (longest_wait self (0 + k) Hd); lia|exact Hs]. }
    rewrite (frame_timeout_continues self national_id _ Hd Hk Hnav Hfr). reflexivity.
Qed.

Lemma retries_exhausted_reports_last_error_witness :
  let r := snd (Scraper.scrape_electoral_data frameless_scraper sample_id) in
  Scraper.success r = false
  /\ Scraper.retries_exhausted r = Some true
  /\ Scraper.error r =
       Some s{"Failed after 3 attempts. Last error: Could not find iframe - page structure may have changed"}.
Proof.
  assert (H3 : 0 < Scraper.max_retries frameless_scraper) by reflexivity.
  assert (Hd : 0 <= Scraper.retry_delay frameless_scraper) by discriminate.
  assert (Hw : Scraper.retry_delay frameless_scraper
                 * 2 ^ (Scraper.max_retries frameless_scraper - 2)
               <= Scraper.SLEEP_SAFE) by discriminate.
  assert (Hall : forall attempt,
            Z.of_nat attempt < Scraper.max_retries frameless_scraper ->
            recorded (snd (Scraper.attempt_body frameless_scraper sample_id attempt))
              <> None).
  { intros [|[|[|a]]] Ha; try discriminate. simpl in Ha. lia. }
  destruct (retries_exhausted_reports_last_error frameless_scraper sample_id
              H3 Hd Hw Hall)
    as (_ & Hs & He & _ & _ & Hframe).
  cbv zeta. split; [exact Hs|]. split; [exact He|].
  apply Hframe. intros attempt. split; reflexivity.
Defined.

(** C8. Attempts are opened, in the trace, by the line of the log that
    carries their number [n] (counted from 1). Nothing precedes attempt
    1, and every attempt [n > 1] is immediately preceded by a sleep of
    exactly [retry_delay * 2 ^ (n - 2)], announced by the log. When the
    waits pass (the delay is not negative and the wait before attempt 3
    is of at most [SLEEP_SAFE] seconds), the frame is missing at attempts
    1 and 2 and attempt 3 of 3 reads a page that the classifier accepts,
    the call returns that page's dict, the log reports attempt 3 of 3,
    and the sleeps before attempts 2 and 3 are [retry_delay] and
    [2 * retry_delay]. *)
Theorem backoff_before_each_retry
    (self : Scraper.scraper) (national_id : Py.str) :
  let trace := fst (Scraper.scrape_electoral_data self national_id) in
  let total := Scraper.max_retries self in
  let delay := fun n => Scraper.retry_delay self * 2 ^ (n - 2) in
  (forall i n t,
     trace !! i = Some (Scraper.LogQuery n t) ->
     t = total /\ 1 <= n <= total
     /\ (n = 1 -> i = 0%nat)
     /\ (1 < n ->
         exists j, i = S (S j)
           /\ trace !! j = Some (Scraper.LogRetry n total (delay n))
           /\ trace !! S j = Some (Scraper.Sleep (delay n))))
  /\ (forall pg,
        0 <= Scraper.retry_delay self ->
        delay 3 <= Scraper.SLEEP_SAFE ->
        total = 3 ->
        Scraper.navigate (Scraper.driver self 0) = None ->
        Scraper.frame (Scraper.driver self 0) = Scraper.TimedOut ->
        Scraper.navigate (Scraper.driver self 1) = None ->
        Scraper.frame (Scraper.driver self 1) = Scraper.TimedOut ->
        Scraper.driver self 2 = smooth pg ->
        Scraper.success (Scraper.extract_result_data pg) = true ->
        Scraper.scrape_electoral_data self national_id =
          (Scraper.LogQuery 1 3 :: frame_attempt
             ++ [Scraper.LogRetry 2 3 (delay 2); Scraper.Sleep (delay 2);
                 Scraper.LogQuery 2 3] ++ frame_attempt
             ++ [Scraper.LogRetry 3 3 (delay 3); Scraper.Sleep (delay 3);
                 Scraper.LogQuery 3 3] ++ full_attempt national_id,
           Scraper.extract_result_data pg)).
Proof.
  cbv zeta. split.
  - intros i n t Hi. unfold Scraper.scrape_electoral_data in *.
    destruct (attempts_log_query self national_id _ _ _ _ _ _ Hi)
      as (a & j & -> & -> & Ha & Hj & -> & Hpro).
    split; [reflexivity|]. split; [lia|]. split.
    + intros Hn. assert (a = 0%nat) by lia. subst a.
      rewrite (Hj eq_refl). reflexivity.
    + intros Hn. destruct a as [|a]; [lia|]. exists j.
      replace (Z.of_nat (S a) + 1 - 2) with (Z.of_nat (S a) - 1) by lia.
      split; [simpl; lia|]. split.
      * rewrite <- (Nat.add_0_r j). apply Hpro. reflexivity.
      * replace (S j) with (j + 1)%nat by lia. apply Hpro. reflexivity.
  - intros pg Hd Hs HN Hn0 Hf0 Hn1 Hf1 Hdrv Hok.
    change (2 ^ (3 - 2)) with 2 in Hs.
    assert (Hs0 : Scraper.retry_delay self * 2 ^ (Z.of_nat 0 - 1)
                    <= Scraper.SLEEP_SAFE).
    { change (2 ^ (Z.of_nat 0 - 1)) with 0. unfold Scraper.SLEEP_SAFE. lia. }
    assert (Hs1 : Scraper.retry_delay self * 2 ^ (Z.of_nat 1 - 1)
                    <= Scraper.SLEEP_SAFE).
    { change (2 ^ (Z.of_nat 1 - 1)) with 1. lia. }
    assert (Hs2 : Scraper.retry_delay self * 2 ^ (Z.of_nat 2 - 1)
                    <= Scraper.SLEEP_SAFE).
    { change (2 ^ (Z.of_nat 2 - 1)) with 2. exact Hs. }
    unfold Scraper.scrape_electoral_data. rewrite HN.
    change (Z.to_nat 3) with 3%nat. cbn [seq Scraper.attempts].
    rewrite (frame_timeout_continues self national_id 0 Hd Hs0 Hn0 Hf0).
    rewrite (frame_timeout_continues self national_id 1 Hd Hs1 Hn1 Hf1).
    unfold Scraper.attempt_body.
    rewrite (smooth_attempt self national_id 2 pg Hd Hs2 Hdrv).
    unfold Scraper.after_extraction. rewrite Hok, HN.
    cbn [Scraper.leave snd]. unfold backoff_events, frame_attempt, full_attempt.
    rewrite HN. cbn [app]. reflexivity.
Qed.

Lemma backoff_before_each_retry_witness :
  let run := Scraper.scrape_electoral_data flaky_scraper sample_id in
  fst run =
    Scraper.LogQuery 1 3 :: frame_attempt
      ++ [Scraper.LogRetry 2 3 2; Scraper.Sleep 2; Scraper.LogQuery 2 3]
      ++ frame_attempt
      ++ [Scraper.LogRetry 3 3 4; Scraper.Sleep 4; Scraper.LogQuery 3 3]
      ++ full_attempt sample_id
  /\ snd run = Scraper.extract_result_data sample_page
  /\ Scraper.success (snd run) = true
  /\ fst run !! 14%nat = Some (Scraper.LogQuery 3 3)
  /\ fst run !! 13%nat = Some (Scraper.Sleep (2 * 2 ^ (3 - 2))).
Proof.
  destruct (backoff_before_each_retry flaky_scraper sample_id) as [Hpaced H].
  assert (Hd : 0 <= Scraper.retry_delay flaky_scraper) by discriminate.
  assert (Hw : Scraper.retry_delay flaky_scraper * 2 ^ (3 - 2) <= Scraper.SLEEP_SAFE)
    by discriminate.
  specialize (H sample_page Hd Hw eq_refl eq_refl eq_refl eq_refl eq_refl eq_refl).
  assert (Hok : Scraper.success (Scraper.extract_result_data sample_page) = true)
    by (vm_compute; reflexivity).
  specialize (H Hok). cbv zeta.
  assert (H14 : fst (Scraper.scrape_electoral_data flaky_scraper sample_id) !! 14%nat
                = Some (Scraper.LogQuery 3 3)) by (rewrite H; reflexivity).
  destruct (Hpaced 14%nat 3 3 H14) as (_ & _ & _ & Hsleep).
  destruct (Hsleep ltac:(lia)) as (j & Hj & _ & Hs).
  injection Hj as <-.
  rewrite H at 1 2 3. cbn [fst snd].
  split; [reflexivity|]. split; [reflexivity|]. split; [exact Hok|].
  split; [exact H14|exact Hs].
Defined.

(** ** The access gate *)

Section RateLimiter.

Variable client_ip : Py.str.
Variable call_next : Api.request -> Api.reply.

Lemma filter_all {A} (P : A -> Prop) `{forall x, Decision (P x)} (l : list A) :
  Forall P l -> filter P l = l.
Proof.
  induction 1 as [|x l Hx Hl IH]; [reflexivity|].
  rewrite filter_cons_True by exact Hx. rewrite IH. reflexivity.
Qed.

Lemma stored_insert store l : stored (<[client_ip := l]> store) client_ip = l.
Proof. unfold stored. rewrite lookup_insert_eq. reflexivity. Qed.

(** One check: what is kept, whether the request is admitted, what is
    stored afterwards. *)
Lemma check_rate_limit_spec store now :
  let kept := filter (fun t => t > now - Api.RATE_LIMIT_WINDOW) (stored store client_ip) in
  let '(store', allowed) := Api.check_rate_limit store client_ip now in
  allowed = (Z.of_nat (length kept) <? Api.RATE_LIMIT_REQUESTS)
  /\ stored store' client_ip = kept ++ (if allowed then [now] else [])
  /\ forall other, other <> client_ip -> store' !! other = store !! other.
Proof.
  cbv zeta. unfold Api.check_rate_limit, stored.
  destruct (Z.of_nat (length _) <? Api.RATE_LIMIT_REQUESTS) eqn:E.
  - rewrite lookup_insert_eq. repeat split; try reflexivity.
    intros other Hne. rewrite lookup_insert_ne by congruence. reflexivity.
  - rewrite lookup_insert_eq. repeat split; try reflexivity.
    + rewrite app_nil_r. reflexivity.
    + intros other Hne. rewrite lookup_insert_ne by congruence. reflexivity.
Qed.

(** Inside one window nothing is pruned. *)
Lemma window_kept start now (l : list Z) :
  in_window start now -> Forall (in_window start) l ->
  filter (fun t => t > now - Api.RATE_LIMIT_WINDOW) l = l.
Proof.
  intros Hnow Hl. apply filter_all. eapply Forall_impl; [exact Hl|].
  unfold in_window in *. intros t Ht. cbv beta. lia.
Qed.

Lemma middleware_admits store start now req :
  Api.client_identity req = client_ip ->
  in_window start now -> Forall (in_window start) (stored store client_ip) ->
  Z.of_nat (length (stored store client_ip)) < Api.RATE_LIMIT_REQUESTS ->
  Api.rate_limiting_middleware store now req call_next =
    (<[client_ip := stored store client_ip ++ [now]]> store, call_next req).
Proof.
  intros Hid Hnow Hold Hlen.
  unfold Api.rate_limiting_middleware, Api.check_rate_limit. rewrite Hid.
  fold (stored store client_ip). rewrite (window_kept start now _ Hnow Hold).
  apply Z.ltb_lt in Hlen. rewrite Hlen. reflexivity.
Qed.

Lemma middleware_rejects store start now req :
  Api.client_identity req = client_ip ->
  in_window start now -> Forall (in_window start) (stored store client_ip) ->
  Api.RATE_LIMIT_REQUESTS <= Z.of_nat (length (stored store client_ip)) ->
  Api.rate_limiting_middleware store now req call_next =
    (<[client_ip := stored store client_ip]> store, Api.rate_limited).
Proof.
  intros Hid Hnow Hold Hlen.
  unfold Api.rate_limiting_middleware, Api.check_rate_limit. rewrite Hid.
  fold (stored store client_ip). rewrite (window_kept start now _ Hnow Hold).
  apply Z.ltb_ge in Hlen. rewrite Hlen. reflexivity.
Qed.

Lemma filter_none {A} (P : A -> Prop) `{forall x, Decision (P x)} (l : list A) :
  Forall (fun x => ~ P x) l -> filter P l = [].
Proof.
  induction 1 as [|x l Hx Hl IH]; [reflexivity|].
  rewrite filter_cons_False by exact Hx. exact IH.
Qed.

(** Timestamps that are older than the window are pruned by the first
    check inside it. *)
Lemma middleware_first store start now req :
  Api.client_identity req = client_ip ->
  in_window start now ->
  Forall (fun t => t <= start - Api.RATE_LIMIT_WINDOW) (stored store client_ip) ->
  Api.rate_limiting_middleware store now req call_next =
    (<[client_ip := [now]]> store, call_next req).
Proof.
  intros Hid Hnow Hold.
  unfold Api.rate_limiting_middleware, Api.check_rate_limit. rewrite Hid.
  fold (stored store client_ip). rewrite filter_none; [reflexivity|].
  eapply Forall_impl; [exact Hold|]. unfold in_window in Hnow.
  intros t Ht. cbv beta in *. lia.
Qed.

(** While the quota is not reached, every request of the window passes
    and its time is recorded. *)
Lemma serve_admits start : forall arrivals store,
  Forall (fun a => Api.client_identity (snd a) = client_ip
                   /\ in_window start (fst a)) arrivals ->
  Forall (in_window start) (stored store client_ip) ->
  Z.of_nat (length (stored store client_ip) + length arrivals)
    <= Api.RATE_LIMIT_REQUESTS ->
  exists store',
    Api.serve store call_next arrivals
      = (store', map (fun a => call_next (snd a)) arrivals)
    /\ stored store' client_ip = stored store client_ip ++ map fst arrivals.
Proof.
  induction arrivals as [|[now req] arrivals IH]; intros store Harr Hold Hlen.
  - exists store. split; [reflexivity|]. rewrite app_nil_r. reflexivity.
  - apply Forall_cons in Harr as [[Hid Hnow] Harr]. cbn [fst snd] in Hid, Hnow.
    cbn [Api.serve length] in *.
    rewrite (middleware_admits store start now req Hid Hnow Hold) by lia.
    destruct (IH (<[client_ip := stored store client_ip ++ [now]]> store) Harr)
      as (store' & Hserve & Hstored).
    + rewrite stored_insert. apply Forall_app. split; [exact Hold|].
      apply Forall_cons. split; [exact Hnow|apply Forall_nil_2].
    + rewrite stored_insert, length_app. cbn [length]. lia.
    + exists store'. rewrite Hserve. split; [reflexivity|].
      rewrite Hstored, stored_insert, <- app_assoc. reflexivity.
Qed.

Lemma serve_app : forall l1 l2 store,
  Api.serve store call_next (l1 ++ l2) =
  let '(store1, r1) := Api.serve store call_next l1 in
  let '(store2, r2) := Api.serve store1 call_next l2 in
  (store2, r1 ++ r2).
Proof.
  induction l1 as [|[now req] l1 IH]; intros l2 store.
  - cbn [app Api.serve]. destruct (Api.serve store call_next l2). reflexivity.
  - cbn [app Api.serve].
    destruct (Api.rate_limiting_middleware store now req call_next) as [s0 r0].
    rewrite IH. destruct (Api.serve s0 call_next l1) as [s1 r1].
    destruct (Api.serve s1 call_next l2) as [s2 r2]. reflexivity.
Qed.

End RateLimiter.

(** C9. For every client, [RATE_LIMIT_REQUESTS + 1] requests whose
    arrival times lie in one window of [RATE_LIMIT_WINDOW] seconds, the
    store holding nothing of that client but timestamps older than the
    window: the first [RATE_LIMIT_REQUESTS] reach the application and the
    last one is answered with the rate-limited response, whose
    [retry_after] is the length of the window. Each check keeps the stored
    timestamps that are later than [now - RATE_LIMIT_WINDOW], admits when
    fewer than [RATE_LIMIT_REQUESTS] are kept, records [now] only then,
    and leaves the other clients as they are. *)
Theorem rate_limit_admits_exactly_quota
    (store : gmap (list Z) (list Z)) (client_ip : Py.str)
    (call_next : Api.request -> Api.reply)
    (arrivals : list (Z * Api.request)) (start : Z) :
  Forall (fun t => t <= start - Api.RATE_LIMIT_WINDOW) (stored store client_ip) ->
  length arrivals = S (Z.to_nat Api.RATE_LIMIT_REQUESTS) ->
  Forall (fun a => Api.client_identity (snd a) = client_ip
                   /\ in_window start (fst a)) arrivals ->
  snd (Api.serve store call_next arrivals) =
    map (fun a => call_next (snd a)) (take (Z.to_nat Api.RATE_LIMIT_REQUESTS) arrivals)
      ++ [Api.rate_limited]
  /\ (exists content,
        Api.rate_limited = Api.JSONResponse 429 content
        /\ Api.field "retry_after" content = Some (Api.JInt Api.RATE_LIMIT_WINDOW))
  /\ (forall st now,
        let kept := filter (fun t => t > now - Api.RATE_LIMIT_WINDOW)
                      (stored st client_ip) in
        let '(st', allowed) := Api.check_rate_limit st client_ip now in
        allowed = (Z.of_nat (length kept) <? Api.RATE_LIMIT_REQUESTS)
        /\ stored st' client_ip = kept ++ (if allowed then [now] else [])
        /\ forall other, other <> client_ip -> st' !! other = st !! other).
Proof.
  intros Hold Hlen Harr. split; [|split].
  - destruct (Z.to_nat Api.RATE_LIMIT_REQUESTS) as [|q] eqn:Eq; [discriminate Eq|].
    assert (HQ : Api.RATE_LIMIT_REQUESTS = Z.of_nat (S q)) by lia.
    destruct arrivals as [|[now1 req1] rest]; [discriminate Hlen|].
    apply Forall_cons in Harr as [[Hid1 Hnow1] Harr]. cbn [fst snd] in Hid1, Hnow1.
    cbn [take map app Api.serve].
    rewrite (middleware_first client_ip call_next store start now1 req1 Hid1 Hnow1 Hold).
    cbn [length] in Hlen.
    rewrite <- (take_drop q rest) in Harr |- * at 1.
    apply Forall_app in Harr as [Hfirst Hlast].
    assert (Hq : length (take q rest) = q) by (rewrite length_take; lia).
    destruct (drop q rest) as [|[now req] tail] eqn:Hdrop.
    { apply (f_equal length) in Hdrop. rewrite length_drop in Hdrop.
      simpl in Hdrop. lia. }
    assert (tail = []) as ->.
    { apply (f_equal length) in Hdrop. rewrite length_drop in Hdrop.
      simpl in Hdrop. destruct tail; [reflexivity|simpl in Hdrop; lia]. }
    apply Forall_cons in Hlast as [[Hid Hnow] _]. cbn [fst snd] in Hid, Hnow.
    rewrite serve_app.
    destruct (serve_admits client_ip call_next start (take q rest)
                (<[client_ip := [now1]]> store)) as (store1 & Hserve & Hstored).
    + exact Hfirst.
    + rewrite stored_insert. apply Forall_cons. split; [exact Hnow1|apply Forall_nil_2].
    + rewrite stored_insert, Hq. cbn [length]. lia.
    + rewrite Hserve. cbn [Api.serve].
      rewrite (middleware_rejects client_ip call_next store1 start now req Hid Hnow).
      * reflexivity.
      * rewrite Hstored, stored_insert. apply Forall_cons. split; [exact Hnow1|].
        apply Forall_forall. intros t Ht. apply list_elem_of_fmap in Ht as [a [-> Ha]].
        rewrite Forall_forall in Hfirst. apply (Hfirst a Ha).
      * rewrite Hstored, stored_insert. cbn [app length]. rewrite length_map, Hq. lia.
  - eexists. split; reflexivity.
  - intros st now. apply check_rate_limit_spec.
Qed.

Lemma rate_limit_admits_exactly_quota_witness :
  snd (Api.serve old_store passed burst) =
    repeat (Api.JSONResponse 200 (Api.JObj [])) 1000 ++ [Api.rate_limited].
Proof.
  assert (Hold : Forall (fun t => t <= 0 - Api.RATE_LIMIT_WINDOW)
                   (stored old_store s{"203.0.113.7"})).
  { apply Forall_cons. split; [discriminate|apply Forall_nil_2]. }
  assert (Hlen : length burst = S (Z.to_nat Api.RATE_LIMIT_REQUESTS))
    by (vm_compute; reflexivity).
  assert (Harr : Forall (fun a => Api.client_identity (snd a) = s{"203.0.113.7"}
                                  /\ in_window 0 (fst a)) burst).
  { unfold burst. apply Forall_forall. intros a Ha.
    apply list_elem_of_fmap in Ha as [i [-> _]]. cbn [fst snd]. split.
    - vm_compute. reflexivity.
    - unfold in_window, Api.RATE_LIMIT_WINDOW.
      pose proof (Z.mod_pos_bound (Z.of_nat i) 60 ltac:(lia)). lia. }
  destruct (rate_limit_admits_exactly_quota old_store s{"203.0.113.7"} passed burst 0
              Hold Hlen Harr) as [H _].
  rewrite H. vm_compute. reflexivity.
Defined.

(** ** The district filter *)

Section DistrictFilter.

Lemma allowed_In district :
  existsb (Py.eqb district) Api.ALLOWED_DISTRICTS = true
  <-> In district Api.ALLOWED_DISTRICTS.
Proof.
  rewrite existsb_exists. split.
  - intros (d & Hin & Heq). apply eqb_eq in Heq. subst d. exact Hin.
  - intros Hin. exists district. split; [exact Hin|]. apply eqb_eq. reflexivity.
Qed.

Lemma respond_registered national_id result data :
  Scraper.success result = true ->
  Scraper.data result = Some data ->
  data !! "status"%string = Some s{"success"} ->
  Api.respond national_id result = Api.registered national_id data.
Proof.
  intros Hs Hd Hst. unfold Api.respond. rewrite Hs, Hd, Hst. reflexivity.
Qed.

End DistrictFilter.



(** ** Start-up and the call of the scraper *)

(** C3. The constructor takes [headless], [max_retries] and
    [retry_delay]; the call of the start-up names [session_timeout] as
    well, so binding it raises a [TypeError] whatever the browser does,
    the handler of the start-up leaves the global [scraper] at [None], and
    every lookup, by either route, is refused with the 503 error before
    anything is asked of a scraper. *)
Theorem startup_leaves_no_scraper
    (chrome : bool -> Py.result (nat -> Scraper.attempt_stub))
    (national_id : Py.str) :
  map fst (Py.params Scraper.init_signature)
    = ["headless"; "max_retries"; "retry_delay"]%string
  /\ Py.check_call Scraper.init_signature startup_call =
       Py.Raise (Py.Exn Py.TypeError
         s{"FreeElectionsScraper.__init__() got an unexpected keyword argument 'session_timeout'"})
  /\ Api.lifespan chrome = None
  /\ Api.lookup_national_id (Api.lifespan chrome) national_id =
       ([], Api.HTTPException 503
              s{"Scraper service is not available. Please try again later."})
  /\ Api.http_exception_handler
       (snd (Api.lookup_national_id (Api.lifespan chrome) national_id)) =
       Api.JSONResponse 503
         (Api.JObj [("success", Api.JBool false);
                    ("error", Api.JStr
                       s{"Scraper service is not available. Please try again later."})]%string)
  /\ (forall report v, Api.validate_national_id national_id = Py.Ok v ->
        Api.lookup_national_id_get report (Api.lifespan chrome) national_id =
          ([], Api.HTTPException 503
                 s{"Scraper service is not available. Please try again later."})).
Proof.
  assert (Hnone : Api.lifespan chrome = None).
  { unfold Api.lifespan, Scraper.new.
    replace (Py.check_call Scraper.init_signature _) with
      (@Py.Raise unit (Py.Exn Py.TypeError
         s{"FreeElectionsScraper.__init__() got an unexpected keyword argument 'session_timeout'"}))
      by (vm_compute; reflexivity).
    reflexivity. }
  split; [reflexivity|]. split; [vm_compute; reflexivity|].
  split; [exact Hnone|]. rewrite Hnone. split; [reflexivity|].
  split; [reflexivity|].
  intros report v Hv. unfold Api.lookup_national_id_get. rewrite Hv. reflexivity.
Qed.

Lemma startup_leaves_no_scraper_witness :
  Api.lookup_national_id_get Py.exn_str
    (Api.lifespan (fun _ => Py.Ok (fun _ => smooth sample_page))) sample_id =
    ([], Api.HTTPException 503
           s{"Scraper service is not available. Please try again later."}).
Proof.
  destruct (startup_leaves_no_scraper
              (fun _ => Py.Ok (fun _ => smooth sample_page)) sample_id)
    as (_ & _ & _ & _ & _ & H).
  apply (H Py.exn_str sample_id). vm_compute. reflexivity.
Defined.

(** C2. The call of line 452 is not a well-formed call of
    [scrape_electoral_data]: the method takes the identifier only, so the
    keyword [timeout] raises a [TypeError] before the method runs. With a
    scraper in place, every lookup therefore asks nothing of the browser
    and is answered by the catch-all handler with an unexpected-error
    message, not by the timeout handler. *)
Theorem lookup_timeout_keyword_is_refused
    (self : Scraper.scraper) (national_id : Py.str) :
  Py.check_call Scraper.scrape_signature (Py.Call 1 ["timeout"%string]) =
    Py.Raise (Py.Exn Py.TypeError
      s{"FreeElectionsScraper.scrape_electoral_data() got an unexpected keyword argument 'timeout'"})
  /\ Py.check_call Scraper.scrape_signature (Py.Call 1 []) = Py.Ok tt
  /\ Api.lookup_national_id (Some self) national_id =
       ([], Api.JSONResponse 200
              (Api.ErrorResponse national_id
                 (s{"Unexpected server error: "}
                    ++ s{"FreeElectionsScraper.scrape_electoral_data() got an unexpected keyword argument 'timeout'"})
                 None))
  /\ snd (Api.lookup_national_id (Some self) national_id) <>
       Api.JSONResponse 200
         (Api.ErrorResponse national_id
            s{"Request timeout. The website took too long to respond."} (Some true)).
Proof.
  assert (Hcall : Py.check_call Scraper.scrape_signature (Py.Call 1 ["timeout"%string]) =
            Py.Raise (Py.Exn Py.TypeError
              s{"FreeElectionsScraper.scrape_electoral_data() got an unexpected keyword argument 'timeout'"}))
    by (vm_compute; reflexivity).
  split; [exact Hcall|]. split; [vm_compute; reflexivity|].
  unfold Api.lookup_national_id. rewrite Hcall. split; [reflexivity|].
  cbn [snd Api.on_exception Py.exn_kind Py.exn_str]. unfold Api.ErrorResponse.
  intros H. discriminate H.
Qed.

(** * Further properties of the code *)

(** ** More on strings *)

Section Stripping.

Lemma lstrip_app_space p s :
  forallb Py.isspace_char p = true -> Py.lstrip (p ++ s) = Py.lstrip s.
Proof.
  induction p as [|c p IH]; simpl; [reflexivity|].
  intros H. apply andb_true_iff in H as [Hc Hp]. rewrite Hc. exact (IH Hp).
Qed.

Lemma lstrip_app_keep l c r :
  Py.isspace_char c = false -> Py.lstrip (l ++ c :: r) = Py.lstrip l ++ c :: r.
Proof.
  intros Hc. induction l as [|x l IH]; simpl.
  - rewrite Hc. reflexivity.
  - destruct (Py.isspace_char x); [exact IH|reflexivity].
Qed.

(** What [lstrip] removes is whitespace, and what it leaves does not
    begin with whitespace. *)
Lemma lstrip_split s :
  exists p, s = p ++ Py.lstrip s /\ forallb Py.isspace_char p = true
            /\ (Py.lstrip s = []
                \/ exists c t, Py.lstrip s = c :: t /\ Py.isspace_char c = false).
Proof.
  induction s as [|c s (p & Hs & Hp & Hhead)]; simpl.
  - exists []. repeat split. left. reflexivity.
  - destruct (Py.isspace_char c) eqn:Hc.
    + exists (c :: p). simpl. rewrite Hc, Hp. rewrite <- Hs. repeat split. exact Hhead.
    + exists []. repeat split. right. exists c, s. split; [reflexivity|exact Hc].
Qed.

Lemma rstrip_app_space s p :
  forallb Py.isspace_char p = true -> Py.rstrip (s ++ p) = Py.rstrip s.
Proof.
  intros Hp. unfold Py.rstrip. rewrite rev_app_distr, lstrip_app_space; [reflexivity|].
  rewrite forallb_forall in *. intros x Hx. apply Hp, in_rev, Hx.
Qed.

Lemma rstrip_cons c s :
  Py.isspace_char c = false -> Py.rstrip (c :: s) = c :: Py.rstrip s.
Proof.
  intros Hc. unfold Py.rstrip. simpl rev.
  rewrite lstrip_app_keep by exact Hc. rewrite rev_app_distr. reflexivity.
Qed.

Lemma rstrip_involutive s : Py.rstrip (Py.rstrip s) = Py.rstrip s.
Proof.
  unfold Py.rstrip. rewrite rev_involutive. f_equal.
  destruct (lstrip_split (rev s)) as (p & _ & _ & [E|(c & t & E & Hc)]); rewrite E.
  - reflexivity.
  - simpl. rewrite Hc. reflexivity.
Qed.

(** Whitespace around a text does not change what [strip] gives. *)
Lemma strip_padding p v q :
  forallb Py.isspace_char p = true -> forallb Py.isspace_char q = true ->
  Py.strip (p ++ v ++ q) = Py.strip v.
Proof.
  intros Hp Hq. unfold Py.strip. rewrite lstrip_app_space by exact Hp.
  destruct (lstrip_split v) as (sp & Hv & Hsp & [E|(c & t & E & Hc)]).
  - rewrite E in *. rewrite app_nil_r in Hv. subst sp.
    rewrite lstrip_app_space by exact Hsp.
    destruct (lstrip_split q) as (sq & Hsq & _ & [Eq|(c & t & Eq & Hc)]).
    + rewrite Eq. reflexivity.
    + exfalso. rewrite forallb_forall in Hq. rewrite Hsq, Eq in Hq.
      specialize (Hq c ltac:(apply in_or_app; right; left; reflexivity)). congruence.
  - rewrite E. rewrite Hv at 1. rewrite E, <- app_assoc.
    rewrite lstrip_app_space by exact Hsp. simpl. rewrite Hc.
    change (c :: t ++ q) with ((c :: t) ++ q). apply rstrip_app_space, Hq.
Qed.

Lemma strip_involutive s : Py.strip (Py.strip s) = Py.strip s.
Proof.
  unfold Py.strip.
  destruct (lstrip_split s) as (p & _ & _ & [E|(c & t & E & Hc)]); rewrite E.
  - reflexivity.
  - rewrite rstrip_cons by exact Hc. simpl. rewrite Hc.
    rewrite <- rstrip_cons by exact Hc. apply rstrip_involutive.
Qed.

(** The whitespace characters, one by one. *)
Lemma isspace_char_cases c :
  Py.isspace_char c = true ->
  In c [9; 10; 11; 12; 13; 28; 29; 30; 31; 32; 133; 160; 5760; 8192; 8193; 8194;
        8195; 8196; 8197; 8198; 8199; 8200; 8201; 8202; 8232; 8233; 8239; 8287;
        12288].
Proof.
  unfold Py.isspace_char, Py.in_ranges, Py.whitespace_ranges. cbn [existsb fst snd].
  rewrite !orb_true_iff, !andb_true_iff, !Z.leb_le. cbn [In]. lia.
Qed.

Lemma digit_not_space c : Py.isdigit_char c = true -> Py.isspace_char c = false.
Proof.
  intros Hd. destruct (Py.isspace_char c) eqn:Hs; [|reflexivity].
  apply isspace_char_cases in Hs. cbn [In] in Hs.
  repeat (destruct Hs as [<-|Hs]; [discriminate Hd|]). destruct Hs.
Qed.

(** A text of digits is its own [strip]. *)
Lemma strip_digits s : forallb Py.isdigit_char s = true -> Py.strip s = s.
Proof.
  intros H.
  assert (Hl : forall l, forallb Py.isdigit_char l = true -> Py.lstrip l = l).
  { intros [|c l] Hc; [reflexivity|]. simpl in *. apply andb_true_iff in Hc as [Hc _].
    rewrite (digit_not_space c Hc). reflexivity. }
  unfold Py.strip, Py.rstrip. rewrite (Hl s H), Hl, rev_involutive; [reflexivity|].
  rewrite forallb_forall in *. intros x Hx. apply H, in_rev, Hx.
Qed.

End Stripping.

(** X1. Whatever [validate_national_id] accepts is the input without its
    surrounding whitespace, has 14 characters, all of them digits and none
    of them whitespace, and is accepted unchanged when validated again. *)
Theorem validated_id_is_canonical (v r : Py.str) :
  Api.validate_national_id v = Py.Ok r ->
  r = Py.strip v
  /\ length r = 14%nat
  /\ forallb Py.isdigit_char r = true
  /\ forallb (fun c => negb (Py.isspace_char c)) r = true
  /\ Py.strip r = r
  /\ Api.validate_national_id r = Py.Ok r.
Proof.
  unfold Api.validate_national_id. cbv zeta.
  destruct (length (Py.strip v) =? 14)%nat eqn:Hlen; [|discriminate].
  destruct (Py.isdigit (Py.strip v)) eqn:Hdig; [|discriminate].
  intros H. injection H as <-. apply Nat.eqb_eq in Hlen.
  assert (Hall : forallb Py.isdigit_char (Py.strip v) = true).
  { unfold Py.isdigit in Hdig. destruct (Py.strip v); [discriminate|exact Hdig]. }
  split; [reflexivity|]. split; [exact Hlen|]. split; [exact Hall|]. split.
  - rewrite forallb_forall in *. intros c Hc.
    rewrite (digit_not_space c (Hall c Hc)). reflexivity.
  - rewrite (strip_digits _ Hall). split; [reflexivity|].
    cbn [negb]. rewrite Hlen, Hdig. reflexivity.
Qed.

Lemma validated_id_is_canonical_witness :
  Api.validate_national_id s{"29710260300314"} = Py.Ok s{"29710260300314"}
  /\ Py.strip s{"  29710260300314 "} = s{"29710260300314"}.
Proof.
  destruct (validated_id_is_canonical s{"  29710260300314 "} s{"29710260300314"})
    as (Hstrip & _ & _ & _ & _ & Hagain); [reflexivity|].
  split; [exact Hagain|symmetry; exact Hstrip].
Defined.

(** X2. Whitespace before and after the identifier plays no part in the
    validation: the padded input is accepted or rejected as the bare one
    is, with the same value or the same message. *)
Theorem validation_ignores_padding (p v q : Py.str) :
  forallb Py.isspace_char p = true -> forallb Py.isspace_char q = true ->
  Api.validate_national_id (p ++ v ++ q) = Api.validate_national_id v.
Proof.
  intros Hp Hq. unfold Api.validate_national_id.
  rewrite (strip_padding p v q Hp Hq). reflexivity.
Qed.

Lemma validation_ignores_padding_witness :
  Api.validate_national_id ([9; 32] ++ s{"2971026030031"} ++ [10]) =
    Py.Raise (Py.Exn Py.ValueError
      s{"National ID must be exactly 14 digits, got 13 characters"}).
Proof.
  rewrite (validation_ignores_padding [9; 32] s{"2971026030031"} [10]);
    reflexivity.
Defined.

(** ** More on the access gate *)

Section SlidingWindow.

Variable client_ip : Py.str.

Lemma check_stored store now :
  stored (fst (Api.check_rate_limit store client_ip now)) client_ip =
    filter (fun t => t > now - Api.RATE_LIMIT_WINDOW) (stored store client_ip)
      ++ (if snd (Api.check_rate_limit store client_ip now) then [now] else [])
  /\ snd (Api.check_rate_limit store client_ip now) =
       (Z.of_nat (length (filter (fun t => t > now - Api.RATE_LIMIT_WINDOW)
                            (stored store client_ip)))
          <? Api.RATE_LIMIT_REQUESTS).
Proof.
  pose proof (check_rate_limit_spec client_ip store now) as H. cbv zeta in H.
  destruct (Api.check_rate_limit store client_ip now) as [store' allowed].
  destruct H as (Ha & Hs & _). cbn [fst snd]. split; [exact Hs|exact Ha].
Qed.

Lemma admitted_in store times t :
  forall (Hin : In t (admitted store client_ip times)), In t times.
Proof.
  revert store. induction times as [|now times IH]; intros store Hin; [exact Hin|].
  cbn [admitted] in Hin.
  destruct (Api.check_rate_limit store client_ip now) as [store' allowed].
  apply in_app_or in Hin as [Hin|Hin].
  - left. destruct allowed; [|destruct Hin]. destruct Hin as [<-|[]]. reflexivity.
  - right. exact (IH _ Hin).
Qed.

Lemma outside_window a (l : list Z) :
  Forall (fun t => a + Api.RATE_LIMIT_WINDOW < t) l ->
  List.filter (in_windowb a) l = [].
Proof.
  induction 1 as [|t l Ht Hl IH]; [reflexivity|]. cbn [List.filter].
  unfold in_windowb at 1.
  replace (t <=? a + Api.RATE_LIMIT_WINDOW) with false by (symmetry; apply Z.leb_gt, Ht).
  rewrite andb_false_r. exact IH.
Qed.

(** Pruning for a check at [now] takes nothing out of a window that
    reaches [now]. *)
Lemma pruned_outside a now (l : list Z) :
  now <= a + Api.RATE_LIMIT_WINDOW ->
  List.filter (in_windowb a) (filter (fun t => t > now - Api.RATE_LIMIT_WINDOW) l)
    = List.filter (in_windowb a) l.
Proof.
  intros Hnow. induction l as [|t l IH]; [reflexivity|].
  destruct (decide (t > now - Api.RATE_LIMIT_WINDOW)) as [Ht|Ht].
  - rewrite filter_cons_True by exact Ht. cbn [List.filter]. rewrite IH. reflexivity.
  - rewrite filter_cons_False by exact Ht. cbn [List.filter]. rewrite IH.
    unfold in_windowb at 2.
    replace (a <? t) with false by (symmetry; apply Z.ltb_ge; lia). reflexivity.
Qed.

End SlidingWindow.

(** X3. The guarantee of the rate limiter. For a client that has at
    most [RATE_LIMIT_REQUESTS] timestamps in the store, none of them later
    than its coming requests, and a clock that does not go back: no window
    of [RATE_LIMIT_WINDOW] seconds, wherever it opens, holds more than
    [RATE_LIMIT_REQUESTS] admitted requests, the stored ones counted. *)
Theorem no_window_exceeds_quota
    (store : gmap (list Z) (list Z)) (client_ip : Py.str)
    (times : list Z) (start : Z) :
  Z.of_nat (length (stored store client_ip)) <= Api.RATE_LIMIT_REQUESTS ->
  Forall (fun s => Forall (fun t => s <= t) times) (stored store client_ip) ->
  StronglySorted Z.le times ->
  Z.of_nat (length (List.filter (in_windowb start)
                      (stored store client_ip ++ admitted store client_ip times)))
    <= Api.RATE_LIMIT_REQUESTS.
Proof.
  revert store start. induction times as [|now times IH];
    intros store a Hlen Hold Hsorted.
  - cbn [admitted]. rewrite app_nil_r.
    pose proof (List.filter_length_le (in_windowb a) (stored store client_ip)). lia.
  - apply StronglySorted_inv in Hsorted as [Hsorted Hnow].
    cbn [admitted]. destruct (check_stored client_ip store now) as [Hstored Hallowed].
    destruct (Api.check_rate_limit store client_ip now) as [store' allowed].
    cbn [fst snd] in Hstored, Hallowed.
    set (kept := filter (fun t => t > now - Api.RATE_LIMIT_WINDOW)
                   (stored store client_ip)) in *.
    assert (Hkept : (length kept <= length (stored store client_ip))%nat)
      by apply length_filter.
    assert (Hnew : Forall (fun t => now <= t)
                     ((if allowed then [now] else [])
                        ++ admitted store' client_ip times)).
    { apply Forall_app. split.
      - destruct allowed; [|apply Forall_nil_2].
        apply Forall_cons. split; [lia|apply Forall_nil_2].
      - apply Forall_forall. intros t Ht. apply list_elem_of_In, admitted_in in Ht.
        rewrite Forall_forall in Hnow. apply Hnow, list_elem_of_In, Ht. }
    destruct (Z.lt_ge_cases (a + Api.RATE_LIMIT_WINDOW) now) as [Hbefore|Hreach].
    + rewrite List.filter_app,
        (outside_window a ((if allowed then [now] else [])
                             ++ admitted store' client_ip times)).
      * rewrite app_nil_r.
        pose proof (List.filter_length_le (in_windowb a) (stored store client_ip)). lia.
      * eapply Forall_impl; [exact Hnew|]. intros t Ht. cbv beta in *. lia.
    + specialize (IH store' a). rewrite Hstored in IH.
      rewrite <- app_assoc in IH.
      rewrite List.filter_app in IH |- *.
      unfold kept in IH. rewrite (pruned_outside a now _ Hreach) in IH.
      apply IH; [| |exact Hsorted].
      * fold kept. rewrite length_app. destruct allowed; cbn [length].
        -- symmetry in Hallowed. apply Z.ltb_lt in Hallowed. lia.
        -- lia.
      * apply Forall_app. split.
        -- fold kept. apply Forall_forall. intros s Hs.
           apply list_elem_of_filter in Hs as [_ Hs].
           rewrite Forall_forall in Hold. specialize (Hold s Hs).
           apply Forall_cons in Hold as [_ Hold]. exact Hold.
        -- destruct allowed; [|apply Forall_nil_2].
           apply Forall_cons. split; [|apply Forall_nil_2].
           eapply Forall_impl; [exact Hnow|]. intros t Ht. exact Ht.
Qed.

Lemma no_window_exceeds_quota_witness :
  Z.of_nat (length (List.filter (in_windowb 0)
                      (stored old_store s{"203.0.113.7"}
                         ++ admitted old_store s{"203.0.113.7"} [61; 61; 62; 90])))
    <= Api.RATE_LIMIT_REQUESTS.
Proof.
  apply (no_window_exceeds_quota old_store s{"203.0.113.7"} [61; 61; 62; 90] 0).
  - vm_compute. discriminate.
  - vm_compute. repeat constructor; discriminate.
  - repeat (apply SSorted_cons; [|repeat (apply Forall_cons; split; [lia|]);
                                  apply Forall_nil_2]).
    apply SSorted_nil.
Defined.

Section Clients.

Variable call_next : Api.request -> Api.reply.

Lemma serve_cons store now req arrivals :
  Api.serve store call_next ((now, req) :: arrivals) =
    (fst (Api.serve (fst (Api.rate_limiting_middleware store now req call_next))
            call_next arrivals),
     snd (Api.rate_limiting_middleware store now req call_next)
       :: snd (Api.serve (fst (Api.rate_limiting_middleware store now req call_next))
                 call_next arrivals)).
Proof.
  cbn [Api.serve].
  destruct (Api.rate_limiting_middleware store now req call_next) as [store1 r].
  cbn [fst snd]. destruct (Api.serve store1 call_next arrivals). reflexivity.
Qed.

Lemma middleware_check store now req :
  fst (Api.rate_limiting_middleware store now req call_next) =
    fst (Api.check_rate_limit store (Api.client_identity req) now)
  /\ snd (Api.rate_limiting_middleware store now req call_next) =
       if snd (Api.check_rate_limit store (Api.client_identity req) now)
       then call_next req else Api.rate_limited.
Proof.
  unfold Api.rate_limiting_middleware.
  destruct (Api.check_rate_limit store (Api.client_identity req) now) as [s [|]];
    split; reflexivity.
Qed.

(** What the middleware does for a client depends on that client's
    timestamps only. *)
Lemma middleware_own store1 store2 now req :
  stored store1 (Api.client_identity req) = stored store2 (Api.client_identity req) ->
  snd (Api.rate_limiting_middleware store1 now req call_next) =
    snd (Api.rate_limiting_middleware store2 now req call_next)
  /\ stored (fst (Api.rate_limiting_middleware store1 now req call_next))
       (Api.client_identity req) =
     stored (fst (Api.rate_limiting_middleware store2 now req call_next))
       (Api.client_identity req).
Proof.
  intros Heq.
  destruct (middleware_check store1 now req) as [-> ->].
  destruct (middleware_check store2 now req) as [-> ->].
  destruct (check_stored (Api.client_identity req) store1 now) as [-> ->].
  destruct (check_stored (Api.client_identity req) store2 now) as [-> ->].
  rewrite Heq. split; reflexivity.
Qed.

Lemma middleware_other store now req client_ip :
  client_ip <> Api.client_identity req ->
  fst (Api.rate_limiting_middleware store now req call_next) !! client_ip =
    store !! client_ip.
Proof.
  intros Hne. destruct (middleware_check store now req) as [-> _].
  pose proof (check_rate_limit_spec (Api.client_identity req) store now) as H.
  cbv zeta in H.
  destruct (Api.check_rate_limit store (Api.client_identity req) now) as [s b].
  destruct H as (_ & _ & H). exact (H _ Hne).
Qed.

Lemma from_spec client_ip a :
  from client_ip a = true <-> Api.client_identity (snd a) = client_ip.
Proof. unfold from, Py.eqb. apply bool_decide_eq_true. Qed.

Lemma middleware_records store now req :
  is_Some (fst (Api.rate_limiting_middleware store now req call_next)
             !! Api.client_identity req).
Proof.
  destruct (middleware_check store now req) as [-> _].
  unfold Api.check_rate_limit.
  destruct (Z.of_nat (length _) <? Api.RATE_LIMIT_REQUESTS); cbn [fst];
    rewrite lookup_insert_eq; eexists; reflexivity.
Qed.

Lemma middleware_keeps store now req client_ip :
  is_Some (store !! client_ip) ->
  is_Some (fst (Api.rate_limiting_middleware store now req call_next) !! client_ip).
Proof.
  intros H. destruct (decide (client_ip = Api.client_identity req)) as [->|Hne].
  - apply middleware_records.
  - rewrite (middleware_other _ _ _ _ Hne). exact H.
Qed.

Lemma serve_keeps : forall arrivals store client_ip,
  is_Some (store !! client_ip) ->
  is_Some (fst (Api.serve store call_next arrivals) !! client_ip).
Proof.
  induction arrivals as [|[now req] arrivals IH]; intros store client_ip H; [exact H|].
  rewrite serve_cons. cbn [fst]. apply IH, middleware_keeps, H.
Qed.

Lemma serve_records : forall arrivals store client_ip,
  In client_ip (map (fun a => Api.client_identity (snd a)) arrivals) ->
  is_Some (fst (Api.serve store call_next arrivals) !! client_ip).
Proof.
  induction arrivals as [|[now req] arrivals IH]; intros store client_ip H;
    [destruct H|].
  rewrite serve_cons. cbn [fst]. destruct H as [<-|H].
  - apply serve_keeps, middleware_records.
  - apply IH, H.
Qed.

End Clients.

(** X4. Clients do not interfere: in any series of requests, the replies
    that the requests of one client get are the replies they would get if
    the requests of all other clients were taken out of the series. *)
Theorem other_clients_do_not_interfere
    (store : gmap (list Z) (list Z)) (call_next : Api.request -> Api.reply)
    (arrivals : list (Z * Api.request)) (client_ip : Py.str) :
  map snd (List.filter (fun ar => from client_ip (fst ar))
             (combine arrivals (snd (Api.serve store call_next arrivals)))) =
    snd (Api.serve store call_next (List.filter (from client_ip) arrivals)).
Proof.
  assert (Hgen : forall arrivals store1 store2,
    stored store1 client_ip = stored store2 client_ip ->
    map snd (List.filter (fun ar => from client_ip (fst ar))
               (combine arrivals (snd (Api.serve store1 call_next arrivals)))) =
      snd (Api.serve store2 call_next (List.filter (from client_ip) arrivals))).
  { clear store arrivals.
    induction arrivals as [|[now req] arrivals IH]; intros store1 store2 Heq;
      [reflexivity|].
    rewrite serve_cons. cbn [snd combine List.filter fst].
    destruct (from client_ip (now, req)) eqn:Hfrom.
    - apply from_spec in Hfrom. cbn [snd] in Hfrom. subst client_ip.
      rewrite serve_cons. cbn [snd map].
      destruct (middleware_own call_next store1 store2 now req Heq) as [-> Hnext].
      f_equal. apply IH, Hnext.
    - apply IH. rewrite <- Heq. unfold stored. f_equal.
      apply middleware_other. intros ->.
      assert (from (Api.client_identity req) (now, req) = true) as Habs
        by (apply from_spec; reflexivity).
      congruence. }
  apply Hgen. reflexivity.
Qed.

(** X5. The store never holds more than [RATE_LIMIT_REQUESTS] timestamps
    for a client: when that is so before a series of requests, it is so
    after it, for every client and whatever the clock does. *)
Theorem store_is_bounded_per_client
    (store : gmap (list Z) (list Z)) (call_next : Api.request -> Api.reply)
    (arrivals : list (Z * Api.request)) :
  (forall client_ip,
     Z.of_nat (length (stored store client_ip)) <= Api.RATE_LIMIT_REQUESTS) ->
  forall client_ip,
    Z.of_nat (length (stored (fst (Api.serve store call_next arrivals)) client_ip))
      <= Api.RATE_LIMIT_REQUESTS.
Proof.
  revert store. induction arrivals as [|[now req] arrivals IH];
    intros store Hb client_ip; [apply Hb|].
  rewrite serve_cons. cbn [fst]. apply IH. clear client_ip. intros client_ip.
  destruct (decide (client_ip = Api.client_identity req)) as [->|Hne].
  - destruct (middleware_check call_next store now req) as [-> _].
    destruct (check_stored (Api.client_identity req) store now) as [-> ->].
    set (kept := filter _ _).
    assert (length kept <= length (stored store (Api.client_identity req)))%nat
      by apply length_filter.
    specialize (Hb (Api.client_identity req)).
    rewrite length_app.
    destruct (Z.of_nat (length kept) <? Api.RATE_LIMIT_REQUESTS) eqn:E; cbn [length].
    + apply Z.ltb_lt in E. lia.
    + lia.
  - unfold stored. rewrite (middleware_other call_next _ _ _ _ Hne). apply Hb.
Qed.

Lemma store_is_bounded_per_client_witness :
  Z.of_nat (length (stored (fst (Api.serve ∅ passed burst)) s{"203.0.113.7"}))
    <= Api.RATE_LIMIT_REQUESTS.
Proof.
  apply (store_is_bounded_per_client ∅ passed burst).
  intros client_ip. unfold stored. rewrite lookup_empty. discriminate.
Defined.

(** X6. The store never forgets a client: a client that is in the store
    before a series of requests, or that sends one of them, admitted or
    not, is in the store after it. *)
Theorem store_never_forgets
    (store : gmap (list Z) (list Z)) (call_next : Api.request -> Api.reply)
    (arrivals : list (Z * Api.request)) (client_ip : Py.str) :
  is_Some (store !! client_ip)
    \/ In client_ip (map (fun a => Api.client_identity (snd a)) arrivals) ->
  is_Some (fst (Api.serve store call_next arrivals) !! client_ip).
Proof.
  intros [H|H]; [apply serve_keeps, H|apply serve_records, H].
Qed.

Lemma store_never_forgets_witness :
  is_Some (fst (Api.serve old_store passed [(0, Api.Request None s{"198.51.100.1"})])
             !! s{"203.0.113.7"}).
Proof.
  apply (store_never_forgets old_store passed
           [(0, Api.Request None s{"198.51.100.1"})] s{"203.0.113.7"}).
  left. vm_compute. eexists. reflexivity.
Defined.

Section ClientIdentity.

Lemma startswith_char c x s : Py.startswith (x :: s) [c] = (c =? x).
Proof. cbn [Py.startswith]. destruct s; apply andb_true_r. Qed.

Lemma contains_char c s : Py.contains [c] s = true <-> In c s.
Proof.
  induction s as [|x s IH]; cbn [Py.contains].
  - split; [discriminate|intros []].
  - rewrite startswith_char, orb_true_iff, IH, Z.eqb_eq. cbn [In].
    split; (intros [H|H]; [left; congruence|right; exact H]).
Qed.

Lemma split1_char c s : forall before after,
  Py.split1 [c] s = Some (before, after) ->
  s = before ++ c :: after /\ ~ In c before.
Proof.
  induction s as [|x s IH]; intros before after H; cbn [Py.split1] in H.
  - discriminate.
  - rewrite startswith_char in H. destruct (c =? x) eqn:E.
    + apply Z.eqb_eq in E. subst x. injection H as <- <-. split; [reflexivity|intros []].
    + destruct (Py.split1 [c] s) as [[b a]|]; [|discriminate].
      injection H as <- <-. destruct (IH b a eq_refl) as [-> Hb].
      apply Z.eqb_neq in E. split; [reflexivity|].
      intros [H|H]; [congruence|exact (Hb H)].
Qed.

Lemma split1_first c first rest :
  ~ In c first -> Py.split1 [c] (first ++ c :: rest) = Some (first, rest).
Proof.
  induction first as [|x first IH]; intros Hc; cbn [Py.split1 app];
    rewrite startswith_char.
  - rewrite Z.eqb_refl. reflexivity.
  -     replace (c =? x) with false
      by (symmetry; apply Z.eqb_neq; intros ->; apply Hc; left; reflexivity).
    rewrite IH by (intros H; apply Hc; right; exact H). reflexivity.
Qed.

Lemma split1_found c s : In c s -> is_Some (Py.split1 [c] s).
Proof.
  induction s as [|x s IH]; [intros []|]. intros H. cbn [Py.split1].
  rewrite startswith_char. destruct (c =? x) eqn:E; [eexists; reflexivity|].
  apply Z.eqb_neq in E. destruct H as [H|H]; [congruence|].
  destruct (IH H) as [[b a] ->]. eexists. reflexivity.
Qed.

Lemma lstrip_In x s : In x (Py.lstrip s) -> In x s.
Proof.
  induction s as [|c s IH]; cbn [Py.lstrip]; [intros []|].
  destruct (Py.isspace_char c); [|intros H; exact H].
  intros H. right. exact (IH H).
Qed.

Lemma strip_In x s : In x (Py.strip s) -> In x s.
Proof.
  unfold Py.strip, Py.rstrip. intros H.
  apply lstrip_In. apply in_rev in H. apply lstrip_In in H. apply in_rev in H.
  exact H.
Qed.

Lemma client_identity_no_comma req : ~ In 44 (Api.client_identity req).
Proof.
  unfold Api.client_identity. cbv zeta.
  set (client_ip := default _ _).
  destruct (Py.contains [44] client_ip) eqn:E.
  - destruct (Py.eqb client_ip []) eqn:En; cbn [negb andb];
      [apply bool_decide_eq_true in En; rewrite En in E; discriminate|].
    destruct (Py.split1 [44] client_ip) as [[first rest]|] eqn:Es.
    + apply split1_char in Es as [_ Hn]. intros H. apply Hn, (strip_In _ _ H).
    + apply contains_char, (split1_found 44) in E. rewrite Es in E.
      destruct E as [? E]. discriminate.
  - rewrite andb_false_r. intros H. apply contains_char in H. congruence.
Qed.

End ClientIdentity.

(** X7. The key under which the middleware counts a request never
    contains a comma. With an [X-Forwarded-For] header that lists several
    addresses it is the first of them, without the whitespace around it,
    whatever follows the first comma and whatever the peer address is. *)
Theorem forwarded_client_is_first_address :
  (forall req, Py.contains [44] (Api.client_identity req) = false)
  /\ (forall first rest host,
        Py.contains [44] first = false ->
        Api.client_identity (Api.Request (Some (first ++ [44] ++ rest)) host)
          = Py.strip first).
Proof.
  split.
  - intros req. destruct (Py.contains _ _) eqn:E; [|reflexivity].
    apply contains_char in E. destruct (client_identity_no_comma req E).
  - intros first rest host Hfirst.
    change (Api.client_identity (Api.Request (Some (first ++ [44] ++ rest)) host))
      with (if negb (Py.eqb (first ++ [44] ++ rest) [])
                 && Py.contains [44] (first ++ [44] ++ rest)
            then match Py.split1 [44] (first ++ [44] ++ rest) with
                 | Some (first, _) => Py.strip first
                 | None => Py.strip (first ++ [44] ++ rest)
                 end
            else first ++ [44] ++ rest).
    assert (Hn : ~ In 44 first)
      by (intros H; apply contains_char in H; congruence).
    assert (Hc : Py.contains [44] (first ++ [44] ++ rest) = true)
      by (apply contains_char, in_or_app; right; left; reflexivity).
    rewrite Hc.
    assert (Hne : Py.eqb (first ++ [44] ++ rest) [] = false).
    { unfold Py.eqb. apply bool_decide_eq_false. destruct first; discriminate. }
    rewrite Hne. cbn [negb andb]. cbn [app].
    rewrite (split1_first 44 first rest Hn). reflexivity.
Qed.

Lemma forwarded_client_is_first_address_witness :
  Api.client_identity
    (Api.Request (Some (s{" 203.0.113.7 "} ++ [44] ++ s{" 10.0.0.1, 10.0.0.2"}))
       s{"10.0.0.9"})
    = s{"203.0.113.7"}.
Proof.
  destruct forwarded_client_is_first_address as [_ H].
  rewrite (H s{" 203.0.113.7 "} s{" 10.0.0.1, 10.0.0.2"} s{"10.0.0.9"});
    reflexivity.
Defined.

(** ** More on the retry controller *)

Section Attempts.

Variable self : Scraper.scraper.
Variable national_id : Py.str.

Let N := Scraper.max_retries self.

(** The retry test of line 257 never holds for a dict of
    [extract_result_data]. *)
Lemma read_is_final pg :
  Scraper.after_extraction (Scraper.extract_result_data pg) =
    ([], inl (Scraper.Returns (Scraper.extract_result_data pg))).
Proof.
  unfold Scraper.extract_result_data.
  destruct (Scraper.body_text pg) as [page_text|]; [|reflexivity].
  destruct (Py.eqb page_text [] || _); [reflexivity|].
  destruct (Py.contains Scraper.UNDERAGE_MESSAGE page_text); [reflexivity|].
  destruct (Py.contains Scraper.NOT_REGISTERED_MESSAGE page_text); reflexivity.
Qed.

Lemma attempt_outcome attempt :
  0 <= Scraper.retry_delay self ->
  Scraper.retry_delay self * 2 ^ (Z.of_nat attempt - 1) <= Scraper.SLEEP_SAFE ->
  if completes (Scraper.driver self attempt) then
    snd (Scraper.attempt_body self national_id attempt) =
      Scraper.Return
        (Scraper.extract_result_data (Scraper.result_page (Scraper.driver self attempt)))
  else
    recorded (snd (Scraper.attempt_body self national_id attempt)) =
      Some (failure_message (Scraper.driver self attempt)).
Proof.
  intros Hd Hs. unfold Scraper.attempt_body, Scraper.attempt_try.
  rewrite (backoff_runs self attempt Hd Hs).
  unfold Scraper.interaction, completes, failure_message.
  pose proof (read_is_final (Scraper.result_page (Scraper.driver self attempt))) as Hr.
  destruct (Scraper.navigate (Scraper.driver self attempt)); [reflexivity|].
  destruct (Scraper.frame (Scraper.driver self attempt));
    [|reflexivity|cbn; destruct (_ =? _); reflexivity].
  destruct (Scraper.input (Scraper.driver self attempt));
    [|reflexivity|cbn; destruct (_ =? _); reflexivity].
  destruct (Scraper.submit (Scraper.driver self attempt));
    [|reflexivity|cbn; destruct (_ =? _); reflexivity].
  cbn. rewrite Hr. reflexivity.
Qed.

Lemma attempts_result k : forall s last_error,
  0 <= Scraper.retry_delay self ->
  Scraper.retry_delay self * 2 ^ (N - 2) <= Scraper.SLEEP_SAFE ->
  Z.of_nat (s + k) = N ->
  snd (Scraper.attempts self national_id (seq s k) last_error) =
    match List.find (fun attempt => completes (Scraper.driver self attempt)) (seq s k) with
    | Some attempt =>
        Scraper.extract_result_data (Scraper.result_page (Scraper.driver self attempt))
    | None =>
        Scraper.exhausted self national_id
          (match k with
           | O => last_error
           | S k' => Some (failure_message (Scraper.driver self (s + k')))
           end)
    end.
Proof.
  induction k as [|k IH]; intros s last_error Hd Hs HN; [reflexivity|].
  cbn [seq Scraper.attempts List.find].
  assert (Hw : Scraper.retry_delay self * 2 ^ (Z.of_nat s - 1) <= Scraper.SLEEP_SAFE).
  { etransitivity; [apply (longest_wait self s Hd); fold N; lia|exact Hs]. }
  pose proof (attempt_outcome s Hd Hw) as Ho.
  pose proof (break_is_last self national_id s) as Hbreak.
  destruct (Scraper.attempt_body self national_id s) as [tr e].
  cbn [snd] in Ho, Hbreak.
  destruct (completes (Scraper.driver self s)).
  - rewrite Ho. reflexivity.
  - destruct e as [r|msg|msg]; cbn [recorded] in Ho; [discriminate| |];
      injection Ho as ->.
    + specialize (IH (S s) (Some (failure_message (Scraper.driver self s))) Hd Hs
                    ltac:(lia)).
      destruct (Scraper.attempts self national_id (seq (S s) k) _) as [tr' r'].
      cbn [snd] in *. rewrite IH. destruct k as [|k'].
      * rewrite Nat.add_0_r. reflexivity.
      * replace (S s + k')%nat with (s + S k')%nat by lia. reflexivity.
    + specialize (Hbreak _ eq_refl). fold N in Hbreak.
      assert (k = 0%nat) by lia. subst k.
      rewrite Nat.add_0_r. reflexivity.
Qed.

Lemma frame_state_app tr1 : forall inside tr2,
  frame_state inside (tr1 ++ tr2) =
    match frame_state inside tr1 with
    | Some inside' => frame_state inside' tr2
    | None => None
    end.
Proof.
  induction tr1 as [|e tr1 IH]; intros inside tr2; [reflexivity|].
  destruct e, inside; cbn [app frame_state]; try reflexivity; apply IH.
Qed.

Lemma attempt_frame_state attempt :
  frame_state false (fst (Scraper.attempt_body self national_id attempt)) = Some false.
Proof.
  unfold Scraper.attempt_body, Scraper.attempt_try, Scraper.interaction.
  destruct (backoff_cases self attempt) as [Hb|[x Hb]]; rewrite Hb; clear Hb;
    [|reflexivity].
  remember (Scraper.driver self attempt) as stub eqn:E. clear E.
  pose proof (read_is_final (Scraper.result_page stub)) as Hr.
  destruct attempt as [|a]; unfold backoff_events; cbv zeta.
  all: destruct (Scraper.navigate stub); [reflexivity|].
  all: destruct (Scraper.frame stub); [|reflexivity|reflexivity].
  all: destruct (Scraper.input stub); [|reflexivity|reflexivity].
  all: destruct (Scraper.submit stub); [|reflexivity|reflexivity].
  all: cbn; rewrite Hr; reflexivity.
Qed.

Lemma page_loads_app tr1 tr2 :
  page_loads (tr1 ++ tr2) = (page_loads tr1 + page_loads tr2)%nat.
Proof.
  induction tr1 as [|e tr1 IH]; [reflexivity|].
  destruct e; cbn [app page_loads]; rewrite IH; reflexivity.
Qed.

Lemma slept_app tr1 tr2 : slept (tr1 ++ tr2) = slept tr1 + slept tr2.
Proof.
  induction tr1 as [|e tr1 IH]; [reflexivity|].
  destruct e; cbn [app slept]; rewrite IH; lia.
Qed.

Lemma total_backoff_step m :
  total_backoff self (S m) = total_backoff self m + slept (backoff_events self m).
Proof.
  destruct m as [|m]; cbn [total_backoff backoff_events slept].
  - change (2 ^ Z.of_nat 0) with 1. lia.
  - cbv zeta. cbn [slept].
    replace (Z.of_nat (S m) - 1) with (Z.of_nat m) by lia.
    replace (Z.of_nat (S m)) with (Z.succ (Z.of_nat m)) by lia.
    rewrite Z.pow_succ_r by lia. lia.
Qed.

Lemma backoff_slept_nonneg m :
  0 <= Scraper.retry_delay self -> 0 <= slept (backoff_events self m).
Proof.
  intros Hd. destruct m as [|m]; cbn [backoff_events slept]; [lia|].
  cbv zeta. cbn [slept].
  assert (0 <= Scraper.retry_delay self * 2 ^ (Z.of_nat (S m) - 1)); [|lia].
  apply Z.mul_nonneg_nonneg; [exact Hd|apply Z.pow_nonneg; lia].
Qed.

Lemma total_backoff_mono m k :
  0 <= Scraper.retry_delay self ->
  total_backoff self m <= total_backoff self (m + k).
Proof.
  intros Hd. induction k as [|k IH]; [rewrite Nat.add_0_r; lia|].
  replace (m + S k)%nat with (S (m + k)) by lia.
  rewrite total_backoff_step. pose proof (backoff_slept_nonneg (m + k) Hd). lia.
Qed.

(** An attempt loads the page at most once; it sleeps for its wait at
    most and then for 5 seconds when it reads a result page, for at most
    2 when it does not. *)
Lemma attempt_effort attempt :
  0 <= Scraper.retry_delay self ->
  (page_loads (fst (Scraper.attempt_body self national_id attempt)) <= 1)%nat
  /\ 0 <= slept (fst (Scraper.attempt_body self national_id attempt))
       <= slept (backoff_events self attempt)
          + match snd (Scraper.attempt_body self national_id attempt) with
            | Scraper.Return _ => 5
            | _ => 2
            end.
Proof.
  intros Hd. pose proof (backoff_slept_nonneg attempt Hd) as Hb0.
  unfold Scraper.attempt_body, Scraper.attempt_try.
  destruct (backoff_cases self attempt) as [Hb|[x Hb]]; rewrite Hb;
    [|set (wait := slept (backoff_events self attempt)) in *;
      cbn; destruct (_ =? _); cbn; lia].
  assert (Hq : page_loads (backoff_events self attempt) = 0%nat)
    by (destruct attempt; reflexivity).
  unfold Scraper.interaction.
  pose proof (read_is_final (Scraper.result_page (Scraper.driver self attempt))) as Hr.
  destruct (Scraper.navigate (Scraper.driver self attempt));
    [cbn; rewrite page_loads_app, slept_app, Hq; cbn; lia|].
  destruct (Scraper.frame (Scraper.driver self attempt));
    [|cbn; rewrite page_loads_app, slept_app, Hq; cbn; lia
     |cbn; destruct (_ =? _); cbn; rewrite <- app_assoc, page_loads_app, slept_app, Hq;
      cbn; lia].
  destruct (Scraper.input (Scraper.driver self attempt));
    [|cbn; rewrite page_loads_app, slept_app, Hq; cbn; lia
     |cbn; destruct (_ =? _); cbn; rewrite <- app_assoc, page_loads_app, slept_app, Hq;
      cbn; lia].
  destruct (Scraper.submit (Scraper.driver self attempt));
    [|cbn; rewrite page_loads_app, slept_app, Hq; cbn; lia
     |cbn; destruct (_ =? _); cbn; rewrite <- app_assoc, page_loads_app, slept_app, Hq;
      cbn; lia].
  cbn. rewrite Hr. cbn. rewrite page_loads_app, slept_app, Hq. cbn. lia.
Qed.

Lemma attempts_effort k : forall s last_error,
  0 <= Scraper.retry_delay self ->
  (page_loads (fst (Scraper.attempts self national_id (seq s k) last_error)) <= k)%nat
  /\ 0 <= slept (fst (Scraper.attempts self national_id (seq s k) last_error))
       <= match k with
          | O => 0
          | S _ => 2 * Z.of_nat k + 3
          end + total_backoff self (s + k) - total_backoff self s.
Proof.
  induction k as [|k IH]; intros s last_error Hd.
  - cbn [seq Scraper.attempts fst page_loads slept]. rewrite Nat.add_0_r. lia.
  - cbn [seq Scraper.attempts].
    destruct (attempt_effort s Hd) as (Hl & Hs).
    pose proof (backoff_slept_nonneg s Hd) as Hb0.
    pose proof (total_backoff_step s) as Hstep.
    pose proof (total_backoff_mono (S s) k Hd) as Hmono.
    replace (s + S k)%nat with (S s + k)%nat by lia.
    destruct (Scraper.attempt_body self national_id s) as [tr e].
    cbn [fst snd] in Hl, Hs. destruct e as [r|msg|msg]; cbn [fst].
    + split; lia.
    + specialize (IH (S s) (Some msg) Hd).
      destruct (Scraper.attempts self national_id (seq (S s) k) (Some msg))
        as [tr' r'].
      cbn [fst] in *. rewrite page_loads_app, slept_app.
      destruct IH as [IH1 IH2]. split; [lia|].
      destruct k; lia.
    + split; lia.
Qed.

End Attempts.

(** X8. A page that has been read is never read again: whatever the
    result page shows, the dict that [extract_result_data] makes of it
    ends the lookup. The retry of lines 257-261, for an error that has
    the word parse or extract, is never taken for such a dict. *)
Theorem read_page_is_never_retried (pg : Scraper.page) :
  Scraper.after_extraction (Scraper.extract_result_data pg) =
    ([], inl (Scraper.Returns (Scraper.extract_result_data pg))).
Proof.
  unfold Scraper.extract_result_data.
  destruct (Scraper.body_text pg) as [page_text|].
  - destruct (Py.eqb page_text [] || _).
    + unfold Scraper.after_extraction. cbn [Scraper.failure Scraper.success
        Scraper.error default]. reflexivity.
    + destruct (Py.contains Scraper.UNDERAGE_MESSAGE page_text); [reflexivity|].
      destruct (Py.contains Scraper.NOT_REGISTERED_MESSAGE page_text); reflexivity.
  - unfold Scraper.after_extraction. cbn [Scraper.failure Scraper.success
      Scraper.error default]. reflexivity.
Qed.

(** A wait that [time.sleep] refuses is a failure of its attempt like any
    other: with two attempts and a base delay of [10 ^ 10] seconds, the
    second attempt ends in its wait, before the page is loaded, and the
    lookup reports the message of [time.sleep] as the last error. *)
Lemma refused_wait_is_the_last_error :
  Scraper.scrape_electoral_data impatient_scraper sample_id =
    (Scraper.LogQuery 1 2 :: frame_attempt
       ++ [Scraper.LogRetry 2 2 (10 ^ 10); Scraper.DefaultContent],
     Scraper.exhausted impatient_scraper sample_id
       (Some s{"timestamp too large to convert to C _PyTime_t"})).
Proof. vm_compute. reflexivity. Qed.

(** X9. What a lookup returns when its waits pass, which they do when the
    delay is not negative and the longest wait, the one before the last
    attempt, is of at most [SLEEP_SAFE] seconds: the dict
    of the first attempt at which the browser goes through every step, as
    [extract_result_data] reads it from that attempt's result page; when
    none of the [max_retries] attempts does, the retries-exhausted dict
    with the message of the first failing step of the last attempt, and
    with [None] for the message when no attempt is allowed at all. *)
Theorem lookup_returns_first_completed_attempt
    (self : Scraper.scraper) (national_id : Py.str) :
  0 <= Scraper.retry_delay self ->
  Scraper.retry_delay self * 2 ^ (Scraper.max_retries self - 2)
    <= Scraper.SLEEP_SAFE ->
  snd (Scraper.scrape_electoral_data self national_id) =
    match List.find (fun attempt => completes (Scraper.driver self attempt))
            (seq 0 (Z.to_nat (Scraper.max_retries self))) with
    | Some attempt =>
        Scraper.extract_result_data (Scraper.result_page (Scraper.driver self attempt))
    | None =>
        Scraper.exhausted self national_id
          (match Z.to_nat (Scraper.max_retries self) with
           | O => None
           | S last_ => Some (failure_message (Scraper.driver self last_))
           end)
    end.
Proof.
  intros Hd Hs. unfold Scraper.scrape_electoral_data.
  destruct (Z.to_nat (Scraper.max_retries self)) as [|k] eqn:Ek; [reflexivity|].
  rewrite (attempts_result self national_id (S k) 0 None Hd Hs) by lia.
  reflexivity.
Qed.

Lemma lookup_returns_first_completed_attempt_witness :
  snd (Scraper.scrape_electoral_data flaky_scraper sample_id) =
    Scraper.extract_result_data sample_page.
Proof.
  rewrite (lookup_returns_first_completed_attempt flaky_scraper sample_id);
    [reflexivity|discriminate|discriminate].
Defined.

(** X10. The calls of a lookup keep to the frame discipline, whatever
    the browser does and whatever the settings are: the page is loaded
    and the form frame looked for only when the last switch asked for, if
    any, is the return to the top-level document; the form is touched and
    the result read only after the switch into the frame; and the last
    switch a lookup asks for is the return to the top-level document. A
    driver that obeys the switches is therefore back in the top-level
    document when the lookup ends. The source ignores a failure of the
    return (lines 197-200, 212-215, 226-229, 245-248 and 269-272) and the
    model gives the return no outcome: nothing is said of a driver that
    refuses it. *)
Theorem lookup_calls_keep_frame_discipline
    (self : Scraper.scraper) (national_id : Py.str) :
  frame_state false (fst (Scraper.scrape_electoral_data self national_id))
    = Some false.
Proof.
  unfold Scraper.scrape_electoral_data.
  generalize (seq 0 (Z.to_nat (Scraper.max_retries self))) (@None Py.str).
  intros todo. induction todo as [|attempt todo IH]; intros last_error; [reflexivity|].
  cbn [Scraper.attempts]. pose proof (attempt_frame_state self national_id attempt) as Ha.
  destruct (Scraper.attempt_body self national_id attempt) as [tr [r|msg|msg]];
    cbn [fst] in *; try exact Ha.
  specialize (IH (Some msg)).
  destruct (Scraper.attempts self national_id todo (Some msg)) as [tr' r'].
  cbn [fst] in *. rewrite frame_state_app, Ha. exact IH.
Qed.

(** X11. The effort of a lookup, when at least one attempt is allowed and
    the delay is not negative: it loads the inquiry page at most
    [max_retries] times, and sleeps for at most
    [2 * max_retries + 3 + retry_delay * (2 ^ (max_retries - 1) - 1)]
    seconds. *)
Theorem lookup_effort_is_bounded
    (self : Scraper.scraper) (national_id : Py.str) :
  0 <= Scraper.retry_delay self ->
  1 <= Scraper.max_retries self ->
  let tr := fst (Scraper.scrape_electoral_data self national_id) in
  Z.of_nat (page_loads tr) <= Scraper.max_retries self
  /\ 0 <= slept tr
       <= 2 * Scraper.max_retries self + 3
          + Scraper.retry_delay self * (2 ^ (Scraper.max_retries self - 1) - 1).
Proof.
  intros Hd HN. cbv zeta. unfold Scraper.scrape_electoral_data.
  destruct (Z.to_nat (Scraper.max_retries self)) as [|k] eqn:Ek; [lia|].
  destruct (attempts_effort self national_id (S k) 0 None Hd) as [Hl Hs].
  cbn [Nat.add total_backoff] in Hs.
  replace (Scraper.max_retries self - 1) with (Z.of_nat k) by lia.
  split; lia.
Qed.

Lemma lookup_effort_is_bounded_witness :
  let tr := fst (Scraper.scrape_electoral_data frameless_scraper sample_id) in
  Z.of_nat (page_loads tr) <= 3 /\ 0 <= slept tr <= 2 * 3 + 3 + 2 * (2 ^ (3 - 1) - 1).
Proof.
  apply (lookup_effort_is_bounded frameless_scraper sample_id); discriminate.
Defined.

(** ** The patterns of the field extraction *)

Section Regex.

Context {A : Type}.
Implicit Types (cls : Z -> bool) (k : Py.str -> option A).

(** What a repetition hands to the rest of the pattern is the text
    without some characters of the class. *)
Lemma many_inv cls k s r :
  Py.Re.many cls k s = Some r ->
  exists a s', s = a ++ s' /\ forallb cls a = true /\ k s' = Some r.
Proof.
  induction s as [|c s IH]; cbn [Py.Re.many]; intros H.
  - exists [], []. auto.
  - destruct (cls c) eqn:Hc; [|exists [], (c :: s); auto].
    destruct (Py.Re.many cls k s) as [r'|] eqn:Hm; [|exists [], (c :: s); auto].
    destruct (IH H) as (a & s' & -> & Ha & Hk).
    exists (c :: a), s'. cbn [forallb app]. rewrite Hc, Ha. auto.
Qed.

Lemma many_stops cls k rest :
  stops cls rest = true -> Py.Re.many cls k rest = k rest.
Proof.
  destruct rest as [|c rest]; [reflexivity|]. cbn [stops Py.Re.many].
  intros H. apply negb_true_iff in H. rewrite H. reflexivity.
Qed.

(** A repetition takes all it can when the rest of the pattern then
    matches. *)
Lemma many_greedy cls k a rest r :
  forallb cls a = true -> stops cls rest = true -> k rest = Some r ->
  Py.Re.many cls k (a ++ rest) = Some r.
Proof.
  intros Ha Hstop Hk. induction a as [|x a IH]; cbn [app].
  - rewrite many_stops by exact Hstop. exact Hk.
  - cbn [forallb] in Ha. apply andb_true_iff in Ha as [Hx Ha].
    cbn [Py.Re.many]. rewrite Hx, (IH Ha). reflexivity.
Qed.

(** It gives back its last character when the rest of the pattern needs
    it. *)
Lemma many_gives_back cls k a c rest r :
  forallb cls a = true -> cls c = true -> stops cls rest = true ->
  k rest = None -> k (c :: rest) = Some r ->
  Py.Re.many cls k (a ++ c :: rest) = Some r.
Proof.
  intros Ha Hc Hstop Hnone Hk. induction a as [|x a IH]; cbn [app].
  - cbn [Py.Re.many]. rewrite Hc, many_stops, Hnone by exact Hstop. exact Hk.
  - cbn [forallb] in Ha. apply andb_true_iff in Ha as [Hx Ha].
    cbn [Py.Re.many]. rewrite Hx, (IH Ha). reflexivity.
Qed.

End Regex.

Section Groups.

Implicit Types (cls : Z -> bool) (p q : list Py.Re.item).

Lemma taken_prefix (v rest : Py.str) :
  firstn (length (v ++ rest) - length rest) (v ++ rest) = v.
Proof.
  replace (length (v ++ rest) - length rest)%nat with (length v)
    by (rewrite length_app; lia).
  apply take_app_length.
Qed.

(** A group of one repetition takes the longest run of the class. *)
Lemma group_greedy cls opened group v rest :
  v <> [] -> forallb cls v = true -> stops cls rest = true ->
  Py.Re.run [Py.Re.Open; Py.Re.Many1 cls; Py.Re.Close] opened group (v ++ rest)
    = Some v.
Proof.
  intros Hv Hcls Hstop. destruct v as [|c v]; [congruence|].
  cbn [forallb] in Hcls. apply andb_true_iff in Hcls as [Hc Hcls].
  cbn [Py.Re.run app]. rewrite Hc.
  rewrite (many_greedy cls _ v rest (c :: v)); auto.
  cbn [Py.Re.run]. f_equal. apply (taken_prefix (c :: v) rest).
Qed.

Lemma group_inv cls opened group s r :
  Py.Re.run [Py.Re.Open; Py.Re.Many1 cls; Py.Re.Close] opened group s = Some r ->
  r <> [] /\ forallb cls r = true /\ exists rest, s = r ++ rest.
Proof.
  cbn [Py.Re.run]. destruct s as [|c s]; [discriminate|].
  destruct (cls c) eqn:Hc; [|discriminate].
  intros H. apply many_inv in H as (a & s' & -> & Ha & Hk).
  cbn [Py.Re.run] in Hk. injection Hk as <-.
  pose proof (taken_prefix (c :: a) s') as E. cbn [app length] in E. rewrite E.
  split; [discriminate|]. split; [cbn [forallb]; rewrite Hc, Ha; reflexivity|].
  exists s'. reflexivity.
Qed.

Lemma run_groupless p : forall q opened group s r,
  groupless p = true ->
  Py.Re.run (p ++ q) opened group s = Some r ->
  exists a s', s = a ++ s' /\ Py.Re.run q opened group s' = Some r.
Proof.
  induction p as [|it p IH]; intros q opened group s r Hp H.
  - exists [], s. auto.
  - cbn [groupless forallb] in Hp. apply andb_true_iff in Hp as [Hit Hp].
    fold (groupless p) in Hp.
    destruct it as [c|cls|cls| |]; try discriminate; cbn [app Py.Re.run] in H.
    + destruct s as [|c' s]; [discriminate|].
      destruct (c' =? c); [|discriminate].
      destruct (IH _ _ _ _ _ Hp H) as (a & s' & -> & Hr).
      exists (c' :: a), s'. auto.
    + apply many_inv in H as (a & s1 & -> & _ & H).
      destruct (IH _ _ _ _ _ Hp H) as (a1 & s' & -> & Hr).
      exists (a ++ a1), s'. rewrite <- app_assoc. auto.
    + destruct s as [|c' s]; [discriminate|].
      destruct (cls c'); [|discriminate].
      apply many_inv in H as (a & s1 & -> & _ & H).
      destruct (IH _ _ _ _ _ Hp H) as (a1 & s' & -> & Hr).
      exists (c' :: a ++ a1), s'. cbn [app]. rewrite <- app_assoc. auto.
Qed.

Lemma search_inv p : forall s r,
  Py.Re.search p s = Some r ->
  exists a s', s = a ++ s' /\ Py.Re.run p [] [] s' = Some r.
Proof.
  induction s as [|c s IH]; intros r H; cbn [Py.Re.search] in H.
  - destruct (Py.Re.run p [] [] []) eqn:E; [|discriminate].
    exists [], []. rewrite E. auto.
  - destruct (Py.Re.run p [] [] (c :: s)) eqn:E.
    + exists [], (c :: s). rewrite E. auto.
    + destruct (IH _ H) as (a & s' & -> & Hr). exists (c :: a), s'. auto.
Qed.

Lemma search_here p s r :
  Py.Re.run p [] [] s = Some r -> Py.Re.search p s = Some r.
Proof. intros H. destruct s; cbn [Py.Re.search]; rewrite H; reflexivity. Qed.

Lemma groupless_literal (l : Py.str) : groupless (Py.Re.literal l) = true.
Proof. induction l as [|c l IH]; [reflexivity|exact IH]. Qed.

Lemma startswith_nil s : Py.startswith s [] = true.
Proof. destruct s; reflexivity. Qed.

Lemma run_literal (l : Py.str) : forall q opened group s,
  Py.Re.run (Py.Re.literal l ++ q) opened group s =
    if Py.startswith s l then Py.Re.run q opened group (skipn (length l) s) else None.
Proof.
  induction l as [|a l IH]; intros q opened group s.
  - rewrite startswith_nil. reflexivity.
  - destruct s as [|c s]; [reflexivity|].
    cbn [Py.Re.literal map app Py.Re.run Py.startswith length skipn].
    rewrite (Z.eqb_sym a c). destruct (c =? a); [|reflexivity].
    apply IH.
Qed.

(** The search stops at the first occurrence of the literal it begins
    with when the rest of the pattern matches there. *)
Lemma search_first (l : Py.str) q : forall text pre tail r,
  Py.split1 l text = Some (pre, tail) ->
  Py.Re.run q [] [] tail = Some r ->
  Py.Re.search (Py.Re.literal l ++ q) text = Some r.
Proof.
  induction text as [|c text IH]; intros pre tail r Hs Hr;
    cbn [Py.split1] in Hs; cbn [Py.Re.search]; rewrite run_literal.
  - destruct (Py.startswith [] l); [|discriminate].
    injection Hs as <- <-. rewrite Hr. reflexivity.
  - destruct (Py.startswith (c :: text) l).
    + injection Hs as <- <-. rewrite Hr. reflexivity.
    + destruct (Py.split1 l text) as [[b a]|]; [|discriminate].
      injection Hs as <- <-. exact (IH _ _ _ eq_refl Hr).
Qed.

Lemma stops_space rest :
  stops Py.Re.colon_or_space rest = true -> stops Py.Re.whitespace rest = true.
Proof.
  destruct rest as [|c rest]; [reflexivity|]. cbn [stops].
  unfold Py.Re.colon_or_space, Py.Re.whitespace.
  intros H. apply negb_true_iff, orb_false_iff in H as [_ H]. rewrite H. reflexivity.
Qed.

Lemma space_is_separator c :
  Py.isspace_char c = true -> Py.Re.colon_or_space c = true.
Proof. unfold Py.Re.colon_or_space. intros ->. apply orb_true_r. Qed.

(** [[:\s]+] before the rest of a pattern. *)
Lemma run_separator q opened group sep rest r :
  sep <> [] -> forallb Py.Re.colon_or_space sep = true ->
  stops Py.Re.colon_or_space rest = true ->
  Py.Re.run q opened group rest = Some r ->
  Py.Re.run (Py.Re.Many1 Py.Re.colon_or_space :: q) opened group (sep ++ rest) = Some r.
Proof.
  intros Hne Hsep Hstop Hr. destruct sep as [|x sep]; [congruence|].
  cbn [forallb] in Hsep. apply andb_true_iff in Hsep as [Hx Hsep].
  cbn [Py.Re.run app]. rewrite Hx. apply many_greedy; assumption.
Qed.

(** [\s*[:\s]+] before the rest of a pattern: when the separator is all
    whitespace, [\s*] takes it and gives its last character back. *)
Lemma run_space_separator q opened group sep rest r :
  sep <> [] -> forallb Py.Re.colon_or_space sep = true ->
  rest <> [] -> stops Py.Re.colon_or_space rest = true ->
  Py.Re.run q opened group rest = Some r ->
  Py.Re.run (Py.Re.Many Py.Re.whitespace :: Py.Re.Many1 Py.Re.colon_or_space :: q)
    opened group (sep ++ rest) = Some r.
Proof.
  intros Hne Hsep Hrest Hstop Hr.
  destruct (lstrip_split sep) as (w & Hw & Hspace & Hhead).
  cbn [Py.Re.run]. rewrite Hw in Hne, Hsep |- *.
  rewrite forallb_app in Hsep. apply andb_true_iff in Hsep as [_ Hsep].
  destruct Hhead as [Hnil|(c & t & Hct & Hc)].
  - rewrite Hnil, app_nil_r in *.
    destruct (exists_last Hne) as (w' & c & ->).
    rewrite forallb_app in Hspace. apply andb_true_iff in Hspace as [Hw' Hc].
    cbn [forallb] in Hc. rewrite andb_true_r in Hc.
    rewrite <- app_assoc. cbn [app].
    apply many_gives_back; try assumption.
    + apply stops_space, Hstop.
    + destruct rest as [|y rest]; [congruence|]. cbn [stops] in Hstop.
      apply negb_true_iff in Hstop. cbn [Py.Re.run]. rewrite Hstop. reflexivity.
    + apply (run_separator q opened group [c] rest r); try assumption;
        [discriminate|].
      cbn [forallb]. rewrite (space_is_separator c Hc). reflexivity.
  - rewrite Hct in *. rewrite <- app_assoc.
    apply many_greedy; [exact Hspace| |].
    + cbn [app stops]. unfold Py.Re.whitespace. rewrite Hc. reflexivity.
    + apply run_separator; try assumption. discriminate.
Qed.

End Groups.

(** ** The fields of a registration *)

Section Fields.

Variable pg : Scraper.page.
Variable full_text : Py.str.

Lemma extract_fields_lookup :
  let d := Scraper.extract_fields pg full_text in
  d !! "status"%string = Some s{"success"}
  /\ d !! "electoral_center"%string
       = Some (Scraper.extract_electoral_center pg full_text)
  /\ d !! "district"%string = Some (Scraper.extract_district pg full_text)
  /\ d !! "address"%string = Some (Scraper.extract_address pg full_text)
  /\ d !! "subcommittee_number"%string
       = Some (Scraper.extract_number pg Scraper.LABEL_SUBCOMMITTEE
                 [Scraper.XSubcommitteeText; Scraper.XSubcommitteeAny;
                  Scraper.XSubcommitteeNode] full_text)
  /\ d !! "electoral_list_number"%string
       = Some (Scraper.extract_number pg Scraper.LABEL_LIST_NUMBER
                 [Scraper.XListNumberText; Scraper.XListNumberAny;
                  Scraper.XListNumberNode] full_text).
Proof.
  cbv zeta. unfold Scraper.extract_fields. cbv zeta.
  repeat split;
    repeat (rewrite lookup_insert_ne by discriminate);
    first [apply lookup_insert_eq|apply lookup_singleton_eq].
Qed.

Lemma trimmed_nil : trimmed_line [].
Proof. split; reflexivity. Qed.

Lemma strip_keeps (P : Z -> bool) s :
  forallb P s = true -> forallb P (Py.strip s) = true.
Proof.
  rewrite !forallb_forall. intros H x Hx. apply H, strip_In, Hx.
Qed.

Lemma strip_trimmed s :
  forallb Py.Re.not_newline s = true -> trimmed_line (Py.strip s).
Proof.
  intros H. split; [apply strip_keeps, H|apply strip_involutive].
Qed.

Lemma first_line_single s : forallb Py.Re.not_newline (Py.first_line s) = true.
Proof.
  induction s as [|c s IH]; [reflexivity|]. cbn [Py.first_line].
  destruct (c =? 10) eqn:E; [reflexivity|].
  cbn [forallb]. unfold Py.Re.not_newline at 1. rewrite E, IH. reflexivity.
Qed.

Lemma search_to_end_of_line p text r :
  groupless p = true ->
  Py.Re.search (p ++ Scraper.group_to_end_of_line) text = Some r ->
  forallb Py.Re.not_newline r = true.
Proof.
  intros Hp H. apply search_inv in H as (a & s' & _ & H).
  apply (run_groupless p) in H as (a' & s'' & _ & H); [|exact Hp].
  apply group_inv in H as (_ & H & _). exact H.
Qed.

Lemma search_stripped_trimmed p text :
  groupless p = true ->
  trimmed_line
    (default [] (Scraper.search_stripped (p ++ Scraper.group_to_end_of_line) text)).
Proof.
  intros Hp. unfold Scraper.search_stripped.
  destruct (Py.Re.search _ text) as [r|] eqn:E; [|apply trimmed_nil].
  apply strip_trimmed, (search_to_end_of_line p text r Hp E).
Qed.

Lemma label_pattern_shape label :
  exists p, groupless p = true
            /\ Scraper.label_pattern label = p ++ Scraper.group_to_end_of_line.
Proof.
  exists (Py.Re.literal label ++ [Py.Re.Many1 Py.Re.colon_or_space]). split.
  - unfold groupless. rewrite forallb_app. fold (groupless (Py.Re.literal label)).
    rewrite groupless_literal. reflexivity.
  - unfold Scraper.label_pattern. rewrite <- app_assoc. reflexivity.
Qed.

Lemma address_pattern_shape :
  exists p, groupless p = true
            /\ Scraper.address_pattern = p ++ Scraper.group_to_end_of_line.
Proof.
  exists (Py.Re.literal Scraper.LABEL_ADDRESS
            ++ [Py.Re.Many Py.Re.whitespace; Py.Re.Many1 Py.Re.colon_or_space]).
  split; reflexivity.
Qed.

Lemma number_pattern_shape label :
  exists p, groupless p = true
            /\ Scraper.number_pattern label = p ++ Scraper.group_to_end_of_line.
Proof.
  exists (Py.Re.literal label
            ++ [Py.Re.Many Py.Re.whitespace; Py.Re.Many1 Py.Re.colon_or_space;
                Py.Re.Many Py.Re.whitespace]). split.
  - unfold groupless. rewrite forallb_app. fold (groupless (Py.Re.literal label)).
    rewrite groupless_literal. reflexivity.
  - unfold Scraper.number_pattern. rewrite <- app_assoc. reflexivity.
Qed.

Lemma structural_value rest :
  trimmed_line (Py.strip (Py.first_line (Py.strip rest))).
Proof. apply strip_trimmed, first_line_single. Qed.

Lemma center_trimmed : trimmed_line (Scraper.extract_electoral_center pg full_text).
Proof.
  unfold Scraper.extract_electoral_center.
  destruct (Scraper.parent_text_of pg Scraper.XCenter) as [parent|].
  - destruct (Py.split1 [58] parent) as [[before rest]|];
      [apply structural_value|apply trimmed_nil].
  - destruct (label_pattern_shape Scraper.LABEL_CENTER) as (p & Hp & ->).
    apply search_stripped_trimmed, Hp.
Qed.

Lemma district_trimmed : trimmed_line (Scraper.extract_district pg full_text).
Proof.
  unfold Scraper.extract_district.
  destruct (Scraper.parent_text_of pg Scraper.XDistrict) as [parent|].
  - destruct (Py.split1 _ parent) as [[before rest]|];
      [apply structural_value|apply trimmed_nil].
  - destruct (label_pattern_shape Scraper.LABEL_DISTRICT) as (p & Hp & ->).
    apply search_stripped_trimmed, Hp.
Qed.

Lemma address_trimmed : trimmed_line (Scraper.extract_address pg full_text).
Proof.
  unfold Scraper.extract_address.
  destruct address_pattern_shape as (p & Hp & ->).
  destruct (Scraper.parent_text_of pg Scraper.XAddress) as [parent|].
  - destruct (Py.contains Scraper.LABEL_ADDRESS parent);
      [apply search_stripped_trimmed, Hp|apply trimmed_nil].
  - apply search_stripped_trimmed, Hp.
Qed.

Lemma number_after_digits label text n :
  Scraper.number_after label text = Some n ->
  n <> [] /\ converted_digits n = true.
Proof.
  unfold Scraper.number_after.
  destruct (Scraper.search_stripped _ text) as [num_str|]; [|discriminate].
  intros H. apply search_inv in H as (a & s' & Hs & H).
  apply group_inv in H as (Hne & Hd & rest & ->).
  split; [exact Hne|]. unfold converted_digits.
  rewrite forallb_forall in Hd |- *. intros x Hx.
  pose proof (Hd x Hx) as Hdx. unfold Py.Re.digit in Hdx. rewrite Hdx. cbn [andb].
  assert (Hin : In x (Scraper.convert_arabic_numerals num_str)).
  { rewrite Hs. apply in_or_app. right. apply in_or_app. left. exact Hx. }
  rewrite convert_is_map in Hin. apply in_map_iff in Hin as (y & <- & _).
  rewrite normalize_char_not_glyph. reflexivity.
Qed.

Lemma first_number_digits label patterns n :
  Scraper.first_number pg label patterns = Some n ->
  n <> [] /\ converted_digits n = true.
Proof.
  induction patterns as [|q patterns IH]; cbn [Scraper.first_number]; [discriminate|].
  destruct (Scraper.find_element pg q) as [elem|]; [|exact IH].
  destruct (match Scraper.parent_text elem with
            | Some t => Some t
            | None => Scraper.own_text elem
            end) as [text|]; [|exact IH].
  destruct (Scraper.number_after label text) as [num|] eqn:E; [|exact IH].
  intros H. injection H as <-. exact (number_after_digits _ _ _ E).
Qed.

Lemma extract_number_digits label patterns :
  converted_digits (Scraper.extract_number pg label patterns full_text) = true.
Proof.
  unfold Scraper.extract_number.
  destruct (Scraper.first_number pg label patterns) as [n|] eqn:E.
  - exact (proj2 (first_number_digits _ _ _ E)).
  - destruct (Scraper.number_after label full_text) as [n|] eqn:E';
      [|reflexivity].
    exact (proj2 (number_after_digits _ _ _ E')).
Qed.

(** *** Reading back *)

Lemma stops_value cls (value post : Py.str) :
  value <> [] -> stops cls value = true -> stops cls (value ++ post) = true.
Proof. destruct value; [congruence|]. intros _ H. exact H. Qed.

Lemma value_not_nil (value post : Py.str) : value <> [] -> value ++ post <> [].
Proof. destruct value; [congruence|discriminate]. Qed.

Lemma label_pattern_reads text label value :
  shows text label value ->
  Py.Re.search (Scraper.label_pattern label) text = Some value.
Proof.
  intros (pre & sep & post & Hsplit & Hsep & Hcos & Hv & Hline & Hhead & Hend).
  unfold Scraper.label_pattern.
  apply (search_first label _ text pre _ value Hsplit).
  apply run_separator; try assumption.
  - apply stops_value; assumption.
  - apply group_greedy; assumption.
Qed.

Lemma address_pattern_reads text value :
  shows text Scraper.LABEL_ADDRESS value ->
  Py.Re.search Scraper.address_pattern text = Some value.
Proof.
  intros (pre & sep & post & Hsplit & Hsep & Hcos & Hv & Hline & Hhead & Hend).
  unfold Scraper.address_pattern.
  apply (search_first Scraper.LABEL_ADDRESS _ text pre _ value Hsplit).
  apply run_space_separator; try assumption.
  - apply value_not_nil, Hv.
  - apply stops_value; assumption.
  - apply group_greedy; assumption.
Qed.

Lemma number_pattern_reads text label value :
  shows text label value ->
  Py.Re.search (Scraper.number_pattern label) text = Some value.
Proof.
  intros (pre & sep & post & Hsplit & Hsep & Hcos & Hv & Hline & Hhead & Hend).
  unfold Scraper.number_pattern.
  apply (search_first label _ text pre _ value Hsplit).
  apply run_space_separator; try assumption.
  - apply value_not_nil, Hv.
  - apply stops_value; assumption.
  - cbn [app Py.Re.run]. rewrite many_stops.
    + apply group_greedy; assumption.
    + apply stops_space, stops_value; assumption.
Qed.

Lemma written_digit c :
  Py.is_ascii_digit c || is_arabic_digit c = true ->
  Py.isdecimal_char c = true /\ Py.is_ascii_digit (normalize_char c) = true.
Proof.
  unfold Py.is_ascii_digit, is_arabic_digit, normalize_char, is_arabic_digit,
    Py.isdecimal_char, Py.in_ranges.
  intros H. cbn [existsb Py.decimal_ranges fst snd].
  destruct ((1632 <=? c) && (c <=? 1641)) eqn:E.
  - split; [rewrite orb_true_r; reflexivity|]. lia.
  - rewrite orb_false_r in H. rewrite H. split; reflexivity.
Qed.

Lemma number_reads text label value :
  shows text label value -> written_number value = true ->
  Scraper.number_after label text = Some (map normalize_char value).
Proof.
  intros Hshows Hw. unfold Scraper.number_after, Scraper.search_stripped.
  rewrite (number_pattern_reads _ _ _ Hshows). cbn [option_map].
  unfold written_number in Hw. rewrite forallb_forall in Hw.
  rewrite strip_digits.
  - rewrite convert_is_map. apply search_here.
    rewrite <- (app_nil_r (map normalize_char value)) at 1.
    apply group_greedy; [| |reflexivity].
    + destruct Hshows as (_ & _ & _ & _ & _ & _ & Hv & _).
      destruct value; [congruence|discriminate].
    + apply forallb_forall. intros x Hx. apply in_map_iff in Hx as (y & <- & Hy).
      destruct (written_digit y (Hw y Hy)) as [_ Hd].
      unfold Py.Re.digit, Py.isdecimal_char, Py.in_ranges.
      cbn [existsb Py.decimal_ranges fst snd].
      unfold Py.is_ascii_digit in Hd. rewrite Hd. reflexivity.
  - apply forallb_forall. intros x Hx.
    destruct (written_digit x (Hw x Hx)) as [Hd _].
    unfold Py.isdigit_char. rewrite Hd. reflexivity.
Qed.

End Fields.

(** X12. The fields of a registration, whatever the page and whichever
    strategy finds them: the dict has the status [success] and the five
    fields; center, district and address are on one line and carry no
    whitespace around them; the two numbers are empty or made of decimal
    digits, none of them an Arabic-Indic glyph. *)
Theorem registration_fields_are_clean (pg : Scraper.page) (full_text : Py.str) :
  let d := Scraper.extract_fields pg full_text in
  d !! "status"%string = Some s{"success"}
  /\ exists center district address subcommittee list_number,
       d !! "electoral_center"%string = Some center
       /\ d !! "district"%string = Some district
       /\ d !! "address"%string = Some address
       /\ d !! "subcommittee_number"%string = Some subcommittee
       /\ d !! "electoral_list_number"%string = Some list_number
       /\ trimmed_line center /\ trimmed_line district /\ trimmed_line address
       /\ converted_digits subcommittee = true
       /\ converted_digits list_number = true.
Proof.
  cbv zeta.
  destruct (extract_fields_lookup pg full_text) as (Hs & Hc & Hd & Ha & Hn & Hl).
  split; [exact Hs|]. do 5 eexists.
  split; [exact Hc|]. split; [exact Hd|]. split; [exact Ha|].
  split; [exact Hn|]. split; [exact Hl|].
  split; [apply center_trimmed|]. split; [apply district_trimmed|].
  split; [apply address_trimmed|].
  split; apply extract_number_digits.
Qed.

(** X13. The textual strategy reads back what the page shows. When the
    driver finds no element, so that every field is searched in the text
    of the page: a field whose label is followed, at its first occurrence,
    by colons or whitespace and then by a value that goes to the end of
    the line, is that value without the whitespace around it; for the two
    numbers, written in ASCII or Arabic-Indic digits, it is the number in
    ASCII digits. *)
Theorem textual_strategy_reads_back (pg : Scraper.page) (full_text : Py.str) :
  (forall q, Scraper.find_element pg q = None) ->
  let d := Scraper.extract_fields pg full_text in
  (forall v, shows full_text Scraper.LABEL_CENTER v ->
     d !! "electoral_center"%string = Some (Py.strip v))
  /\ (forall v, shows full_text Scraper.LABEL_DISTRICT v ->
        d !! "district"%string = Some (Py.strip v))
  /\ (forall v, shows full_text Scraper.LABEL_ADDRESS v ->
        d !! "address"%string = Some (Py.strip v))
  /\ (forall v, shows full_text Scraper.LABEL_SUBCOMMITTEE v ->
        written_number v = true ->
        d !! "subcommittee_number"%string = Some (map normalize_char v))
  /\ (forall v, shows full_text Scraper.LABEL_LIST_NUMBER v ->
        written_number v = true ->
        d !! "electoral_list_number"%string = Some (map normalize_char v)).
Proof.
  intros Hnone. cbv zeta.
  destruct (extract_fields_lookup pg full_text) as (_ & Hc & Hd & Ha & Hn & Hl).
  rewrite Hc, Hd, Ha, Hn, Hl.
  unfold Scraper.extract_electoral_center, Scraper.extract_district,
    Scraper.extract_address, Scraper.extract_number, Scraper.parent_text_of.
  cbn [Scraper.first_number]. rewrite !Hnone.
  unfold Scraper.search_stripped.
  split; [|split; [|split; [|split]]]; intros v Hv.
  - rewrite (label_pattern_reads _ _ _ Hv). reflexivity.
  - rewrite (label_pattern_reads _ _ _ Hv). reflexivity.
  - rewrite (address_pattern_reads _ _ Hv). reflexivity.
  - intros Hw. rewrite (number_reads _ _ _ Hv Hw). reflexivity.
  - intros Hw. rewrite (number_reads _ _ _ Hv Hw). reflexivity.
Qed.

Lemma textual_strategy_reads_back_witness :
  let text := default [] (Scraper.body_text sample_page) in
  Scraper.extract_fields sample_page text !! "electoral_center"%string
    = Some s{"School 7"}
  /\ Scraper.extract_fields sample_page text !! "subcommittee_number"%string
     = Some s{"20"}.
Proof.
  cbv zeta.
  destruct (textual_strategy_reads_back sample_page
              (default [] (Scraper.body_text sample_page)) (fun _ => eq_refl))
    as (Hcenter & _ & _ & Hnumber & _).
  split.
  - apply (Hcenter s{"School 7"}).
    exists [], s{": "},
      (skipn 25 (default [] (Scraper.body_text sample_page))).
    vm_compute. repeat split; discriminate.
  - apply (Hnumber [1634; 1632]); [|reflexivity].
    exists (firstn 59 (default [] (Scraper.body_text sample_page))), s{": "},
      (skipn 81 (default [] (Scraper.body_text sample_page))).
    vm_compute. repeat split; discriminate.
Defined.

(** ** Replies to the dicts of the scraper *)

Section Replies.

Variable self : Scraper.scraper.
Variable national_id : Py.str.

(** An attempt returns nothing but the dict of the page it has read. *)
Lemma attempt_returns attempt r :
  snd (Scraper.attempt_body self national_id attempt) = Scraper.Return r ->
  r = Scraper.extract_result_data (Scraper.result_page (Scraper.driver self attempt)).
Proof.
  unfold Scraper.attempt_body, Scraper.attempt_try, Scraper.interaction.
  pose proof (read_is_final (Scraper.result_page (Scraper.driver self attempt))) as Hr.
  assert (Hb : (exists tr, Scraper.backoff self attempt = (tr, inr tt))
               \/ exists tr x, Scraper.backoff self attempt = (tr, inl (Scraper.Raises x))).
  { destruct (backoff_cases self attempt) as [->|[x ->]].
    - left. eexists. reflexivity.
    - right. do 2 eexists. reflexivity. }
  destruct Hb as [(tr & Hb)|(tr & x & Hb)]; rewrite Hb;
    [|cbn; destruct (_ =? _); discriminate].
  destruct (Scraper.navigate (Scraper.driver self attempt)); [discriminate|].
  destruct (Scraper.frame (Scraper.driver self attempt));
    [|discriminate|cbn; destruct (_ =? _); discriminate].
  destruct (Scraper.input (Scraper.driver self attempt));
    [|discriminate|cbn; destruct (_ =? _); discriminate].
  destruct (Scraper.submit (Scraper.driver self attempt));
    [|discriminate|cbn; destruct (_ =? _); discriminate].
  cbn. rewrite Hr. cbn. intros H. injection H as <-. reflexivity.
Qed.

Lemma attempts_provenance todo : forall last_error,
  (exists pg, snd (Scraper.attempts self national_id todo last_error)
              = Scraper.extract_result_data pg)
  \/ exists last_error',
       snd (Scraper.attempts self national_id todo last_error)
         = Scraper.exhausted self national_id last_error'.
Proof.
  induction todo as [|attempt todo IH]; intros last_error.
  - right. eexists. reflexivity.
  - cbn [Scraper.attempts]. pose proof (attempt_returns attempt) as Hret.
    destruct (Scraper.attempt_body self national_id attempt) as [tr [r|msg|msg]];
      cbn [snd] in *.
    + left. eexists. exact (Hret r eq_refl).
    + specialize (IH (Some msg)).
      destruct (Scraper.attempts self national_id todo (Some msg)) as [tr' r'].
      exact IH.
    + right. eexists. reflexivity.
Qed.

End Replies.

Section Contract.

Variable national_id : Py.str.

Lemma failure_answered msg : answered national_id (Scraper.failure msg).
Proof.
  eexists. split; [reflexivity|]. repeat split. exists msg. split; reflexivity.
Qed.

Lemma exhausted_answered self nid last_error :
  answered national_id (Scraper.exhausted self nid last_error).
Proof.
  eexists. split; [reflexivity|]. repeat split. eexists. split; reflexivity.
Qed.

Lemma underage_answered :
  answered national_id (Scraper.found (Scraper.terminal "underage" Scraper.UNDERAGE_MESSAGE)).
Proof.
  eexists. split; [vm_compute; reflexivity|]. repeat split.
  eexists. split; [reflexivity|]. right. right. left. reflexivity.
Qed.

Lemma not_registered_answered :
  answered national_id (Scraper.found
              (Scraper.terminal "not_registered" Scraper.NOT_REGISTERED_MESSAGE)).
Proof.
  eexists. split; [vm_compute; reflexivity|]. repeat split.
  eexists. split; [reflexivity|]. right. right. right. left. reflexivity.
Qed.

Lemma fields_answered pg full_text :
  answered national_id (Scraper.found (Scraper.extract_fields pg full_text)).
Proof.
  destruct (extract_fields_lookup pg full_text) as (Hs & _).
  unfold answered, Api.respond.
  cbn [Scraper.found Scraper.success Scraper.data Scraper.retries_exhausted].
  rewrite Hs. cbn [default].
  replace (Py.eqb s{"success"} s{"success"}) with true by reflexivity.
  unfold Api.registered. cbv zeta.
  destruct (negb _ && negb _).
  - eexists. split; [reflexivity|]. repeat split.
    eexists. split; [reflexivity|]. right. left. reflexivity.
  - eexists. split; [reflexivity|]. repeat split.
    eexists. split; [reflexivity|]. left. reflexivity.
Qed.

Lemma extraction_answered pg : answered national_id (Scraper.extract_result_data pg).
Proof.
  unfold Scraper.extract_result_data.
  destruct (Scraper.body_text pg) as [page_text|]; [|apply failure_answered].
  destruct (Py.eqb page_text [] || _); [apply failure_answered|].
  destruct (Py.contains Scraper.UNDERAGE_MESSAGE page_text);
    [apply underage_answered|].
  destruct (Py.contains Scraper.NOT_REGISTERED_MESSAGE page_text);
    [apply not_registered_answered|apply fields_answered].
Qed.

End Contract.

(** X14. Every dict that [scrape_electoral_data] can return gets a reply
    from lines 467-579 of the lookup: the status code is 200; [success]
    and [retries_exhausted] are those of the dict, the latter left out
    when the dict has none; a successful dict has one of the four statuses
    [registered], [out_of_district], [underage] and [not_registered], a
    failed one carries its error message. The branch for an unknown
    status and the [KeyError] of a dict without [data] are never reached,
    whatever the browser does and whatever the settings are. *)
Theorem scraper_results_are_answered
    (self : Scraper.scraper) (scraped answered_ : Py.str) :
  let r := snd (Scraper.scrape_electoral_data self scraped) in
  exists content,
    Api.respond answered_ r = Api.JSONResponse 200 content
    /\ Api.field "success" content = Some (Api.JBool (Scraper.success r))
    /\ Api.field "national_id" content = Some (Api.JStr answered_)
    /\ Api.field "retries_exhausted" content
         = option_map Api.JBool (Scraper.retries_exhausted r)
    /\ (if Scraper.success r then
          exists status,
            Api.field "status" content = Some (Api.JStr status)
            /\ In status [s{"registered"}; s{"out_of_district"}; s{"underage"};
                          s{"not_registered"}]
        else
          exists message,
            Scraper.error r = Some message
            /\ Api.field "error" content = Some (Api.JStr message)).
Proof.
  cbv zeta. unfold Scraper.scrape_electoral_data.
  destruct (attempts_provenance self scraped
              (seq 0 (Z.to_nat (Scraper.max_retries self))) None)
    as [(pg & ->)|(last_error & ->)].
  - apply (extraction_answered answered_ pg).
  - apply (exhausted_answered answered_).
Qed.

(** ** The handler of validation errors *)

Section Replace.

Lemma startswith_self (p s : Py.str) : Py.startswith (p ++ s) p = true.
Proof.
  induction p as [|a p IH]; [apply startswith_nil|].
  cbn [app Py.startswith]. rewrite Z.eqb_refl, IH. reflexivity.
Qed.

Lemma replace_from_skip old new (p s : Py.str) :
  Py.replace_from old new (length p) (p ++ s) = Py.replace_from old new 0 s.
Proof. induction p as [|a p IH]; [reflexivity|exact IH]. Qed.

(** A text without the first character of the needle is left as it is. *)
Lemma replace_absent a old new s :
  ~ In a s -> Py.replace_from (a :: old) new 0 s = s.
Proof.
  induction s as [|c s IH]; intros Hn; [reflexivity|].
  cbn [Py.replace_from Py.startswith].
  replace (a =? c) with false
    by (symmetry; apply Z.eqb_neq; intros ->; apply Hn; left; reflexivity).
  cbn [andb]. rewrite IH; [reflexivity|]. intros H. apply Hn. right. exact H.
Qed.

Lemma replace_prefix a old s :
  ~ In a s -> Py.replace (a :: old) [] ((a :: old) ++ s) = s.
Proof.
  intros Hn. unfold Py.replace.
  change ((a :: old) ++ s) with (a :: old ++ s).
  cbn [Py.replace_from].
  change (a :: old ++ s) with ((a :: old) ++ s). rewrite startswith_self.
  replace (length (a :: old) - 1)%nat with (length old) by (cbn [length]; lia).
  cbn [app]. rewrite replace_from_skip.
  apply replace_absent, Hn.
Qed.

Lemma uint_chars (u : Decimal.uint) c :
  In c (Py.lit (NilEmpty.string_of_uint u)) -> 48 <= c <= 57.
Proof.
  induction u as [|u IH|u IH|u IH|u IH|u IH|u IH|u IH|u IH|u IH|u IH];
    cbn; [intros []| | | | | | | | | |];
    (intros [<-|H]; [lia|exact (IH H)]).
Qed.

Lemma nilzero_chars (u : Decimal.uint) c :
  In c (Py.lit (NilZero.string_of_uint u)) -> 48 <= c <= 57.
Proof.
  destruct u; [cbn; intros [<-|[]]; lia|apply uint_chars ..].
Qed.

Lemma str_of_int_chars n c : In c (Py.str_of_int n) -> c = 45 \/ 48 <= c <= 57.
Proof.
  unfold Py.str_of_int, NilZero.string_of_int.
  destruct (Z.to_int n) as [u|u].
  - intros H. right. exact (nilzero_chars u c H).
  - cbn [Py.lit list_ascii_of_string map]. intros [<-|H]; [left; reflexivity|].
    right. exact (nilzero_chars u c H).
Qed.

(** The messages of the validator have no capital V. *)
Lemma validator_message v e :
  Api.validate_national_id v = Py.Raise e -> ~ In 86 (Py.exn_str e).
Proof.
  unfold Api.validate_national_id. cbv zeta.
  destruct (negb (length (Py.strip v) =? 14)%nat).
  - intros H. injection H as <-. intros Hin.
    change (In 86 (s{"National ID must be exactly 14 digits, got "}
                     ++ Py.str_of_int (Z.of_nat (length (Py.strip v)))
                     ++ s{" characters"})) in Hin.
    apply in_app_or in Hin as [Hin|Hin].
    + revert Hin. vm_compute. intuition discriminate.
    + apply in_app_or in Hin as [Hin|Hin].
      * apply str_of_int_chars in Hin. lia.
      * revert Hin. vm_compute. intuition discriminate.
  - destruct (negb (Py.isdigit (Py.strip v))); [|discriminate].
    intros H. injection H as <-. vm_compute. intuition discriminate.
Qed.

End Replace.

(** X15. A refusal of the validator reaches the client in its own words.
    The request model reports a [ValueError] of [validate_national_id]
    under the message [Value error, ] followed by the text of the error;
    for such an error at the head of the list, the handler answers 400
    with exactly the text of the validator, the last element of the
    location as the field, and the input as it came, whatever errors
    follow in the list. *)
Theorem validator_message_reaches_the_client
    (v : Py.str) (e : Py.exn) (where_ : list Handlers.loc_item)
    (given : option Api.json) (others : list Handlers.validation_error) :
  Api.validate_national_id v = Py.Raise e ->
  Handlers.validation_exception_handler
    (Handlers.ValidationError where_ (Handlers.VALUE_ERROR ++ Py.exn_str e) given
       :: others)
  = (400, Handlers.FirstError (Py.exn_str e)
            (default (Handlers.Name s{"unknown"}) (last where_)) given).
Proof.
  intros Hv. unfold Handlers.validation_exception_handler.
  cbn [Handlers.msg Handlers.input]. cbv zeta.
  rewrite startswith_self.
  unfold Handlers.VALUE_ERROR.
  change s{"Value error, "} with (86 :: s{"alue error, "}).
  rewrite replace_prefix by exact (validator_message v e Hv).
  reflexivity.
Qed.

Lemma validator_message_reaches_the_client_witness :
  Handlers.validation_exception_handler
    [Handlers.ValidationError [Handlers.Name s{"body"}; Handlers.Name s{"national_id"}]
       s{"Value error, National ID must be exactly 14 digits, got 13 characters"}
       (Some (Api.JStr s{"2971026000314"}))]
  = (400, Handlers.FirstError
            s{"National ID must be exactly 14 digits, got 13 characters"}
            (Handlers.Name s{"national_id"}) (Some (Api.JStr s{"2971026000314"}))).
Proof.
  apply (validator_message_reaches_the_client s{"2971026000314"}
           (Py.Exn Py.ValueError
              s{"National ID must be exactly 14 digits, got 13 characters"})
           [Handlers.Name s{"body"}; Handlers.Name s{"national_id"}]
           (Some (Api.JStr s{"2971026000314"})) []).
  vm_compute. reflexivity.
Defined.

(** The list of details of the handler is never filled: the body
    with [details] is sent for an empty list of errors only, and then the
    list of details is empty; for one error or more the body reports the
    first error alone. *)
Theorem validation_details_are_never_listed
    (errors : list Handlers.validation_error) :
  match snd (Handlers.validation_exception_handler errors) with
  | Handlers.Details details => errors = [] /\ details = []
  | Handlers.FirstError _ field given =>
      exists first others,
        errors = first :: others
        /\ field = Handlers.field_of first /\ given = Handlers.input first
        /\ Handlers.validation_exception_handler errors
           = Handlers.validation_exception_handler [first]
  end.
Proof.
  destruct errors as [|first others].
  - split; reflexivity.
  - cbn [Handlers.validation_exception_handler snd]. cbv zeta.
    exists first, others. repeat split; reflexivity.
Qed.

(** ** The batch *)

Section BatchRows.

Variable browser : Z -> nat -> Scraper.attempt_stub.

(** A successful dict of the scraper has its ['data']. *)
Lemma scraped_data self national_id :
  Scraper.success (snd (Scraper.scrape_electoral_data self national_id)) = true ->
  exists data,
    Scraper.data (snd (Scraper.scrape_electoral_data self national_id)) = Some data.
Proof.
  unfold Scraper.scrape_electoral_data.
  destruct (attempts_provenance self national_id
              (seq 0 (Z.to_nat (Scraper.max_retries self))) None)
    as [(pg & ->)|(last_error & ->)]; [|discriminate].
  unfold Scraper.extract_result_data.
  destruct (Scraper.body_text pg) as [page_text|]; [|discriminate].
  destruct (Py.eqb page_text [] || _); [discriminate|].
  destruct (Py.contains Scraper.UNDERAGE_MESSAGE page_text);
    [eexists; reflexivity|].
  destruct (Py.contains Scraper.NOT_REGISTERED_MESSAGE page_text);
    eexists; reflexivity.
Qed.

Lemma listed_district district :
  existsb (Py.eqb district) Batch.ALLOWED_DISTRICTS = true ->
  In district Batch.ALLOWED_DISTRICTS.
Proof.
  intros H. apply existsb_exists in H as (x & Hx & Heq).
  apply bool_decide_eq_true in Heq. subst x. exact Hx.
Qed.

(** One row: it never raises, it counts the row once, it asks the
    scraper once and pauses once when the cell holds an identifier, it
    writes the status when it counts the row as processed, and it writes
    no district outside the list. *)
Lemma process_row_spec row_idx cell c :
  exists tr c',
    Batch.process_row browser row_idx cell c = (tr, Py.Ok c')
    /\ total c' = total c + 1
    /\ Batch.processed c <= Batch.processed c'
    /\ Batch.skipped c <= Batch.skipped c'
    /\ Batch.errors c <= Batch.errors c'
    /\ List.filter is_scrape tr = lookup_of row_idx cell
    /\ length (List.filter is_pause tr) = (if holds_id cell then 1 else 0)%nat
    /\ Z.of_nat (length (List.filter is_status tr))
         = Batch.processed c' - Batch.processed c
    /\ forall row col value,
         In (Batch.WriteCell row col value) tr ->
         row = row_idx
         /\ (col = Batch.District -> In value Batch.ALLOWED_DISTRICTS).
Proof.
  assert (Hdone : forall tr c',
    total c' = total c + 1 ->
    Batch.processed c <= Batch.processed c' ->
    Batch.skipped c <= Batch.skipped c' ->
    Batch.errors c <= Batch.errors c' ->
    List.filter is_scrape tr = lookup_of row_idx cell ->
    length (List.filter is_pause tr) = (if holds_id cell then 1 else 0)%nat ->
    Z.of_nat (length (List.filter is_status tr))
      = Batch.processed c' - Batch.processed c ->
    (forall row col value,
       In (Batch.WriteCell row col value) tr ->
       row = row_idx
       /\ (col = Batch.District -> In value Batch.ALLOWED_DISTRICTS)) ->
    exists tr0 c0,
      (tr, Py.Ok c') = (tr0, Py.Ok c0)
      /\ total c0 = total c + 1
      /\ Batch.processed c <= Batch.processed c0
      /\ Batch.skipped c <= Batch.skipped c0
      /\ Batch.errors c <= Batch.errors c0
      /\ List.filter is_scrape tr0 = lookup_of row_idx cell
      /\ length (List.filter is_pause tr0) = (if holds_id cell then 1 else 0)%nat
      /\ Z.of_nat (length (List.filter is_status tr0))
           = Batch.processed c0 - Batch.processed c
      /\ forall row col value,
           In (Batch.WriteCell row col value) tr0 ->
           row = row_idx
           /\ (col = Batch.District -> In value Batch.ALLOWED_DISTRICTS)).
  { intros tr c' ? ? ? ? ? ? ? ?. exists tr, c'. split; [reflexivity|].
    do 7 (split; [assumption|]). assumption. }
  unfold Batch.process_row. unfold holds_id, lookup_of in *. unfold total in *.
  destruct cell as [text|];
    [|apply Hdone; cbn; try lia; try reflexivity; intros row col value []].
  destruct (Py.eqb (Py.strip text) []);
    [apply Hdone; cbn; try lia; try reflexivity; intros row col value []|].
  cbv zeta. cbn [negb] in *.
  pose proof (scraped_data (Batch.scraper_of browser row_idx) (Py.strip text)) as Hd.
  destruct (Scraper.success _);
    [|apply Hdone; cbn; try lia; try reflexivity; intros row col value [H|[H|[]]]; discriminate].
  destruct (Hd eq_refl) as [data ->].
  destruct (Py.eqb _ s{"underage"});
    [apply Hdone; cbn; try lia; try reflexivity;
     intros row col value [H|[H|[H|[]]]]; try discriminate;
     injection H as <- <- <-; split; [reflexivity|discriminate]|].
  destruct (Py.eqb _ s{"not_registered"});
    [apply Hdone; cbn; try lia; try reflexivity;
     intros row col value [H|[H|[H|[]]]]; try discriminate;
     injection H as <- <- <-; split; [reflexivity|discriminate]|].
  destruct (Py.eqb _ s{"success"});
    [|apply Hdone; cbn; try lia; try reflexivity; intros row col value [H|[H|[]]]; discriminate].
  destruct (existsb _ Batch.ALLOWED_DISTRICTS) eqn:Hallowed;
    [|apply Hdone; cbn; try lia; try reflexivity; intros row col value [H|[H|[]]]; discriminate].
  apply listed_district in Hallowed.
  apply Hdone; cbn; try lia; try reflexivity.
  intros row col value [H|[H|[H|[H|[H|[H|[H|[H|[]]]]]]]]]; try discriminate;
    injection H as <- <- <-; (split; [reflexivity|]); intros Hc;
    try discriminate. exact Hallowed.
Qed.

Lemma lookups_length cells : forall row_idx,
  length (lookups row_idx cells) = length (List.filter holds_id cells).
Proof.
  induction cells as [|cell cells IH]; intros row_idx; [reflexivity|].
  cbn [List.filter lookups]. rewrite length_app, IH.
  destruct cell as [text|]; [|reflexivity]. cbn [holds_id lookup_of].
  destruct (Py.eqb (Py.strip text) []); reflexivity.
Qed.

Lemma rows_spec cells : forall row_idx c,
  exists tr c',
    Batch.rows browser row_idx cells c = (tr, Py.Ok c')
    /\ total c' = total c + Z.of_nat (length cells)
    /\ Batch.processed c <= Batch.processed c'
    /\ Batch.skipped c <= Batch.skipped c'
    /\ Batch.errors c <= Batch.errors c'
    /\ List.filter is_scrape tr = lookups row_idx cells
    /\ length (List.filter is_pause tr) = length (List.filter holds_id cells)
    /\ Z.of_nat (length (List.filter is_status tr))
         = Batch.processed c' - Batch.processed c
    /\ forall row value,
         In (Batch.WriteCell row Batch.District value) tr ->
         In value Batch.ALLOWED_DISTRICTS.
Proof.
  induction cells as [|cell cells IH]; intros row_idx c.
  - exists [], c. split; [reflexivity|]. unfold total. cbn.
    do 4 (split; [lia|]). split; [reflexivity|]. do 2 (split; [lia|]).
    intros row value [].
  - cbn [Batch.rows].
    destruct (process_row_spec row_idx cell c)
      as (tr & c1 & -> & Ht & Hp & Hs & He & Hscr & Hpa & Hst & Hw).
    destruct (IH (row_idx + 1) c1)
      as (tr' & c2 & -> & Ht' & Hp' & Hs' & He' & Hscr' & Hpa' & Hst' & Hw').
    exists (tr ++ tr'), c2. split; [reflexivity|].
    rewrite !List.filter_app, !length_app, Hscr, Hpa, Hscr', Hpa'.
    cbn [List.filter length lookups].
    do 4 (split; [lia|]). split; [reflexivity|].
    split; [destruct (holds_id cell); reflexivity|]. split; [lia|].
    intros row value Hin. apply in_app_or in Hin as [Hin|Hin];
      [exact (proj2 (Hw _ _ _ Hin) eq_refl)|exact (Hw' _ _ Hin)].
Qed.

Lemma visited_length max_rows (ids : list (option Py.str)) :
  length (firstn (Z.to_nat (Batch.end_row max_rows (1 + Z.of_nat (length ids)) - 2)) ids)
    = rows_visited max_rows (length ids).
Proof.
  rewrite length_firstn. unfold Batch.end_row, rows_visited.
  destruct max_rows as [m|]; [destruct (m =? 0)|]; lia.
Qed.

End BatchRows.

(** X16. A run of the batch accounts for every row it visits. Whatever
    the browser does, the loop over the rows ends without an exception,
    and the three counters add up to the number of rows visited: all the
    rows when no limit is given, the first [max_rows] of them when the
    limit is positive, none when it is negative, and all of them again
    when the limit is 0. *)
Theorem batch_accounts_for_every_row
    (browser : Z -> nat -> Scraper.attempt_stub) (max_rows : option Z)
    (ids : list (option Py.str)) :
  exists c,
    snd (Batch.process_rows browser max_rows ids) = Py.Ok c
    /\ 0 <= Batch.processed c /\ 0 <= Batch.skipped c /\ 0 <= Batch.errors c
    /\ Batch.processed c + Batch.skipped c + Batch.errors c
       = Z.of_nat (rows_visited max_rows (length ids)).
Proof.
  unfold Batch.process_rows. cbv zeta.
  pose proof (visited_length max_rows ids) as Hlen.
  destruct (rows_spec browser
              (firstn (Z.to_nat (Batch.end_row max_rows
                                   (1 + Z.of_nat (length ids)) - 2)) ids)
              2 (Batch.Counters 0 0 0))
    as (tr & c & -> & Ht & Hp & Hs & He & _).
  exists c. split; [reflexivity|].
  rewrite Hlen in Ht. unfold total in Ht. cbn in Hp, Hs, He, Ht.
  repeat split; try lia.
Qed.

(** X17. What a run of the batch does to the sheet and to the site. Its
    lookups are those of the visited rows whose cell holds an identifier,
    one for each such row, in the order of the rows and with the
    identifier without the whitespace around it; it pauses once after
    each lookup;
    it writes the status column once for each row it counts as processed;
    every district it writes is one of [ALLOWED_DISTRICTS]; and it ends
    by closing the browser and saving the workbook. *)
Theorem batch_marks_what_it_counts
    (browser : Z -> nat -> Scraper.attempt_stub) (max_rows : option Z)
    (ids : list (option Py.str)) :
  let visited := firstn (rows_visited max_rows (length ids)) ids in
  let tr := fst (Batch.process_rows browser max_rows ids) in
  List.filter is_scrape tr = lookups 2 visited
  /\ length (List.filter is_pause tr) = length (List.filter is_scrape tr)
  /\ (forall c, snd (Batch.process_rows browser max_rows ids) = Py.Ok c ->
        Z.of_nat (length (List.filter is_status tr)) = Batch.processed c)
  /\ (forall row value,
        In (Batch.WriteCell row Batch.District value) tr ->
        In value Batch.ALLOWED_DISTRICTS)
  /\ exists before, tr = before ++ [Batch.CloseBrowser; Batch.SaveWorkbook].
Proof.
  cbv zeta. unfold Batch.process_rows. cbv zeta.
  assert (Hvisited :
    firstn (Z.to_nat (Batch.end_row max_rows (1 + Z.of_nat (length ids)) - 2)) ids
    = firstn (rows_visited max_rows (length ids)) ids).
  { unfold Batch.end_row, rows_visited. destruct max_rows as [m|]; [destruct (m =? 0) eqn:E|].
    - f_equal. lia.
    - destruct (Z.le_gt_cases (2 + m) (1 + Z.of_nat (length ids) + 1)) as [H|H].
      + rewrite Z.min_l by lia. f_equal. lia.
      + rewrite Z.min_r by lia. rewrite Nat.min_r by lia. f_equal. lia.
    - f_equal. lia. }
  rewrite Hvisited.
  destruct (rows_spec browser
              (firstn (rows_visited max_rows (length ids)) ids)
              2 (Batch.Counters 0 0 0))
    as (tr & c & -> & _ & _ & _ & _ & Hscr & Hpa & Hst & Hw).
  cbn [fst snd]. rewrite !List.filter_app, !length_app.
  cbn [List.filter length is_scrape is_pause is_status].
  rewrite Hscr, Hpa, !app_nil_r. split; [reflexivity|].
  split; [rewrite lookups_length; lia|]. split; [|split].
  - intros c' H. injection H as <-. cbn in Hst. lia.
  - intros row value Hin. apply in_app_or in Hin as [Hin|[Hin|[Hin|[]]]];
      [exact (Hw _ _ Hin)|discriminate|discriminate].
  - exists tr. reflexivity.
Qed.

(** X18. The two front ends use the same list of districts and differ on
    a registration without a district only. For a row of the batch whose
    lookup gives a registration: the batch counts the row as processed
    when the district is in the list and as skipped when it is not, an
    empty district included; the API answers the same dict with the
    registered response when the district is in the list or empty. *)
Theorem batch_and_api_differ_on_empty_district
    (browser : Z -> nat -> Scraper.attempt_stub) (row_idx : Z) (text : Py.str)
    (c : Batch.counters) (data : gmap string Py.str) :
  Py.strip text <> [] ->
  snd (Scraper.scrape_electoral_data (Batch.scraper_of browser row_idx)
         (Py.strip text)) = Scraper.found data ->
  data !! "status"%string = Some s{"success"} ->
  let district := default [] (data !! "district"%string) in
  let row := snd (Batch.process_row browser row_idx (Some text) c) in
  let reply := Api.respond (Py.strip text) (Scraper.found data) in
  Batch.ALLOWED_DISTRICTS = Api.ALLOWED_DISTRICTS
  /\ (In district Batch.ALLOWED_DISTRICTS -> row = Py.Ok (Batch.count_processed c))
  /\ (~ In district Batch.ALLOWED_DISTRICTS -> row = Py.Ok (Batch.count_skipped c))
  /\ (district = [] \/ In district Batch.ALLOWED_DISTRICTS <->
      reply =
        Api.JSONResponse 200
          (Api.SuccessResponse (Py.strip text)
             (Api.get data "electoral_center") district (Api.get data "address")
             (Api.get data "subcommittee_number")
             (Api.get data "electoral_list_number"))).
Proof.
  intros Hid Hscrape Hstatus. cbv zeta.
  split; [reflexivity|].
  assert (Hrow :
    snd (Batch.process_row browser row_idx (Some text) c) =
      if existsb (Py.eqb (default [] (data !! "district"%string)))
           Batch.ALLOWED_DISTRICTS
      then Py.Ok (Batch.count_processed c) else Py.Ok (Batch.count_skipped c)).
  { unfold Batch.process_row.
    assert (E : Py.eqb (Py.strip text) [] = false)
      by (apply bool_decide_eq_false; exact Hid).
    rewrite E. cbv zeta. rewrite Hscrape.
    cbn [Scraper.found Scraper.success Scraper.data]. rewrite Hstatus.
    cbn [default].
    replace (Py.eqb s{"success"} s{"underage"}) with false by reflexivity.
    replace (Py.eqb s{"success"} s{"not_registered"}) with false by reflexivity.
    replace (Py.eqb s{"success"} s{"success"}) with true by reflexivity.
    destruct (existsb _ Batch.ALLOWED_DISTRICTS); reflexivity. }
  rewrite Hrow.
  rewrite (respond_registered (Py.strip text) (Scraper.found data) data
             eq_refl eq_refl Hstatus).
  unfold Api.registered, Api.get. cbv zeta.
  change Batch.ALLOWED_DISTRICTS with Api.ALLOWED_DISTRICTS.
  destruct (existsb _ Api.ALLOWED_DISTRICTS) eqn:Hallowed.
  - apply allowed_In in Hallowed. rewrite andb_false_r.
    split; [reflexivity|]. split; [intros H; contradiction|].
    split; [reflexivity|]. intros _. right. exact Hallowed.
  - assert (Hout : ~ In (default [] (data !! "district"%string)) Api.ALLOWED_DISTRICTS).
    { intros H. apply allowed_In in H. congruence. }
    split; [intros H; contradiction|]. split; [reflexivity|].
    destruct (Py.eqb (default [] (data !! "district"%string)) []) eqn:Hempty.
    + apply eqb_nil in Hempty. cbn [negb andb].
      split; [reflexivity|]. intros _. left. exact Hempty.
    + cbn [negb andb]. split.
      * intros [H|H]; [|contradiction].
        rewrite H in Hempty. discriminate Hempty.
      * intros H. discriminate H.
Qed.

Lemma batch_and_api_differ_on_empty_district_witness :
  snd (Batch.process_row (fun _ _ => smooth sample_page) 2
         (Some s{" 29710260300314 "}) (Batch.Counters 0 0 0))
    = Py.Ok (Batch.Counters 1 0 0).
Proof.
  destruct (batch_and_api_differ_on_empty_district
              (fun _ _ => smooth sample_page) 2 s{" 29710260300314 "}
              (Batch.Counters 0 0 0)
              (Scraper.extract_fields sample_page
                 (default [] (Scraper.body_text sample_page))))
    as (_ & H & _).
  - discriminate.
  - vm_compute. reflexivity.
  - vm_compute. reflexivity.
  - apply H. vm_compute. left. reflexivity.
Defined.

(** ** The exception clauses of the lookup *)

(** X19. The second [except TimeoutError] clause of the lookup is never
    entered. Whatever exception reaches the clauses of lines 581-638, one
    of them handles it, with the reply of [on_exception]; that clause is
    never the one of line 614, so the message that asks to try again is
    never sent. *)
Theorem second_timeout_clause_is_dead (national_id : Py.str) (e : Py.exn) :
  exists cl,
    Clauses.handle Clauses.clauses e = Some cl
    /\ cl <> Clauses.ExceptTimeoutErrorAgain
    /\ Clauses.body cl national_id e = Api.on_exception national_id e
    /\ Clauses.body cl national_id e
       <> Clauses.body Clauses.ExceptTimeoutErrorAgain national_id e.
Proof.
  destruct e as [[| | | | |] msg]; eexists; (split; [reflexivity|]);
    (split; [discriminate|]); (split; [reflexivity|]);
    cbn; intros H; discriminate H.
Qed.

(** ** The structural strategy *)

Section Structural.

Lemma split1_contains (l : Py.str) : forall s pre tail,
  Py.split1 l s = Some (pre, tail) -> Py.contains l s = true.
Proof.
  induction s as [|c s IH]; intros pre tail H; cbn [Py.split1] in H;
    cbn [Py.contains].
  - destruct (Py.startswith [] l); [reflexivity|discriminate].
  - destruct (Py.startswith (c :: s) l); [reflexivity|].
    destruct (Py.split1 l s) as [[b a]|]; [|discriminate].
    rewrite (IH _ _ eq_refl). reflexivity.
Qed.

Lemma first_number_reads pg label q patterns elem t v :
  Scraper.find_element pg q = Some elem ->
  element_text elem = Some t ->
  shows t label v -> written_number v = true ->
  Scraper.first_number pg label (q :: patterns) = Some (map normalize_char v).
Proof.
  intros Hq Ht Hv Hw. cbn [Scraper.first_number]. rewrite Hq.
  unfold element_text in Ht. rewrite Ht.
  rewrite (number_reads t label v Hv Hw). reflexivity.
Qed.

End Structural.

(** X20. The structural strategy reads back what the element shows, and
    the text of the page then plays no part. When the driver finds the
    element of the address and the text of its parent shows a value for
    the label, the address is that value without the whitespace around
    it; when it finds the element of the first query of a number and the
    text read from it shows a number for the label, the field is that
    number in ASCII digits. *)
Theorem structural_strategy_reads_back (pg : Scraper.page) (full_text : Py.str) :
  let d := Scraper.extract_fields pg full_text in
  (forall parent v,
     Scraper.parent_text_of pg Scraper.XAddress = Some parent ->
     shows parent Scraper.LABEL_ADDRESS v ->
     d !! "address"%string = Some (Py.strip v))
  /\ (forall elem t v,
        Scraper.find_element pg Scraper.XSubcommitteeText = Some elem ->
        element_text elem = Some t ->
        shows t Scraper.LABEL_SUBCOMMITTEE v -> written_number v = true ->
        d !! "subcommittee_number"%string = Some (map normalize_char v))
  /\ (forall elem t v,
        Scraper.find_element pg Scraper.XListNumberText = Some elem ->
        element_text elem = Some t ->
        shows t Scraper.LABEL_LIST_NUMBER v -> written_number v = true ->
        d !! "electoral_list_number"%string = Some (map normalize_char v)).
Proof.
  cbv zeta.
  destruct (extract_fields_lookup pg full_text) as (_ & _ & _ & Ha & Hn & Hl).
  rewrite Ha, Hn, Hl. split; [|split].
  - intros parent v Hp Hv. unfold Scraper.extract_address. rewrite Hp.
    destruct Hv as (pre & sep & post & Hsplit & Hrest).
    rewrite (split1_contains _ _ _ _ Hsplit).
    unfold Scraper.search_stripped.
    rewrite (address_pattern_reads parent v); [reflexivity|].
    exists pre, sep, post. split; assumption.
  - intros elem t v Hq Ht Hv Hw. unfold Scraper.extract_number.
    rewrite (first_number_reads pg _ _ _ elem t v Hq Ht Hv Hw). reflexivity.
  - intros elem t v Hq Ht Hv Hw. unfold Scraper.extract_number.
    rewrite (first_number_reads pg _ _ _ elem t v Hq Ht Hv Hw). reflexivity.
Qed.

Lemma structural_strategy_reads_back_witness :
  let pg :=
    Scraper.Page (Some s{"a page with other words"})
      (fun q =>
         match q with
         | Scraper.XSubcommitteeText =>
             Some (Scraper.Element None
                     (Some (Scraper.LABEL_SUBCOMMITTEE ++ s{" : "} ++ [1633; 50])))
         | _ => None
         end) in
  Scraper.extract_fields pg s{"a page with other words"}
    !! "subcommittee_number"%string = Some s{"12"}.
Proof.
  cbv zeta.
  match goal with
  | |- Scraper.extract_fields ?pg ?text !! _ = _ =>
      destruct (structural_strategy_reads_back pg text) as (_ & H & _)
  end.
  apply (H (Scraper.Element None
              (Some (Scraper.LABEL_SUBCOMMITTEE ++ s{" : "} ++ [1633; 50])))
           (Scraper.LABEL_SUBCOMMITTEE ++ s{" : "} ++ [1633; 50]) [1633; 50]);
    try reflexivity.
  exists [], s{" : "}, []. vm_compute. repeat split; discriminate.
Defined.

(** ** File names and header row of the batch *)

Section FileNames.

Lemma replace_missing a old new s :
  Py.contains (a :: old) s = false -> Py.replace_from (a :: old) new 0 s = s.
Proof.
  induction s as [|c s IH]; [reflexivity|].
  cbn [Py.contains]. intros H. apply orb_false_iff in H as [Hhere Hlater].
  cbn [Py.replace_from]. rewrite Hhere, (IH Hlater). reflexivity.
Qed.

Lemma replace_after a old new stem s :
  ~ In a stem ->
  Py.replace_from (a :: old) new 0 (stem ++ s)
    = stem ++ Py.replace_from (a :: old) new 0 s.
Proof.
  induction stem as [|c stem IH]; intros Hn; [reflexivity|].
  cbn [app Py.replace_from Py.startswith].
  replace (a =? c) with false
    by (symmetry; apply Z.eqb_neq; intros ->; apply Hn; left; reflexivity).
  cbn [andb]. rewrite IH; [reflexivity|]. intros H. apply Hn. right. exact H.
Qed.

Lemma lower_app a b : Py.lower (a ++ b) = Py.lower a ++ Py.lower b.
Proof. apply map_app. Qed.

Lemma endswith_app a s : Py.endswith (a ++ s) s = true.
Proof. unfold Py.endswith. rewrite rev_app_distr. apply startswith_self. Qed.

End FileNames.

(** X21. The name of the workbook the batch goes on with. A name that
    ends in [.csv] and has no other dot is taken for a CSV file and the
    workbook is the file of the same name with [.xlsx] for [.csv]. A name that is
    taken for a CSV file but does not contain [.csv] as it is written, as
    with a capital extension, is left as it is: the Excel file the
    conversion is asked to write is the CSV file itself. *)
Theorem csv_name_becomes_excel_name :
  (forall stem, ~ In 46 stem ->
     Batch.is_csv (stem ++ s{".csv"}) = true
     /\ Batch.loaded_file (stem ++ s{".csv"}) = stem ++ s{".xlsx"})
  /\ (forall name, Batch.is_csv name = true ->
        Py.contains s{".csv"} name = false ->
        Batch.loaded_file name = name).
Proof.
  split.
  - intros stem Hstem.
    assert (Hcsv : Batch.is_csv (stem ++ s{".csv"}) = true).
    { unfold Batch.is_csv. rewrite lower_app. apply endswith_app. }
    split; [exact Hcsv|].
    unfold Batch.loaded_file. rewrite Hcsv.
    unfold Batch.excel_name, Py.replace.
    change s{".csv"} with (46 :: s{"csv"}).
    rewrite (replace_after 46 s{"csv"} s{".xlsx"} stem _ Hstem). reflexivity.
  - intros name Hcsv Hnone. unfold Batch.loaded_file. rewrite Hcsv.
    unfold Batch.excel_name, Py.replace.
    apply (replace_missing 46 s{"csv"}). exact Hnone.
Qed.

Lemma csv_name_becomes_excel_name_witness :
  Batch.loaded_file s{"voters.csv"} = s{"voters.xlsx"}
  /\ Batch.loaded_file s{"VOTERS.CSV"} = s{"VOTERS.CSV"}.
Proof.
  destruct csv_name_becomes_excel_name as [Hlower Hupper]. split.
  - apply (Hlower s{"voters"}). vm_compute. intuition discriminate.
  - apply (Hupper s{"VOTERS.CSV"}); reflexivity.
Defined.

Section Header.

Lemma find_header_app name (a : Batch.header_row) : forall col_idx b,
  Batch.find_header name col_idx (a ++ b) =
    match Batch.find_header name col_idx a with
    | Some found => Some found
    | None => Batch.find_header name (col_idx + length a) b
    end.
Proof.
  induction a as [|cell a IH]; intros col_idx b; cbn [app Batch.find_header length].
  - rewrite Nat.add_0_r. reflexivity.
  - replace (col_idx + S (length a))%nat with (S col_idx + length a)%nat by lia.
    destruct cell as [text|]; [|apply IH].
    destruct (negb (Py.eqb text []) && Py.contains name text); [reflexivity|apply IH].
Qed.

Lemma find_header_from name (header : Batch.header_row) : forall i j,
  Batch.find_header name i header = None ->
  Batch.find_header name j header = None.
Proof.
  induction header as [|cell header IH]; intros i j H; [reflexivity|].
  cbn [Batch.find_header] in *. destruct cell as [text|]; [|exact (IH _ _ H)].
  destruct (negb (Py.eqb text []) && Py.contains name text);
    [discriminate|exact (IH _ _ H)].
Qed.

(** The names the batch has added, in a header where nothing else holds
    the name: the search finds the column of the name itself. *)
Lemma find_added (header : Batch.header_row) col :
  fresh_header header ->
  Batch.find_header (Batch.column_name col) 1
    (header ++ map (fun c => Some (Batch.column_name c)) Batch.output_columns)
  = Some (length header
          + match col with
            | Batch.Center => 1 | Batch.District => 2 | Batch.Address => 3
            | Batch.Subcommittee => 4 | Batch.ListNumber => 5 | Batch.Status => 6
            end)%nat.
Proof.
  intros Hfresh. rewrite find_header_app, (Hfresh col).
  destruct col; cbn; f_equal; lia.
Qed.

Lemma find_partly_added (header : Batch.header_row) col (added : list Batch.column) :
  fresh_header header ->
  existsb (fun c => Py.contains (Batch.column_name col) (Batch.column_name c))
    added = false ->
  Batch.find_header (Batch.column_name col) 1
    (header ++ map (fun c => Some (Batch.column_name c)) added) = None.
Proof.
  intros Hfresh Hnone. rewrite find_header_app, (Hfresh col).
  generalize (1 + length header)%nat.
  induction added as [|c added IH]; intros i; [reflexivity|].
  cbn [existsb] in Hnone. apply orb_false_iff in Hnone as [Hc Hrest].
  cbn [map Batch.find_header]. rewrite Hc, andb_false_r. apply IH, Hrest.
Qed.

Lemma find_or_create_new col names (header : Batch.header_row) :
  Batch.find_header (Batch.column_name col) 1 header = None ->
  Batch.find_or_create (col :: names) header =
    ((col, S (length header))
       :: fst (Batch.find_or_create names (header ++ [Some (Batch.column_name col)])),
     snd (Batch.find_or_create names (header ++ [Some (Batch.column_name col)]))).
Proof.
  intros H. cbn [Batch.find_or_create]. rewrite H.
  destruct (Batch.find_or_create names _). reflexivity.
Qed.

Lemma find_or_create_old col names (header : Batch.header_row) col_idx :
  Batch.find_header (Batch.column_name col) 1 header = Some col_idx ->
  Batch.find_or_create (col :: names) header =
    ((col, col_idx) :: fst (Batch.find_or_create names header),
     snd (Batch.find_or_create names header)).
Proof.
  intros H. cbn [Batch.find_or_create]. rewrite H.
  destruct (Batch.find_or_create names _). reflexivity.
Qed.

End Header.

(** X22. The output columns of a sheet that has none. When no cell of
    the header row holds the name of an output column, the six columns
    are added after the last column, in the order of the dict and one
    column each, and no column that was there is used; on the header row
    that results, the same six columns are found again and none is
    added. *)
Theorem output_columns_are_added_once (header : Batch.header_row) :
  fresh_header header ->
  let n := length header in
  let added := header ++ map (fun c => Some (Batch.column_name c))
                           Batch.output_columns in
  let columns :=
    [(Batch.Center, n + 1); (Batch.District, n + 2); (Batch.Address, n + 3);
     (Batch.Subcommittee, n + 4); (Batch.ListNumber, n + 5);
     (Batch.Status, n + 6)]%nat in
  Batch.find_or_create Batch.output_columns header = (columns, added)
  /\ Batch.find_or_create Batch.output_columns added = (columns, added).
Proof.
  intros Hfresh. cbv zeta. split.
  - unfold Batch.output_columns.
    rewrite find_or_create_new by exact (Hfresh Batch.Center).
    rewrite find_or_create_new
      by exact (find_partly_added header Batch.District [Batch.Center]
                  Hfresh eq_refl).
    rewrite <- !app_assoc. cbn [app].
    rewrite find_or_create_new
      by exact (find_partly_added header Batch.Address
                  [Batch.Center; Batch.District] Hfresh eq_refl).
    rewrite <- !app_assoc. cbn [app].
    rewrite find_or_create_new
      by exact (find_partly_added header Batch.Subcommittee
                  [Batch.Center; Batch.District; Batch.Address] Hfresh eq_refl).
    rewrite <- !app_assoc. cbn [app].
    rewrite find_or_create_new
      by exact (find_partly_added header Batch.ListNumber
                  [Batch.Center; Batch.District; Batch.Address; Batch.Subcommittee]
                  Hfresh eq_refl).
    rewrite <- !app_assoc. cbn [app].
    rewrite find_or_create_new
      by exact (find_partly_added header Batch.Status
                  [Batch.Center; Batch.District; Batch.Address; Batch.Subcommittee;
                   Batch.ListNumber] Hfresh eq_refl).
    rewrite <- !app_assoc. cbn [app Batch.find_or_create fst snd map].
    rewrite !length_app. cbn [length].
    repeat f_equal; lia.
  - unfold Batch.output_columns at 1.
    rewrite !(find_or_create_old _ _ _ _ (find_added header _ Hfresh)).
    cbn [Batch.find_or_create fst snd]. repeat f_equal; lia.
Qed.

Lemma output_columns_are_added_once_witness :
  Batch.find_or_create Batch.output_columns
    [Some Batch.ID_HEADER; None; Some s{"name"}]
  = ([(Batch.Center, 4); (Batch.District, 5); (Batch.Address, 6);
      (Batch.Subcommittee, 7); (Batch.ListNumber, 8); (Batch.Status, 9)]%nat,
     [Some Batch.ID_HEADER; None; Some s{"name"}]
       ++ map (fun c => Some (Batch.column_name c)) Batch.output_columns).
Proof.
  apply (output_columns_are_added_once
           [Some Batch.ID_HEADER; None; Some s{"name"}]).
  intros col. destruct col; reflexivity.
Defined.
